(** * SoDeLe: weather-data ingestion and multi-plant PV simulation orchestration

    Shallow embedding of
    - [src/src/sodele/interfaces/weather_data.py] (WeatherData, its
      timestamp shift and DNI recalculation),
    - [src/src/sodele/core/weather_data_reader.py] (the DWD TRY [.dat] reader),
    - [src/src/sodele/core/pv_simulation.py] (the packaged orchestrator and
      aggregation) and the legacy [src/src/sodele/PVSImulation.py],
    - [src/src/sodele/misc/database.py].

    Weather series are modelled with Rocq's primitive IEEE-754 binary64
    floats, so NaN and negative zero exist as in numpy.  The plant energy
    figures of the aggregation are modelled with exact rationals [Q]
    (rounding of the float sums is abstracted away). *)

From Stdlib Require Import ZArith QArith List String Ascii Bool Lia.
From Stdlib Require Import PrimFloat.
From Stdlib Require Floats.
Import ListNotations.

(** ** Python exceptions and a small error monad *)
Module Py.

Inductive PyErr : Type :=
| ValueError (msg : string)
| KeyError (key : string)
| IndexError
| AttributeError (msg : string)
| ZeroDivisionError (msg : string).

Inductive result (A : Type) : Type :=
| Ok (a : A)
| Err (e : PyErr).
Arguments Ok {A} a.
Arguments Err {A} e.

Definition bind {A B : Type} (m : result A) (k : A -> result B) : result B :=
  match m with
  | Ok a => k a
  | Err e => Err e
  end.

Notation "'let*' x ':=' m 'in' k" := (bind m (fun x => k))
  (at level 200, x name, m at level 100, k at level 200).

(** [try: ... except Exception as e: raise ValueError(prefix + str(e))] *)
Definition reraise_value {A : Type} (prefix : string) (m : result A) : result A :=
  match m with
  | Ok a => Ok a
  | Err _ => Err (ValueError prefix)
  end.

(** [xs[0]] *)
Definition first {A : Type} (xs : list A) : result A :=
  match xs with
  | x :: _ => Ok x
  | [] => Err IndexError
  end.

(** [str(n)] for a non-negative integer. *)
Fixpoint digits_rev (fuel n : nat) : list ascii :=
  match fuel with
  | O => []
  | S f =>
      let d := ascii_of_nat (48 + Nat.modulo n 10) in
      if Nat.ltb n 10 then [d] else d :: digits_rev f (Nat.div n 10)
  end.

Definition str_nat (n : nat) : string :=
  string_of_list_ascii (rev (digits_rev (S n) n)).

(** [d[key]] on a mapping that may lack [key] *)
Definition require {A : Type} (key : string) (o : option A) : result A :=
  match o with Some a => Ok a | None => Err (KeyError key) end.

(** [s] occurs inside [msg]. *)
Definition infix (s msg : string) : Prop :=
  exists pre post, msg = (pre ++ s ++ post)%string.

End Py.
Import Py.

(** ** Timestamps

    A pandas [Timestamp] with a fixed UTC offset: the UTC instant in minutes
    since 1970-01-01 00:00 UTC and the offset in seconds.  Every shift in the
    code is a whole number of minutes. *)
Module Time.
Local Open Scope Z_scope.

Record Timestamp : Type := mkTs { ts_utc : Z; ts_tz : Z }.

(** days since 1970-01-01 of the civil date [y-m-d] (proleptic Gregorian) *)
Definition days_from_civil (y m d : Z) : Z :=
  let y' := if m <=? 2 then y - 1 else y in
  let era := y' / 400 in
  let yoe := y' - era * 400 in
  let mp := (m + 9) mod 12 in
  let doy := (153 * mp + 2) / 5 + d - 1 in
  let doe := yoe * 365 + yoe / 4 - yoe / 100 + doy in
  era * 146097 + doe - 719468.

(** inverse: civil date (y, m, d) of a day count *)
Definition civil_from_days (z : Z) : Z * Z * Z :=
  let z := z + 719468 in
  let era := z / 146097 in
  let doe := z - era * 146097 in
  let yoe := (doe - doe / 1460 + doe / 36524 - doe / 146096) / 365 in
  let doy := doe - (365 * yoe + yoe / 4 - yoe / 100) in
  let mp := (5 * doy + 2) / 153 in
  let d := doy - (153 * mp + 2) / 5 + 1 in
  let m := if mp <? 10 then mp + 3 else mp - 9 in
  let y := yoe + era * 400 in
  (if m <=? 2 then y + 1 else y, m, d).

(** wall-clock minutes (local time) of a timestamp *)
Definition wall (t : Timestamp) : Z := ts_utc t + ts_tz t / 60.

(** the timestamp showing the local wall time [y-m-d hh:mm] at offset [tz] *)
Definition localize (y m d hh mm tz : Z) : Timestamp :=
  mkTs ((days_from_civil y m d * 24 + hh) * 60 + mm - tz / 60) tz.

Definition month_of (t : Timestamp) : Z :=
  let '(_, m, _) := civil_from_days (wall t / 1440) in m.
Definition day_of (t : Timestamp) : Z :=
  let '(_, _, d) := civil_from_days (wall t / 1440) in d.
Definition hour_of (t : Timestamp) : Z := (wall t mod 1440) / 60.

(** [ts + pd.Timedelta(minutes=m)]: moves the instant, keeps the offset *)
Definition add_minutes (t : Timestamp) (m : Z) : Timestamp :=
  mkTs (ts_utc t + m) (ts_tz t).

(** [pd.date_range(start, end, freq='h', tz=...)]: [n] hourly stamps *)
Fixpoint hourly_from (start : Timestamp) (n : nat) : list Timestamp :=
  match n with
  | O => []
  | S k => start :: hourly_from (add_minutes start 60) k
  end.

Definition date_range_hourly (start stop : Timestamp) : list Timestamp :=
  hourly_from start (S (Z.to_nat ((ts_utc stop - ts_utc start) / 60))).

End Time.
Import Time.

(** ** The weather dataset ([interfaces/weather_data.py]) *)
Module Weather.

Record WeatherEntry : Type := mkEntry {
  timeStamps : list Timestamp;
  month : list Z;
  day : list Z;
  hour : list Z;
  temp_air : list float;
  atmospheric_pressure : list float;
  wind_direction : list float;
  wind_speed : list float;
  sky_cover : list float;
  precipitable_water : list float;
  relative_humidity : list float;
  dni : list float;
  ghi : list float;
  dhi : list float }.

Record WeatherData : Type := mkWeatherData {
  altitude : float;
  kind : string;
  years : Z;
  latitude : float;
  longitude : float;
  tz : Z;
  adjustTimestamp : bool;
  recalculateDNI : bool;
  timeshiftInMinutes : Z;
  weatherData : WeatherEntry }.

(** [self.weatherData.timeStamps = ...] *)
Definition set_timeStamps (e : WeatherEntry) (ts : list Timestamp) : WeatherEntry :=
  mkEntry ts (month e) (day e) (hour e) (temp_air e) (atmospheric_pressure e)
    (wind_direction e) (wind_speed e) (sky_cover e) (precipitable_water e)
    (relative_humidity e) (dni e) (ghi e) (dhi e).

(** [self.weatherData.dni = ...] *)
Definition set_dni (e : WeatherEntry) (d : list float) : WeatherEntry :=
  mkEntry (timeStamps e) (month e) (day e) (hour e) (temp_air e)
    (atmospheric_pressure e) (wind_direction e) (wind_speed e) (sky_cover e)
    (precipitable_water e) (relative_humidity e) d (ghi e) (dhi e).

Definition set_weatherData (wd : WeatherData) (e : WeatherEntry) : WeatherData :=
  mkWeatherData (altitude wd) (kind wd) (years wd) (latitude wd) (longitude wd)
    (tz wd) (adjustTimestamp wd) (recalculateDNI wd) (timeshiftInMinutes wd) e.

Definition column_lengths (e : WeatherEntry) : list nat :=
  [List.length (timeStamps e); List.length (month e); List.length (day e);
   List.length (hour e); List.length (temp_air e);
   List.length (atmospheric_pressure e); List.length (wind_direction e);
   List.length (wind_speed e); List.length (sky_cover e);
   List.length (precipitable_water e); List.length (relative_humidity e);
   List.length (dni e); List.length (ghi e); List.length (dhi e)].

(** [generate_df]: [pd.DataFrame.from_dict(self.weatherData.model_dump())]
    raises unless all columns have one length; the frame itself is derived
    data, indexed by [timeStamps]. *)
Definition generate_df (wd : WeatherData) : result unit :=
  let ls := column_lengths (weatherData wd) in
  if forallb (Nat.eqb (List.length (timeStamps (weatherData wd)))) ls
  then Ok tt
  else Err (ValueError "All arrays must be of the same length").

(** [adjust_time_stamp]: index + Timedelta(minutes=timeshiftInMinutes);
    [new_time_index[0]] raises on an empty index. *)
Definition adjust_time_stamp (wd : WeatherData) : result WeatherData :=
  let e := weatherData wd in
  let new_time_index :=
    map (fun t => add_minutes t (timeshiftInMinutes wd)) (timeStamps e) in
  let* _new_start_time := first new_time_index in
  let wd' := set_weatherData wd (set_timeStamps e new_time_index) in
  let* _ := generate_df wd' in
  Ok wd'.

(** elementwise combination of aligned series (pandas aligns on the common
    index; [generate_df] guarantees equal lengths) *)
Fixpoint zip_with3 {A B C D : Type} (f : A -> B -> C -> D)
    (xs : list A) (ys : list B) (zs : list C) : list D :=
  match xs, ys, zs with
  | x :: xs', y :: ys', z :: zs' => f x y z :: zip_with3 f xs' ys' zs'
  | _, _, _ => []
  end.

Definition zip_with {A B C : Type} (f : A -> B -> C) (xs : list A) (ys : list B)
  : list C := zip_with3 (fun x y _ => f x y) xs ys xs.

Local Open Scope float_scope.

(** [Series.fillna(0.0)] *)
Definition fillna0 (x : float) : float := if is_nan x then 0 else x.

(** [np.nan_to_num(x, nan=0.0)]: NaN to 0, infinities to the extreme finite
    doubles *)
Definition nan_to_num0 (x : float) : float :=
  if is_nan x then 0
  else if x =? infinity then 0x1.fffffffffffffp+1023
  else if x =? neg_infinity then -0x1.fffffffffffffp+1023
  else x.

(** [dni[dni == -0.0] = 0.0]; IEEE [==] also holds for [+0.0] *)
Definition fix_neg_zero (x : float) : float := if x =? neg_zero then 0 else x.

Section Collaborators.

(** [pvlib.solarposition.get_solarposition(...)["zenith"]] at one timestamp
    with the site's latitude, longitude, altitude and the pressure there *)
Variable solar_zenith : Timestamp -> float -> float -> float -> float -> float.
(** [pvlib.irradiance.dni(ghi, dhi, zenith)], elementwise *)
Variable irradiance_dni : float -> float -> float -> float.

Definition recalculate_dni (wd : WeatherData) : result WeatherData :=
  let e := weatherData wd in
  let zenith :=
    zip_with (fun t p => solar_zenith t (latitude wd) (longitude wd) (altitude wd) p)
      (timeStamps e) (atmospheric_pressure e) in
  let raw := zip_with3 irradiance_dni (ghi e) (dhi e) zenith in
  let d := map fix_neg_zero (map nan_to_num0 (map fillna0 raw)) in
  let wd' := set_weatherData wd (set_dni e d) in
  let* _ := generate_df wd' in
  Ok wd'.

(** the logger's records *)
Inductive LogRecord : Type :=
| Info (msg : string)
| Warning (msg : string).

Definition dni_warning : string :=
  "Attention: Adjusting the time stamp without recalculating the direct normal radiation may result in an incorrect data record!".

(** lines 352-358 of [simulate_pv_plants] ([core/pv_simulation.py]) *)
Definition prepare_weather (wd : WeatherData)
  : result (WeatherData * list LogRecord) :=
  let* wd1 := if adjustTimestamp wd then adjust_time_stamp wd else Ok wd in
  if recalculateDNI wd1 then
    let log := if negb (adjustTimestamp wd1) then [Warning dni_warning] else [] in
    let* wd2 := recalculate_dni wd1 in
    Ok (wd2, log)
  else Ok (wd1, []).

End Collaborators.

End Weather.
Import Weather.

(** ** The DWD TRY [.dat] reader ([core/weather_data_reader.py]) *)
Module DatReader.
Local Open Scope string_scope.

(** [str(e)] of the exceptions caught by the reader's [try] blocks *)
Definition err_str (e : PyErr) : string :=
  match e with
  | ValueError msg => msg
  | KeyError k => "'" ++ k ++ "'"
  | IndexError => "list index out of range"
  | AttributeError msg => msg
  | ZeroDivisionError msg => msg
  end.

(** [except Exception as e: raise ValueError(prefix + str(e))] *)
Definition reraise (prefix : string) {A : Type} (m : result A) : result A :=
  match m with
  | Ok a => Ok a
  | Err e => Err (ValueError (prefix ++ err_str e))
  end.

(** *** character classes and regular expressions *)
Definition is_digit (c : ascii) : bool :=
  let n := nat_of_ascii c in Nat.leb 48 n && Nat.leb n 57.
Definition is_letter (c : ascii) : bool :=
  let n := nat_of_ascii c in
  (Nat.leb 65 n && Nat.leb n 90) || (Nat.leb 97 n && Nat.leb n 122).
(** Python's ASCII whitespace: space, \t, \n, \x0b, \x0c, \r *)
Definition is_space (c : ascii) : bool :=
  let n := nat_of_ascii c in Nat.eqb n 32 || (Nat.leb 9 n && Nat.leb n 13).

(** [re.findall(r"<class>+", s)]: the maximal runs of characters of a class *)
Fixpoint runs_aux (p : ascii -> bool) (cs cur : list ascii) : list (list ascii) :=
  match cs with
  | [] => match cur with [] => [] | _ => [rev cur] end
  | c :: cs' =>
      if p c then runs_aux p cs' (c :: cur)
      else match cur with
           | [] => runs_aux p cs' []
           | _ => rev cur :: runs_aux p cs' []
           end
  end.

Definition findall (p : ascii -> bool) (s : string) : list string :=
  map string_of_list_ascii (runs_aux p (list_ascii_of_string s) []).

(** [s.split(sep)] for a one-character separator *)
Fixpoint split_aux (sep : ascii) (cs cur : list ascii) : list (list ascii) :=
  match cs with
  | [] => [rev cur]
  | c :: cs' =>
      if Ascii.eqb c sep then rev cur :: split_aux sep cs' []
      else split_aux sep cs' (c :: cur)
  end.

Definition split (sep : ascii) (s : string) : list string :=
  map string_of_list_ascii (split_aux sep (list_ascii_of_string s) []).

(** [s.strip()] *)
Fixpoint lstrip_aux (cs : list ascii) : list ascii :=
  match cs with
  | c :: cs' => if is_space c then lstrip_aux cs' else cs
  | [] => []
  end.

Definition strip (s : string) : string :=
  string_of_list_ascii (rev (lstrip_aux (rev (lstrip_aux (list_ascii_of_string s))))).

(** [int(s)] for a string of decimal digits *)
Definition int_of_digits (s : string) : Z :=
  fold_left (fun acc c => (acc * 10 + Z.of_nat (nat_of_ascii c - 48))%Z)
    (list_ascii_of_string s) 0%Z.

Local Open Scope float_scope.

Definition float_of_digit (c : ascii) : float :=
  match (nat_of_ascii c - 48)%nat with
  | 0%nat => 0 | 1%nat => 1 | 2%nat => 2 | 3%nat => 3 | 4%nat => 4
  | 5%nat => 5 | 6%nat => 6 | 7%nat => 7 | 8%nat => 8 | _ => 9
  end.

Fixpoint pow10 (k : nat) : float :=
  match k with O => 1 | S k' => 10 * pow10 k' end.

(** [float(int)] *)
Fixpoint float_of_pos (p : positive) : float :=
  match p with
  | xH => 1
  | xO q => 2 * float_of_pos q
  | xI q => 2 * float_of_pos q + 1
  end.

Definition float_of_Z (z : Z) : float :=
  match z with
  | Z0 => 0
  | Zpos p => float_of_pos p
  | Zneg p => - float_of_pos p
  end.

(** the numeric cells of the data block: [[+-]digits[.digits]] *)
Definition parse_float (s : string) : option float :=
  let cs := list_ascii_of_string s in
  let '(neg, body) :=
    match cs with
    | "-"%char :: r => (true, r)
    | "+"%char :: r => (false, r)
    | _ => (false, cs)
    end in
  match split_aux "."%char body [] with
  | [ip] =>
      if forallb is_digit ip && negb (List.length ip =? 0)%nat then
        let v := fold_left (fun acc c => acc * 10 + float_of_digit c) ip 0 in
        Some (if neg then - v else v)
      else None
  | [ip; fp] =>
      if forallb is_digit ip && forallb is_digit fp
         && negb (List.length ip + List.length fp =? 0)%nat then
        let m := fold_left (fun acc c => acc * 10 + float_of_digit c) (ip ++ fp)%list 0 in
        let v := m / pow10 (List.length fp) in
        Some (if neg then - v else v)
      else None
  | _ => None
  end.

Local Close Scope float_scope.

(** *** the header block *)

(** the [metadata] dict of the reader, one slot per target key *)
Record Meta : Type := mkMeta {
  m_Rechtswert : option Z;
  m_Hochwert : option Z;
  m_altitude : option Z;
  m_kind : option string }.

Definition empty_meta : Meta := mkMeta None None None None.

Inductive Target : Type := TRechtswert | THochwert | TAltitude | TKind.

(** [meta_keys], in dict order: label prefix and target *)
Definition meta_keys : list (string * Target) :=
  [("Rechtswert", TRechtswert); ("Hochwert", THochwert);
   ("Hoehenlage", TAltitude); ("Art des TRY", TKind)].

(** [meta_key_info["converter"](data)] followed by the store into
    [metadata[meta_key_info["target"]]] *)
Definition convert_store (t : Target) (data : string) (m : Meta) : result Meta :=
  match t with
  | TKind => Ok (mkMeta (m_Rechtswert m) (m_Hochwert m) (m_altitude m) (Some (strip data)))
  | _ =>
      let* d := first (findall is_digit data) in
      let z := int_of_digits d in
      Ok (match t with
          | TRechtswert => mkMeta (Some z) (m_Hochwert m) (m_altitude m) (m_kind m)
          | THochwert => mkMeta (m_Rechtswert m) (Some z) (m_altitude m) (m_kind m)
          | _ => mkMeta (m_Rechtswert m) (m_Hochwert m) (Some z) (m_kind m)
          end)
  end.

(** the inner [for meta_key, meta_key_info in meta_keys.items()] loop *)
Fixpoint scan_keys (path line : string) (keys : list (string * Target)) (m : Meta)
  : result Meta :=
  match keys with
  | [] => Ok m
  | (key, t) :: keys' =>
      if String.prefix key line then
        let row := split ":"%char line in
        let* data := match row with _ :: d :: _ => Ok d | _ => Err IndexError end in
        let* m' := reraise ("Could not read in the metadata of .dat weather data file "
                             ++ path ++ ". The following error occured: ")
                     (convert_store t data m) in
        scan_keys path line keys' m'
      else scan_keys path line keys' m
  end.

(** the outer [for line in dat_file_raw] loop: metadata, the column names
    (letter runs of the line before the sentinel) and the lines the file
    iterator has not consumed yet *)
Fixpoint scan_header (path : string) (m : Meta) (last_line : string) (lines : list string)
  : result (Meta * list string * list string) :=
  match lines with
  | [] => Ok (m, [], [])
  | line :: rest =>
      if String.prefix "***" line then Ok (m, findall is_letter last_line, rest)
      else
        let* m' := scan_keys path line meta_keys m in
        scan_header path m' line rest
  end.

(** *** the data block: [pd.read_table(..., header=None, names=column_names, sep=r"\s+")]

    Blank lines are skipped; a row shorter than [names] is padded with NaN;
    a row with more cells than [names], a non-numeric cell, duplicate names
    or no columns at all make the read fail. *)
Definition blank (s : string) : bool := forallb is_space (list_ascii_of_string s).

Fixpoint parse_cells (cells : list string) : result (list float) :=
  match cells with
  | [] => Ok []
  | c :: cs =>
      match parse_float c with
      | Some v => let* vs := parse_cells cs in Ok (v :: vs)
      | None => Err (ValueError ("could not convert string to float: '" ++ c ++ "'"))
      end
  end.

Definition parse_row (ncols : nat) (line : string) : result (list float) :=
  let cells := findall (fun c => negb (is_space c)) line in
  if Nat.ltb ncols (List.length cells)
  then Err (ValueError "Error tokenizing data")
  else let* vs := parse_cells cells in
       Ok (vs ++ repeat nan (ncols - List.length cells))%list.

Fixpoint parse_rows (ncols : nat) (lines : list string) : result (list (list float)) :=
  match lines with
  | [] => Ok []
  | l :: ls =>
      if blank l then parse_rows ncols ls
      else let* r := parse_row ncols l in
           let* rs := parse_rows ncols ls in
           Ok (r :: rs)
  end.

Fixpoint has_dup (xs : list string) : bool :=
  match xs with
  | [] => false
  | x :: xs' => existsb (String.eqb x) xs' || has_dup xs'
  end.

Definition read_table (names rest : list string) : result (list (list float)) :=
  match names with
  | [] => Err (ValueError "No columns to parse from file")
  | _ =>
      if has_dup names then Err (ValueError "Duplicate names are not allowed.")
      else parse_rows (List.length names) rest
  end.

(** [dat_data[name]] *)
Fixpoint col_index (names : list string) (name : string) : option nat :=
  match names with
  | [] => None
  | n :: ns =>
      if String.eqb n name then Some O
      else option_map S (col_index ns name)
  end.

Definition column (names : list string) (rows : list (list float)) (name : string)
  : result (list float) :=
  match col_index names name with
  | Some i => Ok (map (fun r => nth i r nan) rows)
  | None => Err (KeyError name)
  end.

(** *** [read_in_dat_file] *)

Definition count_error (path : string) (n : nat) : string :=
  "Could not read in the .dat weather data file " ++ path ++ ". " ++ str_nat n
  ++ " datapoints has been read in instead of 8760. Checke the .dat file and make sure, that the datapoints begin with ***!".

(** [pd.date_range(start='2015-01-01 00:00:00', end='2015-12-31 23:00:00',
    freq='h', tz=int(metadata['TZ'] * 60 * 60))] with [metadata['TZ'] = 1] *)
Definition dat_range : list Timestamp :=
  date_range_hourly (localize 2015 1 1 0 0 3600) (localize 2015 12 31 23 0 3600).

Section Reader.

(** [pyproj.Transformer.from_crs('EPSG:3034', 'EPSG:4326').transform(Hochwert,
    Rechtswert)] *)
Variable transform : Z -> Z -> float * float.

(** [path] is the name of the temporary file [with_tempfile] wrote the bytes
    to; [lines] are its lines without their line terminators. *)
Definition read_in_dat_file (path : string) (lines : list string) : result WeatherData :=
  let* hdr := scan_header path empty_meta "" lines in
  let '(metadata, column_names, rest) := hdr in
  let* hochwert := require "Hochwert" (m_Hochwert metadata) in
  let* rechtswert := require "Rechtswert" (m_Rechtswert metadata) in
  let '(lat, lon) := transform hochwert rechtswert in
  let* dat_data :=
    reraise ("Could not read the datapoints in the .dat weather data file " ++ path
             ++ ". The following error occured: ") (read_table column_names rest) in
  if negb (Z.of_nat (List.length dat_data) =? 8760)%Z then
    Err (ValueError (count_error path (List.length dat_data)))
  else
    let* p := column column_names dat_data "p" in
    let p := map (fun v => (v * 100)%float) p in
    let* t := column column_names dat_data "t" in
    let* rf := column column_names dat_data "RF" in
    let* wg := column column_names dat_data "WG" in
    let* d := column column_names dat_data "D" in
    let* b := column column_names dat_data "B" in
    let ghi0 := zip_with (fun x y => (x + y)%float) d b in
    (* [for col in column_names: df_weatherData[col] = dat_data[col]] *)
    let* dhi' := if existsb (String.eqb "dhi") column_names
                 then column column_names dat_data "dhi" else Ok d in
    let* ghi' := if existsb (String.eqb "ghi") column_names
                 then column column_names dat_data "ghi" else Ok ghi0 in
    if existsb (String.eqb "date") column_names
    then Err (AttributeError "Can only use .dt accessor with datetimelike values")
    else
      let* wr := column column_names dat_data "WR" in
      let* n := column column_names dat_data "N" in
      let* x := column column_names dat_data "x" in
      let wd := mkWeatherData
        (float_of_Z (match m_altitude metadata with Some a => a | None => 0%Z end))
        (match m_kind metadata with Some k => k | None => "unknown" end)
        2015 lat lon 1 true true 30
        (mkEntry dat_range (map month_of dat_range) (map day_of dat_range)
           (map hour_of dat_range) t p wr wg n x rf b ghi' dhi') in
      let* _ := generate_df wd in
      Ok wd.

End Reader.

End DatReader.

(** ** Plants, the orchestrator and the aggregation
    ([interfaces/pv_specifics.py], [misc/database.py],
    [core/pv_simulation.py], legacy [PVSImulation.py]) *)
Module PvSim.
Local Open Scope string_scope.

(** [str(z)] for an integer *)
Definition str_Z (z : Z) : string :=
  if (z <? 0)%Z then "-" ++ str_nat (Z.to_nat (- z)) else str_nat (Z.to_nat z).

(** the module-database fields the orchestrator reads: Sandia rows carry
    [Impo], [Vmpo], [Area]; CEC rows carry [I_mp_ref], [V_mp_ref], [A_c] *)
Record ModuleParams : Type := mkModule {
  Impo : Q; Vmpo : Q; Area : Q;
  I_mp_ref : Q; V_mp_ref : Q; A_c : Q }.

(** an inverter-database row (opaque to the orchestrator) *)
Record InverterParams : Type := mkInverter { inverter_row : list (string * Q) }.

Record PhotovoltaicPlant : Type := mkPlant {
  surfaceAzimuth : Q;
  surfaceTilt : Q;
  modulesPerString : Q;
  stringsPerInverter : Z;
  numberOfInverters : Z;
  albedo : Q;
  moduleInstallation : Z;
  moduleName : string;
  lossesIrradiation : Q;
  lossesDCDatasheet : Q;
  lossesDCCables : Q;
  modulesDatabaseType : Z;
  useInverterDatabase : bool;
  inverterName : string;
  useStandByPowerInverter : bool;
  inverterEta : Q;
  energyProfile : option (list Q);
  surfaceArea : option Q;
  systemKWP : option Q }.

(** the three result assignments of [simulate_pv_plants] *)
Definition set_results (p : PhotovoltaicPlant) (ep : list Q) (a k : Q) : PhotovoltaicPlant :=
  mkPlant (surfaceAzimuth p) (surfaceTilt p) (modulesPerString p)
    (stringsPerInverter p) (numberOfInverters p) (albedo p) (moduleInstallation p)
    (moduleName p) (lossesIrradiation p) (lossesDCDatasheet p) (lossesDCCables p)
    (modulesDatabaseType p) (useInverterDatabase p) (inverterName p)
    (useStandByPowerInverter p) (inverterEta p) (Some ep) (Some a) (Some k).

(** [energyProfileArea] property: a list comprehension of float divisions,
    so a zero [surfaceArea] raises [ZeroDivisionError] as soon as the
    profile has an element *)
Definition energyProfileArea (p : PhotovoltaicPlant) : result (list Q) :=
  match energyProfile p with
  | None => Ok []
  | Some ep =>
      match surfaceArea p with
      | None => Ok []
      | Some a =>
          if Qeq_bool a 0 then
            match ep with
            | [] => Ok []
            | _ :: _ => Err (ZeroDivisionError "float division by zero")
            end
          else Ok (map (fun v => v / a) ep)
      end
  end.

Definition qsum (xs : list Q) : Q := fold_left Qplus xs 0.

(** the [energyProfileSum], [energyProfileAreaSum] and [energyKWPSum]
    properties.  Python's float division by zero raises ZeroDivisionError;
    here [x / 0 = 0] stands in for it, and the properties about these
    accessors exclude a zero divisor. *)
Definition energyProfileSum (p : PhotovoltaicPlant) : Q :=
  match energyProfile p with None => 0 | Some ep => qsum ep end.

Definition energyProfileAreaSum (p : PhotovoltaicPlant) : Q :=
  match surfaceArea p with
  | None => 0
  | Some a => match energyProfile p with None => 0 | Some _ => energyProfileSum p / a end
  end.

Definition energyKWPSum (p : PhotovoltaicPlant) : Q :=
  match systemKWP p with
  | None => 0
  | Some k => match energyProfile p with None => 0 | Some _ => energyProfileSum p / k end
  end.

Section Orchestrator.

(** [RES_PREFIX = f"{os.getcwd()}/src/sodele/res/PV_Database"] *)
Variable RES_PREFIX : string.
(** [pvlib.pvsystem.retrieve_sam(path=...)[name]]; [None] when the name is
    not a column of the table *)
Variable retrieve_module : string -> string -> option ModuleParams.
Variable retrieve_inverter : string -> string -> option InverterParams.
(** the model chain run ([mc.run_model(weather)]): hourly DC [v_mp] and
    [p_mp], [None] for NaN; it may raise *)
Variable run_model : PhotovoltaicPlant -> ModuleParams -> InverterParams ->
                     WeatherData -> result (list (option Q * option Q)).
(** [pvlib.inverter.sandia(v_dc, p_dc, inverter)], elementwise *)
Variable sandia : InverterParams -> option Q -> option Q -> option Q.

(** [get_database_paths] ([misc/database.py]) *)
Definition get_database_paths (modules_database_type : Z) : result (string * string) :=
  if (modules_database_type =? 1)%Z then
    Ok (RES_PREFIX ++ "/220225_Sandia_Modules.csv", RES_PREFIX ++ "/221115_CEC_Inverters.csv")
  else if (modules_database_type =? 2)%Z then
    Ok (RES_PREFIX ++ "/221115_CEC_Modules.csv", RES_PREFIX ++ "/221115_CEC_Inverters.csv")
  else Err (ValueError ("Unknown modules database type: " ++ str_Z modules_database_type)).

(** the [modulesDatabasePath] and [invertersDatabasePath] properties:
    [get_database_paths(self.modulesDatabaseType)[0]] and [[1]] *)
Definition modulesDatabasePath (p : PhotovoltaicPlant) : result string :=
  let* paths := get_database_paths (modulesDatabaseType p) in Ok (fst paths).
Definition invertersDatabasePath (p : PhotovoltaicPlant) : result string :=
  let* paths := get_database_paths (modulesDatabaseType p) in Ok (snd paths).

(** [PhotovoltaicPlant.get_modules_and_inverters] *)
Definition get_modules_and_inverters (p : PhotovoltaicPlant)
  : result (ModuleParams * InverterParams) :=
  let* paths := get_database_paths (modulesDatabaseType p) in
  let* m := require (moduleName p) (retrieve_module (fst paths) (moduleName p)) in
  let* paths' := get_database_paths (modulesDatabaseType p) in
  let* i := require (inverterName p) (retrieve_inverter (snd paths') (inverterName p)) in
  Ok (m, i).

(** [module_installation_switch[...]] *)
Definition module_installation_type (k : Z) : result string :=
  if (k =? 1)%Z then Ok "open_rack_glass_glass"
  else if (k =? 2)%Z then Ok "open_rack_glass_polymer"
  else if (k =? 3)%Z then Ok "close_mount_glass_glass"
  else if (k =? 4)%Z then Ok "insulated_back_glass_polymer"
  else Err (KeyError (str_Z k)).

(** [data_base_switch[...]] *)
Definition dc_model (k : Z) : result string :=
  if (k =? 1)%Z then Ok "sapm"
  else if (k =? 2)%Z then Ok "cec"
  else Err (KeyError (str_Z k)).

Definition qmul_opt (c : Q) (o : option Q) : option Q := option_map (Qmult c) o.

(** [calc_pv_power_profile] up to its [return]: the hourly energy values
    ([pv_power_profile.values * 8760 / size], in Wh), the module surface
    area and the rated power [modules_power_rated] (in W) *)
Definition plant_energy (wd : WeatherData) (p : PhotovoltaicPlant)
  : result (list Q * Q * Q) :=
  let* mi := get_modules_and_inverters p in
  let '(current_module, current_inverter) := mi in
  let* _ := module_installation_type (moduleInstallation p) in
  let* _ := dc_model (modulesDatabaseType p) in
  let* dc := run_model p current_module current_inverter wd in
  let n_modules := inject_Z (numberOfInverters p) * inject_Z (stringsPerInverter p)
                   * modulesPerString p in
  let pv_power_profile :=
    if useInverterDatabase p
    then map (fun vp => qmul_opt (inject_Z (numberOfInverters p))
                          (sandia current_inverter (fst vp) (snd vp))) dc
    else map (fun vp => qmul_opt (inject_Z (numberOfInverters p))
                          (qmul_opt (inverterEta p) (snd vp))) dc in
  let filled := map (fun o => match o with Some v => v | None => 0 end) pv_power_profile in
  let clipped :=
    if negb (useStandByPowerInverter p)
    then map (fun v => if Qlt_le_dec v 0 then 0 else v) filled
    else filled in
  let* rated_area :=
    if (modulesDatabaseType p =? 1)%Z then
      Ok (Impo current_module * Vmpo current_module * n_modules,
          Area current_module * n_modules)
    else if (modulesDatabaseType p =? 2)%Z then
      Ok (I_mp_ref current_module * V_mp_ref current_module * n_modules,
          A_c current_module * n_modules)
    else Err (ValueError "Invalid value for modulesDatabaseType") in
  let '(modules_power_rated, module_surface_area) := rated_area in
  let size := inject_Z (Z.of_nat (List.length clipped)) in
  let pv_energy_profile := map (fun v => v * 8760 / size) clipped in
  Ok (pv_energy_profile, module_surface_area, modules_power_rated).

(** [PvPlantResults] of [core/pv_simulation.py] *)
Record PvPlantResults : Type := mkPvPlantResults {
  r_energyProfile : list Q;
  r_surfaceArea : Q;
  r_sumOfEnergyPerYear : Q }.

(** [calc_pv_power_profile] ([core/pv_simulation.py]) *)
Definition calc_pv_power_profile (wd : WeatherData) (p : PhotovoltaicPlant)
  : result PvPlantResults :=
  let* e := plant_energy wd p in
  let '(pv_energy_profile, module_surface_area, _modules_power_rated) := e in
  Ok (mkPvPlantResults pv_energy_profile module_surface_area
        (qsum pv_energy_profile / 1000)).

(** [CalcPVPowerProfile] (legacy [PVSImulation.py]): energy in kWh, area,
    rated power in kWp *)
Definition CalcPVPowerProfile (wd : WeatherData) (p : PhotovoltaicPlant)
  : result (list Q * Q * Q) :=
  let* e := plant_energy wd p in
  let '(pv_energy_profile, module_surface_area, modules_power_rated) := e in
  Ok (map (fun v => v / 1000) pv_energy_profile, module_surface_area,
      modules_power_rated / 1000).

(** the plant loop of [simulate_pv_plants] *)
Fixpoint simulate_plants (wd : WeatherData) (ps : list PhotovoltaicPlant)
  : result (list PhotovoltaicPlant) :=
  match ps with
  | [] => Ok []
  | p :: ps' =>
      let* results := calc_pv_power_profile wd p in
      let p' := set_results p (r_energyProfile results) (r_surfaceArea results)
                  (r_sumOfEnergyPerYear results) in
      let* ps'' := simulate_plants wd ps' in
      Ok (p' :: ps'')
  end.

(** the plant loop of the legacy [simulatePVPlants] *)
Fixpoint simulatePlants_legacy (wd : WeatherData) (ps : list PhotovoltaicPlant)
  : result (list PhotovoltaicPlant) :=
  match ps with
  | [] => Ok []
  | p :: ps' =>
      let* results := CalcPVPowerProfile wd p in
      let '(ep, a, k) := results in
      let* ps'' := simulatePlants_legacy wd ps' in
      Ok (set_results p ep a k :: ps'')
  end.

End Orchestrator.

(** *** aggregation *)

Definition profile_of (p : PhotovoltaicPlant) : result (list Q) :=
  require "energyProfile" (energyProfile p).
Definition area_of (p : PhotovoltaicPlant) : result Q :=
  require "surfaceArea" (surfaceArea p).
Definition kwp_of (p : PhotovoltaicPlant) : result Q :=
  require "systemKWP" (systemKWP p).

Fixpoint collect {A : Type} (f : PhotovoltaicPlant -> result A) (ps : list PhotovoltaicPlant)
  : result (list A) :=
  match ps with
  | [] => Ok []
  | p :: ps' => let* a := f p in let* rest := collect f ps' in Ok (a :: rest)
  end.

(** [np.sum(np.array(cols), axis=0)] on a 2-D array: the row sums of [n]
    rows *)
Definition rowsum (cols : list (list Q)) (n : nat) : list Q :=
  map (fun t => qsum (map (fun c => nth t c 0) cols)) (seq 0 n).

(** the length of the first row of [np.array(cols)] *)
Definition nrows (cols : list (list Q)) : nat :=
  match cols with [] => O | c :: _ => List.length c end.

(** the energy frame of [generate_energy_profile_data_frame]: a
    [pd.DataFrame] grown column by column, its energy columns and its area
    columns (they alternate in the frame); a cell [None] is NaN *)
Record Frame : Type := mkFrame {
  index_len : nat;
  energy_columns : list (list (option Q));
  area_columns : list (list (option Q)) }.

(** [pd.DataFrame()] *)
Definition empty_frame : Frame := mkFrame 0 [] [].

(** [DataFrame._ensure_valid_index], run by [df[col] = values]: a frame
    without rows takes the index [range(len(values))] of the first
    non-empty list assigned to it, and its columns so far, all empty, are
    reindexed to it, all NaN *)
Definition ensure_valid_index (f : Frame) (values : list Q) : Frame :=
  let k := List.length values in
  if Nat.eqb (index_len f) 0 && negb (Nat.eqb k 0) then
    mkFrame k (map (fun _ => repeat None k) (energy_columns f))
              (map (fun _ => repeat None k) (area_columns f))
  else f.

(** [com.require_length_match]: a list assigned as a column must have the
    index length *)
Definition require_length_match (values : list Q) (n : nat) : result unit :=
  if Nat.eqb (List.length values) n then Ok tt
  else Err (ValueError ("Length of values (" ++ str_nat (List.length values)
              ++ ") does not match length of index (" ++ str_nat n ++ ")")).

(** [df[energy_profile_column] = values] *)
Definition set_energy_column (f : Frame) (values : list Q) : result Frame :=
  let f := ensure_valid_index f values in
  let* _ := require_length_match values (index_len f) in
  Ok (mkFrame (index_len f) (energy_columns f ++ [map Some values]) (area_columns f)).

(** [df[energy_area_profile_column] = values] *)
Definition set_area_column (f : Frame) (values : list Q) : result Frame :=
  let f := ensure_valid_index f values in
  let* _ := require_length_match values (index_len f) in
  Ok (mkFrame (index_len f) (energy_columns f) (area_columns f ++ [map Some values])).

(** the plant loop of [generate_energy_profile_data_frame] (and of the
    legacy [generateEnergyProfileDataFrame]); the [energyProfile] of a
    plant is required, a frame column set to [None] is not modelled *)
Fixpoint fill_frame (f : Frame) (ps : list PhotovoltaicPlant) : result Frame :=
  match ps with
  | [] => Ok f
  | p :: ps' =>
      let* ep := profile_of p in
      let* f := set_energy_column f ep in
      let* ap := energyProfileArea p in
      let* f := set_area_column f ap in
      fill_frame f ps'
  end.

(** a cell in [DataFrame.sum], which skips NaN *)
Definition skipna (c : option Q) : Q :=
  match c with Some v => v | None => 0 end.

(** [df[cols].sum(axis=1)] over a frame of [n] rows *)
Definition rowsum_skipna (cols : list (list (option Q))) (n : nat) : list Q :=
  map (fun t => qsum (map (fun c => skipna (nth t c None)) cols)) (seq 0 n).

(** [DataframeResults]: per-plant energy and area columns and the two
    "all plants" columns *)
Record DataframeResults : Type := mkDataframeResults {
  energy_cols : list (list (option Q));
  area_cols : list (list (option Q));
  all_energy : list Q;
  all_area : list Q }.

(** [generate_energy_profile_data_frame] ([core/pv_simulation.py]); numpy's
    division by a zero [np.sum(surface_area_collector)] (inf or nan) is
    [x / 0 = 0] here *)
Definition generate_energy_profile_data_frame (ps : list PhotovoltaicPlant)
  : result DataframeResults :=
  let* f := fill_frame empty_frame ps in
  let all := rowsum_skipna (energy_columns f) (index_len f) in
  let* areas := collect area_of ps in
  Ok (mkDataframeResults (energy_columns f) (area_columns f) all
        (map (fun v => v / qsum areas) all)).

(** [generateEnergyProfileDataFrame] (legacy [PVSImulation.py]); the
    [energyProfileArea] it reads is the one [calculateProfileMetrics]
    computed with the same division *)
Definition generateEnergyProfileDataFrame (ps : list PhotovoltaicPlant)
  : result DataframeResults :=
  let* f := fill_frame empty_frame ps in
  let n := index_len f in
  Ok (mkDataframeResults (energy_columns f) (area_columns f)
        (rowsum_skipna (energy_columns f) n)
        (map (fun v => v / inject_Z (Z.of_nat (List.length (area_columns f))))
           (rowsum_skipna (area_columns f) n))).

(** [SummaryResults]: per plant and for all plants the triple (annual
    energy, energy per kWp, energy per m^2) *)
Record SummaryResults : Type := mkSummaryResults {
  per_plant : list (Q * Q * Q);
  over_all : Q * Q * Q }.

(** [np.array(energy_profile_collector)]: equally long profiles make a 2-D
    array, numpy (1.24 and later) refuses ragged ones *)
Definition np_array_2d (eps : list (list Q)) : result unit :=
  if forallb (fun c => Nat.eqb (List.length c) (nrows eps)) eps then Ok tt
  else Err (ValueError ("setting an array element with a sequence. The requested array has an inhomogeneous shape after 1 dimensions. The detected shape was ("
              ++ str_nat (List.length eps) ++ ",) + inhomogeneous part.")).

(** [generate_summary_data_frame] (the legacy [generateSummaryDataFrame] is
    the same computation): the collecting loop evaluates [energyProfileArea]
    of every plant; [np.sum(..., axis=1)] needs a non-empty 2-D array;
    numpy's divisions by zero (inf or nan) are [x / 0 = 0] here *)
Definition generate_summary_data_frame (ps : list PhotovoltaicPlant)
  : result SummaryResults :=
  let* _ := collect energyProfileArea ps in
  let* eps := collect profile_of ps in
  let* _ := np_array_2d eps in
  match eps with
  | [] => Err (ValueError "axis 1 is out of bounds for array of dimension 1")
  | _ =>
    let* areas := collect area_of ps in
    let* kwps := collect kwp_of ps in
    let n := nrows eps in
    let energy_profile_sum := rowsum eps n in
    let energy_per_system := map qsum eps in
    let energy_over_all_systems := qsum energy_profile_sum in
    let energy_per_system_area := zip_with Qdiv energy_per_system areas in
    let energy_over_all_systems_area := qsum energy_profile_sum / qsum areas in
    let energy_kwp_per_system := zip_with Qdiv energy_per_system kwps in
    let energy_kwp_over_all_systems := qsum energy_profile_sum / qsum kwps in
    Ok (mkSummaryResults
          (zip_with3 (fun s k a => (s, k, a)) energy_per_system
             energy_kwp_per_system energy_per_system_area)
          (energy_over_all_systems, energy_kwp_over_all_systems,
           energy_over_all_systems_area))
  end.

(** [PvResult]; a profile entry [None] is NaN *)
Record PvResult : Type := mkPvResult {
  EnergyProfile : list (option Q);
  EnergyAreaProfile : list (option Q);
  SumOfEnergyPerYear : Q;
  WorkSpecificEnergyPerYear : Q;
  AreaSpecificEnergyPerYear : Q }.

(** [SodeleResults] / [PhotovoltaicResultsWrapper] *)
Record SodeleResults : Type := mkSodeleResults {
  PhotovoltaicPlants : list PvResult;
  SummaryOfAllPlants : PvResult }.

(** [build_result_dict] *)
Definition build_result_dict (er : DataframeResults) (sr : SummaryResults)
  : SodeleResults :=
  let single := zip_with3 (fun e a s =>
                  let '(s0, s1, s2) := s in mkPvResult e a s0 s1 s2)
                  (energy_cols er) (area_cols er) (per_plant sr) in
  let '(o0, o1, o2) := over_all sr in
  mkSodeleResults single
    (mkPvResult (map Some (all_energy er)) (map Some (all_area er)) o0 o1 o2).

Section Pipeline.
Variable RES_PREFIX : string.
Variable retrieve_module : string -> string -> option ModuleParams.
Variable retrieve_inverter : string -> string -> option InverterParams.
Variable run_model : PhotovoltaicPlant -> ModuleParams -> InverterParams ->
                     WeatherData -> result (list (option Q * option Q)).
Variable sandia : InverterParams -> option Q -> option Q -> option Q.
Variable solar_zenith : Timestamp -> float -> float -> float -> float -> float.
Variable irradiance_dni : float -> float -> float -> float.

(** [simulate_pv_plants] ([core/pv_simulation.py]); the optional
    spreadsheet export is left out *)
Definition simulate_pv_plants (wd : WeatherData) (ps : list PhotovoltaicPlant)
  : result (SodeleResults * list PhotovoltaicPlant * list LogRecord) :=
  let* prep := prepare_weather solar_zenith irradiance_dni wd in
  let '(wd', log) := prep in
  let log := (log ++ [Info ("Calculate PV profiles and create graphs for "
                           ++ str_nat (List.length ps) ++ " PV system(s)..")])%list in
  let* ps' := simulate_plants RES_PREFIX retrieve_module retrieve_inverter run_model
                sandia wd' ps in
  let log := (log ++ [Info "Finished the Calculation"; Info "preparing the Output"])%list in
  let* er := generate_energy_profile_data_frame ps' in
  let* sr := generate_summary_data_frame ps' in
  Ok (build_result_dict er sr, ps', log).

(** the legacy [simulatePVPlants] ([PVSImulation.py]) *)
Definition simulatePVPlants (wd : WeatherData) (ps : list PhotovoltaicPlant)
  : result (SodeleResults * list PhotovoltaicPlant * list LogRecord) :=
  let* prep :=
    if negb (adjustTimestamp wd) && recalculateDNI wd then
      let* wd' := recalculate_dni solar_zenith irradiance_dni wd in
      Ok (wd', [Warning dni_warning])
    else if adjustTimestamp wd && recalculateDNI wd then
      let* wd1 := adjust_time_stamp wd in
      let* wd2 := recalculate_dni solar_zenith irradiance_dni wd1 in
      Ok (wd2, [])
    else Ok (wd, []) in
  let '(wd', log) := prep in
  let* ps' := simulatePlants_legacy RES_PREFIX retrieve_module retrieve_inverter
                run_model sandia wd' ps in
  let* er := generateEnergyProfileDataFrame ps' in
  let* sr := generate_summary_data_frame ps' in
  Ok (build_result_dict er sr, ps', log).

End Pipeline.

End PvSim.

(** ** Concrete inputs *)
Module Examples.
Import DatReader PvSim.
Local Open Scope string_scope.

(** two hourly records of a site at UTC+1, shifted by 30 minutes on
    adjustment *)
Definition ex_entry : WeatherEntry :=
  mkEntry [mkTs 0 3600; mkTs 60 3600] [1%Z; 1%Z] [1%Z; 1%Z] [1%Z; 2%Z]
    [0%float; 1%float] [101325%float; 101325%float] [0%float; 0%float]
    [2%float; 3%float] [0%float; 8%float] [1%float; 1%float]
    [80%float; 70%float] [0%float; 200%float] [30%float; 400%float]
    [30%float; 100%float].

Definition ex_wd : WeatherData :=
  mkWeatherData 100 "example" 2015 51 12 1 true true 30 ex_entry.

Definition ex_wd_noadj : WeatherData :=
  mkWeatherData 100 "example" 2015 51 12 1 false true 30 ex_entry.

Definition ex_wd_plain : WeatherData :=
  mkWeatherData 100 "example" 2015 51 12 1 false false 30 ex_entry.

(** stand-ins for [pvlib]: a constant zenith and a DNI that vanishes when
    [ghi == dhi] *)
Definition ex_zenith (_ : Timestamp) (_ _ _ _ : float) : float := 0%float.
Definition ex_dni (g d _ : float) : float :=
  if (g =? d)%float then 0%float else (g - d)%float.

(** a stand-in for [pyproj] *)
Definition ex_transform (_ _ : Z) : float * float := (51%float, 12%float).

(** a [.dat] file with a single data row *)
Definition ex_small_file : list string :=
  ["Rechtswert : 1 Meter"; "Hochwert : 2 Meter"; "t"; "***"; "5"].

Definition ex_small_meta : Meta := mkMeta (Some 1%Z) (Some 2%Z) None None.

(** a TRY [.dat] file with 8760 identical data rows *)
Definition ex_header : list string :=
  ["Koordinatensystem : Lambert konform konisch";
   "Rechtswert        : 3936500 Meter";
   "Hochwert          : 2449500 Meter";
   "Hoehenlage        : 450 Meter ueber NN";
   "Art des TRY       : mittleres Jahr";
   "RW HW MM DD HH t p WR WG N x RF B D A E IL";
   "***"].

Definition ex_row : string :=
  "3936500 2449500 1 1 1 -2.5 950.5 200 3.1 8 3.2 90 12 40 300 -320 1".

Definition ex_full_file : list string := (ex_header ++ repeat ex_row (Z.to_nat 8760))%list.

(** the module and inverter databases, the model chain and the inverter
    model of the plant examples: two hours of 100 W DC power *)
Definition ex_module : ModuleParams := mkModule 8 30 (16 # 10) 8 30 (16 # 10).
Definition ex_inverter : InverterParams := mkInverter [].
Definition ex_retrieve_module (_ _ : string) : option ModuleParams := Some ex_module.
Definition ex_retrieve_inverter (_ _ : string) : option InverterParams := Some ex_inverter.
Definition ex_run_model (_ : PhotovoltaicPlant) (_ : ModuleParams) (_ : InverterParams)
  (_ : WeatherData) : result (list (option Q * option Q)) :=
  Ok [(Some 30, Some 100); (Some 30, Some 100)].
Definition ex_sandia (_ : InverterParams) (_ p : option Q) : option Q := p.

(** one Sandia module on one string of one inverter, before simulation *)
Definition ex_plant : PhotovoltaicPlant :=
  mkPlant 180 30 1 1 1 (2 # 10) 1 "Example_Module" 0 0 0 1 false "Example_Inverter"
    false 1 None None None.

(** the same plant with an unknown module-database selector *)
Definition ex_bad_plant : PhotovoltaicPlant :=
  mkPlant 180 30 1 1 1 (2 # 10) 1 "Example_Module" 0 0 0 3 false "Example_Inverter"
    false 1 None None None.

(** a simulated plant with given results *)
Definition ex_result_plant (ep : list Q) (a k : Q) : PhotovoltaicPlant :=
  set_results ex_plant ep a k.

(** databases that lack every module, or every inverter *)
Definition ex_no_module (_ _ : string) : option ModuleParams := None.
Definition ex_no_inverter (_ _ : string) : option InverterParams := None.

(** a model chain returning a full year of hourly results *)
Definition ex_run_model_year (_ : PhotovoltaicPlant) (_ : ModuleParams) (_ : InverterParams)
  (_ : WeatherData) : result (list (option Q * option Q)) :=
  Ok (repeat (Some 30, Some 100) (Z.to_nat 8760)).

(** the example plant with the unsupported installation type 7 *)
Definition ex_plant_installation7 : PhotovoltaicPlant :=
  mkPlant 180 30 1 1 1 (2 # 10) 7 "Example_Module" 0 0 0 1 false "Example_Inverter"
    false 1 None None None.

(** [.dat] files without a [Hochwert] line and without the [***] line *)
Definition ex_file_no_hochwert : list string :=
  ["Rechtswert : 1 Meter"; "t"; "***"; "5"].
Definition ex_file_no_sentinel : list string :=
  ["Rechtswert : 1 Meter"; "Hochwert : 2 Meter"; "t"].

(** whether a call returned normally *)
Definition succeeded {A : Type} (r : result A) : bool :=
  match r with Ok _ => true | Err _ => false end.

End Examples.

(** * Properties *)

(** ** Generic facts *)
Module Facts.

Lemma str_append_assoc (a b c : string) :
  ((a ++ b) ++ c)%string = (a ++ b ++ c)%string.
Proof. induction a as [|ch a IH]; simpl; [reflexivity | now rewrite IH]. Qed.

Lemma nth_error_zip_with3 {A B C D : Type} (f : A -> B -> C -> D) xs ys zs i :
  nth_error (Weather.zip_with3 f xs ys zs) i =
  match nth_error xs i, nth_error ys i, nth_error zs i with
  | Some x, Some y, Some z => Some (f x y z)
  | _, _, _ => None
  end.
Proof.
  revert ys zs i; induction xs as [|x xs IH]; intros ys zs i.
  - destruct i; reflexivity.
  - destruct ys as [|y ys], zs as [|z zs], i as [|i]; simpl; try reflexivity;
      try apply IH; rewrite ?nth_error_nil;
      repeat match goal with
             | |- context [match ?o with Some _ => _ | None => _ end] => destruct o
             end; reflexivity.
Qed.

Lemma length_zip_with3 {A B C D : Type} (f : A -> B -> C -> D) xs ys zs :
  List.length (Weather.zip_with3 f xs ys zs)
  = Nat.min (List.length xs) (Nat.min (List.length ys) (List.length zs)).
Proof.
  revert ys zs; induction xs as [|x xs IH]; intros [|y ys] [|z zs]; simpl; auto.
Qed.

Lemma some_inj {A : Type} (x y : A) : Some x = Some y -> x = y.
Proof. congruence. Qed.

Lemma ok_inj {A : Type} (x y : A) : @Ok A x = Ok y -> x = y.
Proof. congruence. Qed.

Lemma nth_error_lt {A : Type} (l : list A) i x : nth_error l i = Some x -> (i < List.length l)%nat.
Proof. intros H. apply nth_error_Some. now rewrite H. Qed.

Lemma nth_error_ex {A : Type} (l : list A) i :
  (i < List.length l)%nat -> exists x, nth_error l i = Some x.
Proof.
  intros H. apply nth_error_Some in H. destruct (nth_error l i) as [x|]; [now exists x|easy].
Qed.

End Facts.

(** ** The weather dataset operations *)
Module WeatherProps.
Import Facts.

Lemma generate_df_lengths (wd : WeatherData) :
  generate_df wd = Ok tt ->
  forall l, In l (column_lengths (weatherData wd)) ->
  l = List.length (timeStamps (weatherData wd)).
Proof.
  unfold generate_df. destruct (forallb _ _) eqn:E; [|discriminate].
  intros _ l Hl. rewrite forallb_forall in E. apply E in Hl.
  now apply Nat.eqb_eq in Hl.
Qed.



Lemma generate_df_ok_iff (wd : WeatherData) :
  generate_df wd = Ok tt <->
  Forall (fun l => l = List.length (timeStamps (weatherData wd)))
    (column_lengths (weatherData wd)).
Proof.
  unfold generate_df. rewrite Forall_forall. split.
  - destruct (forallb _ _) eqn:E; [|discriminate]. intros _ l Hl.
    rewrite forallb_forall in E. apply E in Hl. now apply Nat.eqb_eq in Hl.
  - intros H. destruct (forallb _ _) eqn:E; [reflexivity|].
    exfalso. apply Bool.not_true_iff_false in E. apply E.
    apply forallb_forall. intros l Hl. apply Nat.eqb_eq. symmetry. now apply H.
Qed.

Lemma adjust_time_stamp_flags (wd wd1 : WeatherData) :
  adjust_time_stamp wd = Ok wd1 ->
  adjustTimestamp wd1 = adjustTimestamp wd /\ recalculateDNI wd1 = recalculateDNI wd.
Proof.
  unfold adjust_time_stamp. destruct (timeStamps (weatherData wd)); cbn [map first bind].
  - discriminate.
  - destruct (generate_df _); cbn [bind]; [|discriminate]. intros H. now injection H as <-.
Qed.

Section Ext.
Variable solar_zenith : Timestamp -> float -> float -> float -> float -> float.
Variable irradiance_dni : float -> float -> float -> float.

Lemma recalculate_dni_inv (wd wd' : WeatherData) :
  recalculate_dni solar_zenith irradiance_dni wd = Ok wd' ->
  generate_df wd' = Ok tt /\
  wd' = set_weatherData wd (set_dni (weatherData wd)
          (map fix_neg_zero (map nan_to_num0 (map fillna0
             (zip_with3 irradiance_dni (ghi (weatherData wd)) (dhi (weatherData wd))
                (zip_with (fun t p => solar_zenith t (latitude wd) (longitude wd)
                                        (altitude wd) p)
                   (timeStamps (weatherData wd))
                   (atmospheric_pressure (weatherData wd)))))))).
Proof.
  unfold recalculate_dni. destruct (generate_df _) as [[]|] eqn:G; cbn [bind];
    [|discriminate]. intros H. injection H as <-. now split.
Qed.

Lemma recalculate_dni_total (wd : WeatherData) :
  generate_df wd = Ok tt ->
  exists wd', recalculate_dni solar_zenith irradiance_dni wd = Ok wd'.
Proof.
  intros Hdf. apply generate_df_ok_iff in Hdf.
  destruct wd as [al k y la lo z f1 f2 sh [ts mo da ho ta ap wdir ws sc pw rh dn gh dh]].
  unfold column_lengths in Hdf. cbn [weatherData timeStamps month day hour
    temp_air atmospheric_pressure wind_direction wind_speed sky_cover
    precipitable_water relative_humidity dni ghi dhi] in Hdf.
  repeat match goal with H : Forall _ (_ :: _) |- _ => inversion H; clear H end.
  unfold recalculate_dni. cbn [weatherData].
  match goal with |- exists _, bind (generate_df ?w) _ = _ =>
    assert (G : generate_df w = Ok tt) end.
  { apply generate_df_ok_iff. unfold column_lengths, set_dni, set_weatherData.
    cbn [weatherData set_weatherData set_dni timeStamps month day hour
         temp_air atmospheric_pressure wind_direction wind_speed sky_cover
         precipitable_water relative_humidity dni ghi dhi]. unfold zip_with.
    rewrite !length_map, !length_zip_with3.
    repeat constructor; lia. }
  rewrite G. eexists. reflexivity.
Qed.

(** C3: when both operations are requested the timestamps are shifted
    first and the DNI is recalculated on the shifted dataset; when only the
    DNI recalculation is requested it still runs, without failing, and a
    warning is logged. *)
Theorem prepare_weather_order (wd : WeatherData) (Hdf : generate_df wd = Ok tt) :
  (adjustTimestamp wd = true -> recalculateDNI wd = true ->
   prepare_weather solar_zenith irradiance_dni wd =
     (let* wd1 := adjust_time_stamp wd in
      let* wd2 := recalculate_dni solar_zenith irradiance_dni wd1 in
      Ok (wd2, []))) /\
  (adjustTimestamp wd = false -> recalculateDNI wd = true ->
   exists wd2, recalculate_dni solar_zenith irradiance_dni wd = Ok wd2 /\
     prepare_weather solar_zenith irradiance_dni wd = Ok (wd2, [Warning dni_warning])).
Proof.
  split.
  - intros Ha Hr. unfold prepare_weather. rewrite Ha.
    destruct (adjust_time_stamp wd) as [wd1|e] eqn:E; cbn [bind]; [|reflexivity].
    destruct (adjust_time_stamp_flags wd wd1 E) as [Fa Fr].
    rewrite Fr, Hr, Fa, Ha. reflexivity.
  - intros Ha Hr. destruct (recalculate_dni_total wd Hdf) as [wd2 H2].
    exists wd2. split; [exact H2|].
    unfold prepare_weather. rewrite Ha. cbn [bind]. rewrite Hr, Ha, H2. reflexivity.
Qed.

Lemma is_nan_fix_neg_zero (x : float) : is_nan x = false -> is_nan (fix_neg_zero x) = false.
Proof. unfold fix_neg_zero. destruct (x =? neg_zero)%float; [reflexivity|exact id]. Qed.

Lemma is_nan_nan_to_num0 (x : float) : is_nan (nan_to_num0 x) = false.
Proof.
  unfold nan_to_num0. destruct (is_nan x) eqn:E; [reflexivity|].
  destruct (x =? infinity)%float; [reflexivity|].
  destruct (x =? neg_infinity)%float; [reflexivity|exact E].
Qed.

Lemma fix_neg_zero_not_neg_zero (x : float) : fix_neg_zero x <> neg_zero.
Proof.
  unfold fix_neg_zero. destruct (x =? neg_zero)%float eqn:E; [discriminate|].
  intros ->. discriminate E.
Qed.

Lemma eqb_neg_zero_finite (x : float) : (x =? neg_zero)%float = true ->
  (x =? infinity)%float = false /\ (x =? neg_infinity)%float = false.
Proof.
  rewrite !FloatAxioms.eqb_spec.
  change (FloatOps.Prim2SF neg_zero) with (SpecFloat.S754_zero true).
  change (FloatOps.Prim2SF infinity) with (SpecFloat.S754_infinity false).
  change (FloatOps.Prim2SF neg_infinity) with (SpecFloat.S754_infinity true).
  destruct (FloatOps.Prim2SF x) as [[]|[]| |[] m e]; cbv; try discriminate; auto.
Qed.

(** The cleaned value of one raw pvlib value [r]: 0.0 for NaN and for a
    zero of either sign, [r] itself for a finite non-zero value. *)
Lemma clean_dni_value (r : float) :
  ((is_nan r = true \/ (r =? neg_zero)%float = true) ->
   fix_neg_zero (nan_to_num0 (fillna0 r)) = 0%float) /\
  (is_nan r = false -> (r =? infinity)%float = false ->
   (r =? neg_infinity)%float = false -> (r =? neg_zero)%float = false ->
   fix_neg_zero (nan_to_num0 (fillna0 r)) = r).
Proof.
  split.
  - intros Hr. unfold fillna0. destruct (is_nan r) eqn:En; [reflexivity|].
    destruct Hr as [Hr|Hr]; [discriminate Hr|].
    destruct (eqb_neg_zero_finite r Hr) as [Hi Hni].
    unfold nan_to_num0. rewrite En, Hi, Hni.
    unfold fix_neg_zero. rewrite Hr. reflexivity.
  - intros En Hi Hni Hz. unfold fillna0, nan_to_num0, fix_neg_zero.
    rewrite En, En, Hi, Hni, Hz. reflexivity.
Qed.

(** The entry [i] of the recalculated dni series is the cleaned pvlib value
    computed from the entries [i] of ghi, dhi, the time stamps and the
    pressure. *)
Lemma recalculate_dni_nth (wd wd' : WeatherData) i t p g d
  (H : recalculate_dni solar_zenith irradiance_dni wd = Ok wd')
  (Ht : nth_error (timeStamps (weatherData wd')) i = Some t)
  (Hp : nth_error (atmospheric_pressure (weatherData wd')) i = Some p)
  (Hg : nth_error (ghi (weatherData wd')) i = Some g)
  (Hd : nth_error (dhi (weatherData wd')) i = Some d) :
  nth_error (dni (weatherData wd')) i =
    Some (fix_neg_zero (nan_to_num0 (fillna0 (irradiance_dni g d
      (solar_zenith t (latitude wd') (longitude wd') (altitude wd') p))))).
Proof.
  destruct (recalculate_dni_inv wd wd' H) as [_ Hwd].
  rewrite Hwd in Ht, Hp, Hg, Hd |- *.
  cbn [weatherData set_weatherData set_dni timeStamps atmospheric_pressure ghi dhi dni
       latitude longitude altitude] in Ht, Hp, Hg, Hd |- *.
  rewrite !nth_error_map, nth_error_zip_with3, Hg, Hd.
  unfold zip_with. rewrite nth_error_zip_with3, Ht, Hp. reflexivity.
Qed.

(** C7: after the DNI recalculation the dni series holds no NaN and no
    negative zero: every raw pvlib value that is NaN or a zero of either
    sign is replaced with 0.0, and a finite non-zero raw value is kept. In
    particular the series is 0 wherever ghi equals dhi, given that pvlib's
    [(ghi - dhi) / cos(zenith)] with ghi equal to dhi yields a zero of
    either sign or NaN. *)
Theorem recalculate_dni_clean (wd wd' : WeatherData)
  (Hext : forall g d z, (g =? d)%float = true ->
          irradiance_dni g d z = 0%float \/ irradiance_dni g d z = neg_zero \/
          is_nan (irradiance_dni g d z) = true)
  (H : recalculate_dni solar_zenith irradiance_dni wd = Ok wd') :
  (forall x, In x (dni (weatherData wd')) -> is_nan x = false /\ x <> neg_zero) /\
  (forall i g d,
      nth_error (ghi (weatherData wd')) i = Some g ->
      nth_error (dhi (weatherData wd')) i = Some d ->
      (g =? d)%float = true ->
      nth_error (dni (weatherData wd')) i = Some 0%float) /\
  (forall i t p g d,
      nth_error (timeStamps (weatherData wd')) i = Some t ->
      nth_error (atmospheric_pressure (weatherData wd')) i = Some p ->
      nth_error (ghi (weatherData wd')) i = Some g ->
      nth_error (dhi (weatherData wd')) i = Some d ->
      let r := irradiance_dni g d
                 (solar_zenith t (latitude wd') (longitude wd') (altitude wd') p) in
      ((is_nan r = true \/ (r =? neg_zero)%float = true) ->
       nth_error (dni (weatherData wd')) i = Some 0%float) /\
      (is_nan r = false -> (r =? infinity)%float = false ->
       (r =? neg_infinity)%float = false -> (r =? neg_zero)%float = false ->
       nth_error (dni (weatherData wd')) i = Some r)).
Proof.
  split; [|split].
  3:{ intros i t p g d Ht Hp Hg Hd. cbv zeta.
      rewrite (recalculate_dni_nth wd wd' i t p g d H Ht Hp Hg Hd).
      destruct (clean_dni_value (irradiance_dni g d
        (solar_zenith t (latitude wd') (longitude wd') (altitude wd') p))) as [C1 C2].
      split.
      - intros Hr. now rewrite (C1 Hr).
      - intros En Hi Hni Hz. now rewrite (C2 En Hi Hni Hz). }
  all: destruct (recalculate_dni_inv wd wd' H) as [G Hwd].
  - intros x Hx. rewrite Hwd in Hx. cbn [weatherData set_weatherData set_dni dni] in Hx.
    apply in_map_iff in Hx as [y [<- Hy]]. apply in_map_iff in Hy as [z [<- _]].
    split; [apply is_nan_fix_neg_zero, is_nan_nan_to_num0|apply fix_neg_zero_not_neg_zero].
  - intros i g d Hg Hd Hgd.
    pose proof (generate_df_lengths wd' G) as L.
    assert (Lts : List.length (atmospheric_pressure (weatherData wd'))
                  = List.length (timeStamps (weatherData wd')))
      by (apply L; unfold column_lengths; simpl; tauto).
    assert (Lg : List.length (ghi (weatherData wd'))
                 = List.length (timeStamps (weatherData wd')))
      by (apply L; unfold column_lengths; simpl; tauto).
    clear L.
    rewrite Hwd in Lts, Lg, Hg, Hd |- *.
    cbn [weatherData set_weatherData set_dni timeStamps atmospheric_pressure ghi dhi dni]
      in Lts, Lg, Hg, Hd |- *.
    apply nth_error_lt in Hg as Hi.
    destruct (nth_error_ex (timeStamps (weatherData wd)) i) as [t Ht]; [lia|].
    destruct (nth_error_ex (atmospheric_pressure (weatherData wd)) i) as [p Hp]; [lia|].
    rewrite !nth_error_map, nth_error_zip_with3, Hg, Hd.
    unfold zip_with. rewrite nth_error_zip_with3, Ht, Hp. cbn [option_map].
    destruct (Hext g d (solar_zenith t (latitude wd) (longitude wd) (altitude wd) p) Hgd)
      as [E|[E|E]]; rewrite ?E; [reflexivity|reflexivity|].
    unfold fillna0 at 1. rewrite E. reflexivity.
Qed.

End Ext.

End WeatherProps.

(** ** The [.dat] reader *)
Module ReaderProps.
Import Facts DatReader.

Lemma column_err (names : list string) (rows : list (list float)) (name : string) e :
  column names rows name = Err e -> e = KeyError name.
Proof. unfold column. destruct (col_index names name); congruence. Qed.

Lemma generate_df_err (wd : WeatherData) e :
  generate_df wd = Err e -> e = ValueError "All arrays must be of the same length".
Proof. unfold generate_df. destruct (forallb _ _); congruence. Qed.

(** peel the [let*] chain of a hypothesis [H : chain = Ok _] *)
Ltac peel H :=
  repeat match type of H with
  | bind (if ?c then _ else _) _ = _ => let E := fresh "E" in destruct c eqn:E;
                                         cbn [bind] in H
  | bind ?m _ = _ => let E := fresh "E" in destruct m eqn:E; cbn [bind] in H;
                     [|discriminate H]
  | (if ?c then _ else _) = _ => let E := fresh "E" in destruct c eqn:E;
                                 try discriminate H
  | match ?p with pair _ _ => _ end = _ => destruct p
  end.

(** peel a goal [chain <> Err (ValueError (count_error ...))] *)
Ltac peel_not_count :=
  repeat match goal with
  | |- bind (if ?c then _ else _) _ <> _ => destruct c; cbn [bind]
  | |- bind ?m _ <> _ =>
      let E := fresh "E" in destruct m eqn:E; cbn [bind];
      [| first [ apply column_err in E | apply generate_df_err in E ]; subst;
         intros Heq; injection Heq as Heq; try discriminate Heq;
         unfold count_error in Heq; cbn in Heq; discriminate Heq ]
  | |- (if ?c then _ else _) <> _ => destruct c
  end; discriminate.

(** C4: with a readable header and data block, a block of any row count
    other than 8760 fails with an error naming the file path and the count;
    with 8760 rows the row-count error is not raised. *)
Theorem read_in_dat_file_row_count (transform : Z -> Z -> float * float)
  (path : string) (lines : list string) (meta : Meta) (names rest : list string)
  (rows : list (list float)) (h r : Z)
  (Hs : scan_header path empty_meta "" lines = Ok (meta, names, rest))
  (Hh : m_Hochwert meta = Some h) (Hr : m_Rechtswert meta = Some r)
  (Ht : read_table names rest = Ok rows) :
  (Z.of_nat (List.length rows) <> 8760%Z ->
   exists msg, read_in_dat_file transform path lines = Err (ValueError msg) /\
               infix path msg /\ infix (str_nat (List.length rows)) msg) /\
  (Z.of_nat (List.length rows) = 8760%Z ->
   forall n, read_in_dat_file transform path lines <> Err (ValueError (count_error path n))).
Proof.
  unfold read_in_dat_file. rewrite Hs. cbn [bind]. rewrite Hh, Hr. cbn [bind require].
  destruct (transform h r) as [lat lon]. rewrite Ht. cbn [bind reraise].
  split.
  - intros Hn. apply Z.eqb_neq in Hn. rewrite Hn. cbn [negb].
    exists (count_error path (List.length rows)). split; [reflexivity|split].
    + exists "Could not read in the .dat weather data file "%string.
      eexists. reflexivity.
    + exists ("Could not read in the .dat weather data file " ++ path ++ ". ")%string.
      eexists. unfold count_error. rewrite str_append_assoc, str_append_assoc.
      reflexivity.
  - intros Hn n. apply Z.eqb_eq in Hn. rewrite Hn. cbn [negb].
    peel_not_count.
Qed.

Lemma hourly_from_length (s : Timestamp) (n : nat) : List.length (hourly_from s n) = n.
Proof. revert s; induction n as [|n IH]; intros s; simpl; [reflexivity|now rewrite IH]. Qed.

Lemma hourly_from_nth (s : Timestamp) (n i : nat) :
  (i < n)%nat ->
  nth_error (hourly_from s n) i = Some (mkTs (ts_utc s + 60 * Z.of_nat i) (ts_tz s)).
Proof.
  revert s i; induction n as [|n IH]; intros s i Hi; [lia|].
  destruct i as [|i]; cbn [hourly_from nth_error].
  - destruct s; cbn. f_equal. f_equal. lia.
  - rewrite IH by lia. cbn [add_minutes ts_utc ts_tz]. rewrite Nat2Z.inj_succ.
    f_equal. f_equal. lia.
Qed.

Lemma hourly_from_in (s t : Timestamp) (n : nat) : In t (hourly_from s n) -> ts_tz t = ts_tz s.
Proof.
  revert s; induction n as [|n IH]; intros s H; simpl in H; [contradiction|].
  destruct H as [<-|H]; [reflexivity|]. now apply IH in H.
Qed.

Lemma hourly_from_increasing (s : Timestamp) (n i j : nat) (a b : Timestamp) :
  (i < j)%nat ->
  nth_error (hourly_from s n) i = Some a -> nth_error (hourly_from s n) j = Some b ->
  (ts_utc a < ts_utc b)%Z.
Proof.
  intros Hij Ha Hb. pose proof (nth_error_lt _ _ _ Hb) as Hj.
  rewrite hourly_from_length in Hj.
  rewrite hourly_from_nth in Ha by lia. rewrite hourly_from_nth in Hb by lia.
  apply some_inj in Ha, Hb. subst a b. cbn [ts_utc]. lia.
Qed.

Lemma hourly_from_spacing (s : Timestamp) (n i : nat) (a b : Timestamp) :
  nth_error (hourly_from s n) i = Some a -> nth_error (hourly_from s n) (S i) = Some b ->
  ts_utc b = (ts_utc a + 60)%Z.
Proof.
  intros Ha Hb. pose proof (nth_error_lt _ _ _ Hb) as Hj.
  rewrite hourly_from_length in Hj.
  rewrite hourly_from_nth in Ha by lia. rewrite hourly_from_nth in Hb by lia.
  apply some_inj in Ha, Hb. subst a b. cbn [ts_utc]. lia.
Qed.

Lemma dat_range_eq : dat_range = hourly_from (localize 2015 1 1 0 0 3600) (Z.to_nat 8760).
Proof. unfold dat_range, date_range_hourly. f_equal. Qed.

(** the kernel need not expand the 8760 timestamps to check the proofs
    below *)
Local Strategy opaque [dat_range].

Lemma read_in_dat_file_inv (transform : Z -> Z -> float * float) path lines wd :
  read_in_dat_file transform path lines = Ok wd ->
  generate_df wd = Ok tt /\ timeStamps (weatherData wd) = dat_range /\ tz wd = 1%Z.
Proof.
  intros H. unfold read_in_dat_file in H.
  remember dat_range as dr eqn:Edr in H.
  peel H; injection H as <-;
    match goal with E : generate_df _ = Ok ?u |- _ => destruct u; rewrite E end;
    (split; [reflexivity|split; [exact Edr|reflexivity]]).
Qed.

(** C5: a parsed [.dat] file has 8760 records in every column; its
    timestamps are strictly increasing, one hour apart, start at
    2015-01-01 00:00 local time and all carry the offset [tz] hours, which is
    the fixed UTC+1 (MEZ) the reader requires of its input. *)
Theorem read_in_dat_file_timestamps (transform : Z -> Z -> float * float)
  (path : string) (lines : list string) (wd : WeatherData)
  (H : read_in_dat_file transform path lines = Ok wd) :
  Forall (fun l => Z.of_nat l = 8760%Z) (column_lengths (weatherData wd)) /\
  (forall i j a b, (i < j)%nat ->
     nth_error (timeStamps (weatherData wd)) i = Some a ->
     nth_error (timeStamps (weatherData wd)) j = Some b ->
     (ts_utc a < ts_utc b)%Z) /\
  (forall i a b,
     nth_error (timeStamps (weatherData wd)) i = Some a ->
     nth_error (timeStamps (weatherData wd)) (S i) = Some b ->
     ts_utc b = (ts_utc a + 60)%Z) /\
  (exists t0, nth_error (timeStamps (weatherData wd)) 0 = Some t0 /\
     civil_from_days (wall t0 / 1440) = (2015%Z, 1%Z, 1%Z) /\
     (wall t0 mod 1440 = 0)%Z) /\
  (forall t, In t (timeStamps (weatherData wd)) -> ts_tz t = (tz wd * 3600)%Z) /\
  tz wd = 1%Z.
Proof.
  destruct (read_in_dat_file_inv transform path lines wd H) as [G [Hts Htz]].
  rewrite Htz. rewrite dat_range_eq in Hts.
  assert (Hl : List.length (timeStamps (weatherData wd)) = Z.to_nat 8760)
    by (rewrite Hts; apply hourly_from_length).
  split; [|split; [|split; [|split; [|split; [|reflexivity]]]]].
  - apply Forall_forall. intros l Hin.
    rewrite (WeatherProps.generate_df_lengths wd G l Hin), Hl. apply Z2Nat.id. lia.
  - intros i j a b Hij. rewrite Hts. now apply hourly_from_increasing.
  - intros i a b. rewrite Hts. apply hourly_from_spacing.
  - exists (mkTs (ts_utc (localize 2015 1 1 0 0 3600) + 60 * Z.of_nat 0)
                 (ts_tz (localize 2015 1 1 0 0 3600))).
    rewrite Hts. split; [apply hourly_from_nth; lia|]. split; vm_compute; reflexivity.
  - intros t Hin. rewrite Hts in Hin. apply hourly_from_in in Hin. rewrite Hin.
    reflexivity.
Qed.

(** C10: the reader stores the file's direct-horizontal column [B] as the
    dataset's [dni] and always sets [adjustTimestamp = true],
    [recalculateDNI = true] and [timeshiftInMinutes = 30]. *)
Theorem read_in_dat_file_dni_is_B (transform : Z -> Z -> float * float)
  (path : string) (lines : list string) (wd : WeatherData) (meta : Meta)
  (names rest : list string) (rows : list (list float))
  (Hs : scan_header path empty_meta "" lines = Ok (meta, names, rest))
  (Ht : read_table names rest = Ok rows)
  (H : read_in_dat_file transform path lines = Ok wd) :
  column names rows "B" = Ok (dni (weatherData wd)) /\
  adjustTimestamp wd = true /\ recalculateDNI wd = true /\ timeshiftInMinutes wd = 30%Z.
Proof.
  unfold read_in_dat_file in H. rewrite Hs in H. cbn [bind] in H.
  remember dat_range as dr eqn:Edr in H.
  peel H; apply ok_inj in H; subst wd;
    cbn [dni weatherData adjustTimestamp recalculateDNI timeshiftInMinutes];
    (split; [|split; [reflexivity|split; reflexivity]]);
    match goal with
    | E : reraise _ (read_table _ _) = Ok ?r, EB : column _ ?r "B" = Ok _ |- _ =>
        rewrite Ht in E; cbn [reraise] in E; apply ok_inj in E; subst r; exact EB
    end.
Qed.

End ReaderProps.

(** ** Rational sums used by the aggregation *)
Module QSum.
Import PvSim.
Local Open Scope Q_scope.

Lemma fold_qplus_acc (xs : list Q) (a : Q) :
  fold_left Qplus xs a == a + fold_left Qplus xs 0.
Proof.
  revert a; induction xs as [|x xs IH]; intros a; simpl; [ring|].
  rewrite IH, (IH (0 + x)). ring.
Qed.

Lemma qsum_cons (x : Q) (xs : list Q) : qsum (x :: xs) == x + qsum xs.
Proof. unfold qsum; simpl. rewrite fold_qplus_acc. ring. Qed.

Lemma qsum_nil : qsum [] == 0.
Proof. reflexivity. Qed.

Lemma qsum_repeat (x : Q) (n : nat) : qsum (repeat x n) == inject_Z (Z.of_nat n) * x.
Proof.
  induction n as [|n IH]; simpl repeat; [reflexivity|].
  rewrite qsum_cons, IH, Nat2Z.inj_succ, <- Z.add_1_l, inject_Z_plus. ring.
Qed.

Lemma qsum_map_ext {A : Type} (f g : A -> Q) (l : list A) :
  (forall x, f x == g x) -> qsum (map f l) == qsum (map g l).
Proof.
  intros H. induction l as [|x l IH]; simpl map; [reflexivity|].
  rewrite !qsum_cons, IH, H. reflexivity.
Qed.

Lemma qsum_map_scale {A : Type} (c : Q) (f : A -> Q) (l : list A) :
  qsum (map (fun x => c * f x) l) == c * qsum (map f l).
Proof.
  induction l as [|x l IH]; simpl map; [cbn; ring|].
  rewrite !qsum_cons, IH. ring.
Qed.

Lemma map_nth_seq (X : list Q) : map (fun t => nth t X 0) (seq 0 (List.length X)) = X.
Proof.
  induction X as [|x X IH]; [reflexivity|].
  simpl. f_equal. rewrite <- seq_shift, map_map. exact IH.
Qed.

Lemma rowsum_repeat (X : list Q) (n : nat) :
  qsum (rowsum (repeat X n) (List.length X)) == inject_Z (Z.of_nat n) * qsum X.
Proof.
  unfold rowsum.
  rewrite (qsum_map_ext _ (fun t => inject_Z (Z.of_nat n) * nth t X 0)).
  - rewrite qsum_map_scale, map_nth_seq. reflexivity.
  - intros t. rewrite map_repeat. apply qsum_repeat.
Qed.

End QSum.

(** ** The orchestrator and the aggregation *)
Module PvSimProps.
Import Facts PvSim QSum Examples.
Local Open Scope Q_scope.

Lemma collect_repeat {A : Type} (f : PhotovoltaicPlant -> result A) p v (n : nat) :
  f p = Ok v -> collect f (repeat p n) = Ok (repeat v n).
Proof.
  intros Hf. induction n as [|n IH]; simpl; [reflexivity|].
  rewrite Hf. cbn [bind]. rewrite IH. reflexivity.
Qed.

Lemma forallb_repeat {A : Type} (f : A -> bool) (x : A) (n : nat) :
  f x = true -> forallb f (repeat x n) = true.
Proof. intros Hf. induction n; simpl; [reflexivity|]. now rewrite Hf, IHn. Qed.

Lemma rowsum_nth (cols : list (list Q)) (n t : nat) :
  (t < n)%nat ->
  nth_error (rowsum cols n) t = Some (qsum (map (fun c => nth t c 0) cols)).
Proof.
  intros Ht. unfold rowsum. rewrite nth_error_map, nth_error_seq.
  destruct (Nat.ltb_spec t n); [|lia]. reflexivity.
Qed.

Lemma length_rowsum (cols : list (list Q)) (n : nat) : List.length (rowsum cols n) = n.
Proof. unfold rowsum. now rewrite length_map, length_seq. Qed.

Lemma inject_nat_nonzero (n : nat) : (0 < n)%nat -> ~ inject_Z (Z.of_nat n) == 0.
Proof.
  intros Hn E. apply (proj1 (inject_Z_injective (Z.of_nat n) 0)) in E. lia.
Qed.

Lemma div_cancel_l (n a b : Q) : ~ n == 0 -> (n * a) / (n * b) == a / b.
Proof.
  intros Hn. unfold Qdiv. rewrite Qinv_mult_distr.
  setoid_replace (n * a * (/ n * / b)) with ((n * / n) * (a * / b)) by ring.
  rewrite Qmult_inv_r by exact Hn. ring.
Qed.

Lemma collect_length {A : Type} (f : PhotovoltaicPlant -> result A) ps xs :
  collect f ps = Ok xs -> List.length xs = List.length ps.
Proof.
  revert xs; induction ps as [|p ps IH]; intros xs H; cbn [collect] in H.
  - injection H as <-. reflexivity.
  - destruct (f p) as [a|e]; cbn [bind] in H; [|discriminate].
    destruct (collect f ps) as [rest|e]; cbn [bind] in H; [|discriminate].
    injection H as <-. cbn [List.length]. now rewrite (IH rest eq_refl).
Qed.

Lemma profile_of_ok p ep : profile_of p = Ok ep <-> energyProfile p = Some ep.
Proof.
  unfold profile_of, require. destruct (energyProfile p).
  - split; intros H; [apply ok_inj in H|injection H as ->]; now subst.
  - split; discriminate.
Qed.

Lemma energyProfileArea_ok p ep a :
  energyProfile p = Some ep -> surfaceArea p = Some a -> ~ a == 0 ->
  energyProfileArea p = Ok (map (fun v => v / a) ep).
Proof.
  intros He Ha Hz. unfold energyProfileArea. rewrite He, Ha.
  destruct (Qeq_bool a 0) eqn:E; [apply Qeq_bool_eq in E; contradiction|reflexivity].
Qed.

Lemma energyProfileArea_zero p ep a :
  energyProfile p = Some ep -> surfaceArea p = Some a -> a == 0 -> ep <> [] ->
  energyProfileArea p = Err (ZeroDivisionError "float division by zero").
Proof.
  intros He Ha Hz Hne. unfold energyProfileArea. rewrite He, Ha.
  replace (Qeq_bool a 0) with true by (symmetry; now apply Qeq_bool_iff).
  destruct ep; [contradiction|reflexivity].
Qed.

Lemma energyProfileArea_length p ep a ap :
  energyProfile p = Some ep -> surfaceArea p = Some a -> energyProfileArea p = Ok ap ->
  List.length ap = List.length ep.
Proof.
  intros He Ha. unfold energyProfileArea. rewrite He, Ha.
  destruct (Qeq_bool a 0).
  - destruct ep; [intros H; now injection H as <-|discriminate].
  - intros H. injection H as <-. apply length_map.
Qed.

Lemma energyProfileArea_nil p ap :
  energyProfile p = Some [] -> energyProfileArea p = Ok ap -> ap = [].
Proof.
  intros He. unfold energyProfileArea. rewrite He.
  destruct (surfaceArea p) as [a|]; [destruct (Qeq_bool a 0)|];
    intros H; now injection H as <-.
Qed.

Lemma skipna_map_Some (c : list Q) (t : nat) : skipna (nth t (map Some c) None) = nth t c 0.
Proof. revert t; induction c as [|x c IH]; intros [|t]; cbn; auto. Qed.

Lemma skipna_repeat_None (n t : nat) : skipna (nth t (repeat (@None Q) n) None) = 0.
Proof. revert t; induction n as [|n IH]; intros [|t]; cbn; auto. Qed.

Lemma rowsum_skipna_eq (n : nat) (cols : list (list (option Q))) (eps : list (list Q)) :
  Forall2 (fun c ep => (List.length ep = n /\ c = map Some ep) \/
                       (ep = [] /\ c = repeat None n)) cols eps ->
  rowsum_skipna cols n = rowsum eps n.
Proof.
  intros H. unfold rowsum_skipna, rowsum. apply map_ext. intros t. f_equal.
  induction H as [|c ep cols eps Hc _ IH]; [reflexivity|]. cbn [map]. rewrite IH. f_equal.
  destruct Hc as [[_ ->]|[-> ->]]; [apply skipna_map_Some|].
  rewrite skipna_repeat_None. now destruct t.
Qed.

Lemma ensure_valid_index_noop f v :
  index_len f = List.length v -> ensure_valid_index f v = f.
Proof.
  intros H. unfold ensure_valid_index. rewrite <- H.
  destruct (Nat.eqb (index_len f) 0); reflexivity.
Qed.

Lemma ensure_valid_index_empty v :
  ensure_valid_index empty_frame v = mkFrame (List.length v) [] [].
Proof. unfold ensure_valid_index. destruct v; reflexivity. Qed.

Lemma ensure_valid_index_len f v :
  index_len (ensure_valid_index f v) = index_len f \/
  (index_len f = 0%nat /\ index_len (ensure_valid_index f v) = List.length v).
Proof.
  unfold ensure_valid_index.
  destruct (Nat.eqb_spec (index_len f) 0); destruct (Nat.eqb (List.length v) 0); cbn; auto.
Qed.

Lemma reindex_cols (k : nat) (cols : list (list (option Q))) (eps : list (list Q)) :
  Forall2 (fun c ep => (List.length ep = 0%nat /\ c = map Some ep) \/
                       (ep = [] /\ c = repeat None 0%nat)) cols eps ->
  Forall2 (fun c ep => (List.length ep = k /\ c = map Some ep) \/
                       (ep = [] /\ c = repeat None k))
    (map (fun _ => repeat None k) cols) eps.
Proof.
  induction 1 as [|c ep cols eps Hc _ IH]; constructor; [|exact IH].
  right. split; [|reflexivity].
  destruct Hc as [[Hl _]|[He _]]; [now apply length_zero_iff_nil|exact He].
Qed.

Lemma ensure_valid_index_inv f v eps aps :
  Forall2 (fun c ep => (List.length ep = index_len f /\ c = map Some ep) \/
                       (ep = [] /\ c = repeat None (index_len f))) (energy_columns f) eps ->
  Forall2 (fun c ep => (List.length ep = index_len f /\ c = map Some ep) \/
                       (ep = [] /\ c = repeat None (index_len f))) (area_columns f) aps ->
  Forall2 (fun c ep => (List.length ep = index_len (ensure_valid_index f v) /\ c = map Some ep) \/
                       (ep = [] /\ c = repeat None (index_len (ensure_valid_index f v))))
    (energy_columns (ensure_valid_index f v)) eps /\
  Forall2 (fun c ep => (List.length ep = index_len (ensure_valid_index f v) /\ c = map Some ep) \/
                       (ep = [] /\ c = repeat None (index_len (ensure_valid_index f v))))
    (area_columns (ensure_valid_index f v)) aps.
Proof.
  intros He Ha. unfold ensure_valid_index.
  destruct (Nat.eqb_spec (index_len f) 0) as [E|E];
    destruct (Nat.eqb (List.length v) 0); cbn [andb negb]; auto.
  cbn [index_len energy_columns area_columns]. rewrite E in He, Ha.
  split; apply reindex_cols; assumption.
Qed.

Lemma set_energy_column_inv f v f' eps aps :
  Forall2 (fun c ep => (List.length ep = index_len f /\ c = map Some ep) \/
                       (ep = [] /\ c = repeat None (index_len f))) (energy_columns f) eps ->
  Forall2 (fun c ep => (List.length ep = index_len f /\ c = map Some ep) \/
                       (ep = [] /\ c = repeat None (index_len f))) (area_columns f) aps ->
  set_energy_column f v = Ok f' ->
  Forall2 (fun c ep => (List.length ep = index_len f' /\ c = map Some ep) \/
                       (ep = [] /\ c = repeat None (index_len f')))
    (energy_columns f') (eps ++ [v]) /\
  Forall2 (fun c ep => (List.length ep = index_len f' /\ c = map Some ep) \/
                       (ep = [] /\ c = repeat None (index_len f'))) (area_columns f') aps /\
  index_len f' = index_len (ensure_valid_index f v) /\ List.length v = index_len f'.
Proof.
  intros He Ha H. destruct (ensure_valid_index_inv f v eps aps He Ha) as [He' Ha'].
  unfold set_energy_column, require_length_match in H.
  destruct (Nat.eqb_spec (List.length v) (index_len (ensure_valid_index f v))) as [L|L];
    cbn [bind] in H; [|discriminate].
  injection H as <-. cbn [index_len energy_columns area_columns].
  split; [|split; [exact Ha'|split; [reflexivity|exact L]]].
  apply Forall2_app; [exact He'|]. constructor; [left; now split|constructor].
Qed.

Lemma set_area_column_inv f v f' eps aps :
  Forall2 (fun c ep => (List.length ep = index_len f /\ c = map Some ep) \/
                       (ep = [] /\ c = repeat None (index_len f))) (energy_columns f) eps ->
  Forall2 (fun c ep => (List.length ep = index_len f /\ c = map Some ep) \/
                       (ep = [] /\ c = repeat None (index_len f))) (area_columns f) aps ->
  set_area_column f v = Ok f' ->
  Forall2 (fun c ep => (List.length ep = index_len f' /\ c = map Some ep) \/
                       (ep = [] /\ c = repeat None (index_len f'))) (energy_columns f') eps /\
  Forall2 (fun c ep => (List.length ep = index_len f' /\ c = map Some ep) \/
                       (ep = [] /\ c = repeat None (index_len f')))
    (area_columns f') (aps ++ [v]) /\
  index_len f' = index_len (ensure_valid_index f v) /\ List.length v = index_len f'.
Proof.
  intros He Ha H. destruct (ensure_valid_index_inv f v eps aps He Ha) as [He' Ha'].
  unfold set_area_column, require_length_match in H.
  destruct (Nat.eqb_spec (List.length v) (index_len (ensure_valid_index f v))) as [L|L];
    cbn [bind] in H; [|discriminate].
  injection H as <-. cbn [index_len energy_columns area_columns].
  split; [exact He'|split; [|split; [reflexivity|exact L]]].
  apply Forall2_app; [exact Ha'|]. constructor; [left; now split|constructor].
Qed.

(** what a successful plant loop stores: every column holds its plant's
    list, or NaN when an empty list was reindexed; the index length is the
    length of a stored profile *)
Lemma fill_frame_inv ps : forall f f' eps0 aps0,
  Forall2 (fun c ep => (List.length ep = index_len f /\ c = map Some ep) \/
                       (ep = [] /\ c = repeat None (index_len f))) (energy_columns f) eps0 ->
  Forall2 (fun c ep => (List.length ep = index_len f /\ c = map Some ep) \/
                       (ep = [] /\ c = repeat None (index_len f))) (area_columns f) aps0 ->
  (index_len f = 0%nat \/ exists ep, In ep eps0 /\ List.length ep = index_len f) ->
  fill_frame f ps = Ok f' ->
  exists eps aps,
    collect profile_of ps = Ok eps /\ collect energyProfileArea ps = Ok aps /\
    Forall2 (fun c ep => (List.length ep = index_len f' /\ c = map Some ep) \/
                         (ep = [] /\ c = repeat None (index_len f')))
      (energy_columns f') (eps0 ++ eps) /\
    Forall2 (fun c ep => (List.length ep = index_len f' /\ c = map Some ep) \/
                         (ep = [] /\ c = repeat None (index_len f')))
      (area_columns f') (aps0 ++ aps) /\
    (index_len f' = 0%nat \/ exists ep, In ep (eps0 ++ eps) /\ List.length ep = index_len f').
Proof.
  induction ps as [|p ps IH]; intros f f' eps0 aps0 He Ha Hi H; cbn [fill_frame] in H.
  - injection H as <-. exists [], []. rewrite !app_nil_r. auto.
  - destruct (profile_of p) as [ep|e] eqn:Ep; cbn [bind] in H; [|discriminate].
    destruct (set_energy_column f ep) as [f1|e] eqn:E1; cbn [bind] in H; [|discriminate].
    destruct (energyProfileArea p) as [ap|e] eqn:Ea; cbn [bind] in H; [|discriminate].
    destruct (set_area_column f1 ap) as [f2|e] eqn:E2; cbn [bind] in H; [|discriminate].
    destruct (set_energy_column_inv _ _ _ _ _ He Ha E1) as (He1 & Ha1 & I1 & L1).
    destruct (set_area_column_inv _ _ _ _ _ He1 Ha1 E2) as (He2 & Ha2 & I2 & L2).
    assert (Hi2 : index_len f2 = 0%nat \/
                  exists ep', In ep' (eps0 ++ [ep]) /\ List.length ep' = index_len f2).
    { assert (Hf12 : index_len f2 = index_len f1).
      { rewrite I2. destruct (ensure_valid_index_len f1 ap) as [R|[Z0 R]]; [exact R|].
        rewrite Z0 in L1. apply length_zero_iff_nil in L1. subst ep.
        apply profile_of_ok in Ep. pose proof (energyProfileArea_nil p ap Ep Ea) as ->.
        rewrite R, Z0. reflexivity. }
      rewrite Hf12.
      destruct (ensure_valid_index_len f ep) as [R|[_ R]]; rewrite <- I1 in R.
      - rewrite R. destruct Hi as [Hi|[ep' [Hin Hl]]]; [now left|right].
        exists ep'. split; [apply in_or_app; now left|exact Hl].
      - right. exists ep. split; [apply in_or_app; right; now left|now rewrite R]. }
    destruct (IH _ _ _ _ He2 Ha2 Hi2 H) as (eps & aps & Ce & Ca & He3 & Ha3 & Hi3).
    exists (ep :: eps), (ap :: aps). cbn [collect]. rewrite Ep, Ea, Ce, Ca. cbn [bind].
    rewrite <- !app_assoc in He3, Ha3, Hi3. auto.
Qed.

(** a plant loop that meets only lists of the index length *)
Lemma fill_frame_fixed ps : forall f eps aps,
  collect profile_of ps = Ok eps -> collect energyProfileArea ps = Ok aps ->
  Forall (fun ep => List.length ep = index_len f) eps ->
  Forall (fun ap => List.length ap = index_len f) aps ->
  fill_frame f ps = Ok (mkFrame (index_len f) (energy_columns f ++ map (map Some) eps)
                                (area_columns f ++ map (map Some) aps)).
Proof.
  induction ps as [|p ps IH]; intros f eps aps Ce Ca Le La; cbn [collect] in Ce, Ca.
  - injection Ce as <-. injection Ca as <-. cbn [fill_frame map].
    rewrite !app_nil_r. now destruct f.
  - destruct (profile_of p) as [ep|e] eqn:Ep; cbn [bind] in Ce; [|discriminate].
    destruct (collect profile_of ps) as [eps'|e]; cbn [bind] in Ce; [|discriminate].
    destruct (energyProfileArea p) as [ap|e] eqn:Ea; cbn [bind] in Ca; [|discriminate].
    destruct (collect energyProfileArea ps) as [aps'|e]; cbn [bind] in Ca; [|discriminate].
    injection Ce as <-. injection Ca as <-. apply Forall_cons_iff in Le as [Lep Le'].
    apply Forall_cons_iff in La as [Lap La'].
    cbn [fill_frame]. rewrite Ep. cbn [bind].
    unfold set_energy_column at 1. rewrite ensure_valid_index_noop by (symmetry; exact Lep).
    unfold require_length_match. rewrite Lep, Nat.eqb_refl. cbn [bind]. rewrite Ea. cbn [bind].
    unfold set_area_column, require_length_match. rewrite ensure_valid_index_noop by (symmetry; exact Lap).
    cbn [index_len]. rewrite Lap, Nat.eqb_refl. cbn [bind energy_columns area_columns].
    rewrite IH with (eps := eps') (aps := aps'); cbn [index_len energy_columns area_columns];
      [|reflexivity|reflexivity|exact Le'|exact La'].
    cbn [map]. rewrite <- !app_assoc. reflexivity.
Qed.

(** a plant loop over non-empty list of profiles of one length [n] *)
Lemma fill_frame_uniform ps eps aps (n : nat) :
  ps <> [] ->
  collect profile_of ps = Ok eps -> collect energyProfileArea ps = Ok aps ->
  Forall (fun ep => List.length ep = n) eps -> Forall (fun ap => List.length ap = n) aps ->
  fill_frame empty_frame ps = Ok (mkFrame n (map (map Some) eps) (map (map Some) aps)).
Proof.
  intros Hne Ce Ca Le La. destruct ps as [|p ps]; [contradiction|].
  cbn [collect] in Ce, Ca.
  destruct (profile_of p) as [ep|e] eqn:Ep; cbn [bind] in Ce; [|discriminate].
  destruct (collect profile_of ps) as [eps'|e] eqn:Ce'; cbn [bind] in Ce; [|discriminate].
  destruct (energyProfileArea p) as [ap|e] eqn:Ea; cbn [bind] in Ca; [|discriminate].
  destruct (collect energyProfileArea ps) as [aps'|e] eqn:Ca'; cbn [bind] in Ca;
    [|discriminate].
  injection Ce as <-. injection Ca as <-. apply Forall_cons_iff in Le as [Lep Le'].
  apply Forall_cons_iff in La as [Lap La'].
  cbn [fill_frame]. rewrite Ep. cbn [bind].
  unfold set_energy_column at 1. rewrite ensure_valid_index_empty.
  unfold require_length_match. cbn [index_len]. rewrite Nat.eqb_refl. cbn [bind].
  rewrite Ea. cbn [bind].
  unfold set_area_column, require_length_match. rewrite ensure_valid_index_noop by (cbn; congruence).
  cbn [index_len]. rewrite Lap, Lep, Nat.eqb_refl. cbn [bind energy_columns area_columns].
  rewrite (fill_frame_fixed ps _ eps' aps' Ce' Ca'); cbn [index_len];
    [|exact Le'|exact La'].
  reflexivity.
Qed.

Lemma collect_In {A : Type} (f : PhotovoltaicPlant -> result A) ps xs (x : A) :
  collect f ps = Ok xs -> In x xs -> exists p, In p ps /\ f p = Ok x.
Proof.
  revert xs; induction ps as [|p ps IH]; intros xs H Hin; cbn [collect] in H.
  - injection H as <-. destruct Hin.
  - destruct (f p) as [a|e] eqn:Ef; cbn [bind] in H; [|discriminate].
    destruct (collect f ps) as [rest|e] eqn:Er; cbn [bind] in H; [|discriminate].
    injection H as <-. destruct Hin as [<-|Hin].
    + exists p. split; [now left|exact Ef].
    + destruct (IH rest eq_refl Hin) as [q [Hq Hf]]. exists q. split; [now right|exact Hf].
Qed.

Lemma calc_pv_power_profile_unknown_type RES_PREFIX retrieve_module retrieve_inverter
  run_model sandia wd p :
  (modulesDatabaseType p <> 1)%Z -> (modulesDatabaseType p <> 2)%Z ->
  calc_pv_power_profile RES_PREFIX retrieve_module retrieve_inverter run_model sandia wd p
  = Err (ValueError ("Unknown modules database type: " ++ str_Z (modulesDatabaseType p))).
Proof.
  intros H1 H2. unfold calc_pv_power_profile, plant_energy, get_modules_and_inverters,
    get_database_paths.
  rewrite (proj2 (Z.eqb_neq _ _) H1), (proj2 (Z.eqb_neq _ _) H2). reflexivity.
Qed.

Lemma simulate_plants_err RES_PREFIX retrieve_module retrieve_inverter run_model sandia
  wd ps e :
  simulate_plants RES_PREFIX retrieve_module retrieve_inverter run_model sandia wd ps = Err e ->
  exists q, In q ps /\
    calc_pv_power_profile RES_PREFIX retrieve_module retrieve_inverter run_model sandia wd q
    = Err e.
Proof.
  induction ps as [|q ps IH]; simpl; [discriminate|].
  destruct (calc_pv_power_profile _ _ _ _ _ wd q) as [r|e'] eqn:E; cbn [bind].
  - destruct (simulate_plants _ _ _ _ _ wd ps) as [ps'|e''] eqn:E'; cbn [bind];
      [discriminate|].
    intros H. injection H as <-. destruct (IH eq_refl) as [q' [Hin Hq']].
    exists q'. split; [now right|exact Hq'].
  - intros H. injection H as <-. exists q. split; [now left|exact E].
Qed.

Lemma simulate_plants_app_err RES_PREFIX retrieve_module retrieve_inverter run_model sandia
  wd ps1 p ps2 e :
  (forall q, In q ps1 -> exists r,
     calc_pv_power_profile RES_PREFIX retrieve_module retrieve_inverter run_model sandia wd q
     = Ok r) ->
  calc_pv_power_profile RES_PREFIX retrieve_module retrieve_inverter run_model sandia wd p
  = Err e ->
  simulate_plants RES_PREFIX retrieve_module retrieve_inverter run_model sandia wd
    (ps1 ++ p :: ps2) = Err e.
Proof.
  intros Hok Hp. induction ps1 as [|q ps1 IH]; simpl.
  - rewrite Hp. reflexivity.
  - destruct (Hok q (or_introl eq_refl)) as [r Hr]. rewrite Hr. cbn [bind].
    rewrite IH by (intros q' Hq'; apply Hok; now right). reflexivity.
Qed.

(** C1 (failing input).  For one Sandia module of [Impo * Vmpo = 240] W on
    one string of one inverter, run for two hours at 100 W, the packaged
    orchestrator stores as [systemKWP] the annual energy sum in kWh (876),
    not the rated power of 0.24 kWp that the legacy orchestrator stores from
    the same run; the surface area is the module area in both. *)
Theorem systemKWP_stores_energy_sum :
  (exists ep a k,
     simulate_plants "res" ex_retrieve_module ex_retrieve_inverter ex_run_model ex_sandia
       ex_wd [ex_plant] = Ok [set_results ex_plant ep a k] /\
     k == qsum ep / 1000 /\ k == 876 /\ a == Area ex_module /\
     ~ k == Impo ex_module * Vmpo ex_module / 1000) /\
  (exists ep a k,
     simulatePlants_legacy "res" ex_retrieve_module ex_retrieve_inverter ex_run_model
       ex_sandia ex_wd [ex_plant] = Ok [set_results ex_plant ep a k] /\
     k == Impo ex_module * Vmpo ex_module / 1000 /\ a == Area ex_module).
Proof.
  split.
  - do 3 eexists. split; [vm_compute; reflexivity|].
    vm_compute. split; [reflexivity|split; [reflexivity|split; [reflexivity|discriminate]]].
  - do 3 eexists. split; [vm_compute; reflexivity|].
    vm_compute. split; reflexivity.
Qed.

(** C2 (counterexample).  Two plants with the same one-hour energy profile
    [1] and surface areas 1 and 3: the fleet area profile is
    [(1 + 1) / (1 + 3) = 1/2], while the mean of the per-plant area profiles
    [1] and [1/3] is [2/3]. *)
Lemma fleet_area_profile_not_mean :
  exists er v,
    generate_energy_profile_data_frame
      [ex_result_plant [1] 1 1; ex_result_plant [1] 3 1] = Ok er /\
    area_cols er = [[Some (1 / 1)]; [Some (1 / 3)]] /\
    nth_error (all_area er) 0 = Some v /\
    v == 1 # 2 /\
    ~ v == qsum (map (fun c => skipna (nth 0 c None)) (area_cols er)) / 2.
Proof.
  do 2 eexists. split; [vm_compute; reflexivity|].
  split; [reflexivity|]. split; [reflexivity|].
  vm_compute. split; [reflexivity|discriminate].
Qed.

(** C2 (amended).  In the packaged orchestrator the fleet area profile is,
    at every timestep, the sum of the plants' energy values divided by the
    total surface area of the fleet (an area-weighted ratio); the legacy
    orchestrator instead takes the arithmetic mean of the per-plant area
    profiles.  The frame stores each plant's energy profile and area
    profile; a list that was empty when a later plant set the index is
    reindexed to NaN and counts as 0 in the sums; the index length is 0 or
    the length of a stored profile. *)
Theorem fleet_area_profile_area_weighted (ps : list PhotovoltaicPlant)
  (er : DataframeResults)
  (H : generate_energy_profile_data_frame ps = Ok er) :
  exists eps aps areas,
    collect profile_of ps = Ok eps /\
    collect energyProfileArea ps = Ok aps /\
    collect area_of ps = Ok areas /\
    Forall2 (fun c ep => (List.length ep = List.length (all_area er) /\ c = map Some ep) \/
                         (ep = [] /\ c = repeat None (List.length (all_area er))))
      (energy_cols er) eps /\
    Forall2 (fun c ap => (List.length ap = List.length (all_area er) /\ c = map Some ap) \/
                         (ap = [] /\ c = repeat None (List.length (all_area er))))
      (area_cols er) aps /\
    (List.length (all_area er) = 0%nat \/
     exists ep, In ep eps /\ List.length ep = List.length (all_area er)) /\
    (forall t, (t < List.length (all_area er))%nat ->
       nth_error (all_area er) t
       = Some (qsum (map (fun ep => nth t ep 0) eps) / qsum areas)) /\
    (forall er', generateEnergyProfileDataFrame ps = Ok er' ->
       area_cols er' = area_cols er /\
       List.length (all_area er') = List.length (all_area er) /\
       forall t, (t < List.length (all_area er))%nat ->
         nth_error (all_area er') t
         = Some (qsum (map (fun ap => nth t ap 0) aps)
                 / inject_Z (Z.of_nat (List.length ps)))).
Proof.
  unfold generate_energy_profile_data_frame in H.
  destruct (fill_frame empty_frame ps) as [f|e] eqn:Ef; cbn [bind] in H; [|discriminate].
  destruct (collect area_of ps) as [areas|e] eqn:Ea; cbn [bind] in H; [|discriminate].
  injection H as <-.
  destruct (fill_frame_inv ps empty_frame f [] [] (Forall2_nil _) (Forall2_nil _)
              (or_introl eq_refl) Ef) as (eps & aps & Ce & Ca & He & Ha & Hi).
  cbn [app] in He, Ha, Hi. cbn [energy_cols area_cols all_area].
  assert (Lrs : forall cols, List.length (rowsum_skipna cols (index_len f)) = index_len f)
    by (intros cols; unfold rowsum_skipna; now rewrite length_map, length_seq).
  rewrite length_map, Lrs.
  exists eps, aps, areas.
  split; [exact Ce|]. split; [exact Ca|]. split; [reflexivity|].
  split; [exact He|]. split; [exact Ha|]. split; [exact Hi|].
  split.
  - intros t Ht. rewrite nth_error_map, (rowsum_skipna_eq _ _ _ He), rowsum_nth by exact Ht.
    reflexivity.
  - intros er' H'. unfold generateEnergyProfileDataFrame in H'.
    rewrite Ef in H'. cbn [bind] in H'. injection H' as <-.
    cbn [area_cols all_area]. split; [reflexivity|].
    split; [now rewrite length_map, Lrs|].
    intros t Ht. rewrite nth_error_map, (rowsum_skipna_eq _ _ _ Ha), rowsum_nth by exact Ht.
    rewrite (Forall2_length Ha), (collect_length _ _ _ Ca). reflexivity.
Qed.

(** C8.  For a fleet of [N > 0] identical simulated plants with energy
    profile [X], a non-zero rating [K] and a non-zero surface area [A],
    both frames are built and the fleet summary has
    [SumOfEnergyPerYear = N * sum X], [WorkSpecificEnergyPerYear = sum X / K]
    and [AreaSpecificEnergyPerYear = sum X / A]. *)
Theorem fleet_summary_identical_plants (p : PhotovoltaicPlant) (X : list Q) (K A : Q)
  (N : nat) (HN : (0 < N)%nat)
  (HX : energyProfile p = Some X) (HA : surfaceArea p = Some A)
  (HK : systemKWP p = Some K) (HA0 : ~ A == 0) (HK0 : ~ K == 0) :
  exists er sr,
    generate_energy_profile_data_frame (repeat p N) = Ok er /\
    generate_summary_data_frame (repeat p N) = Ok sr /\
    SumOfEnergyPerYear (SummaryOfAllPlants (build_result_dict er sr))
      == inject_Z (Z.of_nat N) * qsum X /\
    WorkSpecificEnergyPerYear (SummaryOfAllPlants (build_result_dict er sr)) == qsum X / K /\
    AreaSpecificEnergyPerYear (SummaryOfAllPlants (build_result_dict er sr)) == qsum X / A.
Proof.
  assert (Ep : collect profile_of (repeat p N) = Ok (repeat X N))
    by (apply collect_repeat; unfold profile_of; now rewrite HX).
  assert (Ea : collect area_of (repeat p N) = Ok (repeat A N))
    by (apply collect_repeat; unfold area_of; now rewrite HA).
  assert (Ek : collect kwp_of (repeat p N) = Ok (repeat K N))
    by (apply collect_repeat; unfold kwp_of; now rewrite HK).
  assert (Eap : collect energyProfileArea (repeat p N)
                = Ok (repeat (map (fun v => v / A) X) N))
    by (apply collect_repeat; now apply energyProfileArea_ok).
  destruct N as [|N']; [lia|].
  assert (Hn : nrows (repeat X (S N')) = List.length X) by reflexivity.
  assert (Hf : fill_frame empty_frame (repeat p (S N'))
               = Ok (mkFrame (List.length X) (map (map Some) (repeat X (S N')))
                       (map (map Some) (repeat (map (fun v => v / A) X) (S N'))))).
  { apply fill_frame_uniform; [discriminate|exact Ep|exact Eap| |];
      apply Forall_forall; intros x Hx; apply repeat_spec in Hx; subst x;
      [reflexivity|apply length_map]. }
  assert (Hfr : exists er, generate_energy_profile_data_frame (repeat p (S N')) = Ok er).
  { unfold generate_energy_profile_data_frame. rewrite Hf. cbn [bind]. rewrite Ea.
    eexists; reflexivity. }
  destruct Hfr as [er Her].
  assert (Hnp : np_array_2d (repeat X (S N')) = Ok tt).
  { unfold np_array_2d. rewrite Hn, forallb_repeat; [reflexivity|]. apply Nat.eqb_refl. }
  set (rs := rowsum (repeat X (S N')) (List.length X)).
  exists er.
  exists (mkSummaryResults
            (zip_with3 (fun s k a => (s, k, a)) (map qsum (repeat X (S N')))
               (zip_with Qdiv (map qsum (repeat X (S N'))) (repeat K (S N')))
               (zip_with Qdiv (map qsum (repeat X (S N'))) (repeat A (S N'))))
            (qsum rs, qsum rs / qsum (repeat K (S N')), qsum rs / qsum (repeat A (S N')))).
  split; [exact Her|split].
  - unfold generate_summary_data_frame. rewrite Eap, Ep, Ea, Ek. cbn [bind].
    rewrite Hnp. cbn [bind]. reflexivity.
  - cbn [build_result_dict over_all SummaryOfAllPlants SumOfEnergyPerYear
         WorkSpecificEnergyPerYear AreaSpecificEnergyPerYear].
    unfold rs. rewrite !rowsum_repeat, !qsum_repeat.
    pose proof (inject_nat_nonzero (S N') HN) as HN0.
    split; [reflexivity|]. split; apply div_cancel_l; exact HN0.
Qed.

(** C9 (counterexample).  A plant with the unknown selector 3 makes the
    orchestrator fail with the same [ValueError] whether it is the first
    plant of the request or the second, after a plant that simulates: the
    error carries the selector value but no plant index. *)
Lemma plant_error_has_no_index :
  simulate_pv_plants "res" ex_retrieve_module ex_retrieve_inverter ex_run_model ex_sandia
    ex_zenith ex_dni ex_wd_plain [ex_plant; ex_bad_plant]
  = Err (ValueError "Unknown modules database type: 3") /\
  simulate_pv_plants "res" ex_retrieve_module ex_retrieve_inverter ex_run_model ex_sandia
    ex_zenith ex_dni ex_wd_plain [ex_bad_plant]
  = Err (ValueError "Unknown modules database type: 3").
Proof. split; vm_compute; reflexivity. Qed.

Section Collab.
Variable RES_PREFIX : string.
Variable retrieve_module : string -> string -> option ModuleParams.
Variable retrieve_inverter : string -> string -> option InverterParams.
Variable run_model : PhotovoltaicPlant -> ModuleParams -> InverterParams ->
                     WeatherData -> result (list (option Q * option Q)).
Variable sandia : InverterParams -> option Q -> option Q -> option Q.
Variable solar_zenith : Timestamp -> float -> float -> float -> float -> float.
Variable irradiance_dni : float -> float -> float -> float.

(** C9 (amended).  For a plant whose module-database selector is neither 1
    (Sandia) nor 2 (CEC), the plant's simulation fails with a [ValueError]
    naming the selector value; the orchestrator attaches no plant index:
    an error of the plant loop is exactly the error the failing plant's
    own simulation raised, and a request reaching such a plant fails with
    that error unchanged. *)
Theorem unknown_database_type_propagates (p : PhotovoltaicPlant)
  (Ht1 : modulesDatabaseType p <> 1%Z) (Ht2 : modulesDatabaseType p <> 2%Z) :
  (forall wd, calc_pv_power_profile RES_PREFIX retrieve_module retrieve_inverter run_model
                sandia wd p
     = Err (ValueError ("Unknown modules database type: " ++ str_Z (modulesDatabaseType p)))) /\
  (forall wd ps e,
     simulate_plants RES_PREFIX retrieve_module retrieve_inverter run_model sandia wd ps
     = Err e ->
     exists q, In q ps /\
       calc_pv_power_profile RES_PREFIX retrieve_module retrieve_inverter run_model sandia
         wd q = Err e) /\
  (forall wd wd' log ps1 ps2,
     prepare_weather solar_zenith irradiance_dni wd = Ok (wd', log) ->
     (forall q, In q ps1 -> exists r,
        calc_pv_power_profile RES_PREFIX retrieve_module retrieve_inverter run_model sandia
          wd' q = Ok r) ->
     simulate_pv_plants RES_PREFIX retrieve_module retrieve_inverter run_model sandia
       solar_zenith irradiance_dni wd (ps1 ++ p :: ps2)
     = Err (ValueError ("Unknown modules database type: " ++ str_Z (modulesDatabaseType p)))).
Proof.
  split; [|split].
  - intros wd. now apply calc_pv_power_profile_unknown_type.
  - intros wd ps e. apply simulate_plants_err.
  - intros wd wd' log ps1 ps2 Hprep Hok. unfold simulate_pv_plants.
    rewrite Hprep. cbn [bind].
    rewrite (simulate_plants_app_err _ _ _ _ _ wd' ps1 p ps2 _ Hok
               (calc_pv_power_profile_unknown_type _ _ _ _ _ wd' p Ht1 Ht2)).
    reflexivity.
Qed.

End Collab.

End PvSimProps.



(** ** Further properties of the weather dataset *)
Module WeatherExtra.
Import Facts WeatherProps.



Section Ext.
Variable solar_zenith : Timestamp -> float -> float -> float -> float -> float.
Variable irradiance_dni : float -> float -> float -> float.




(** X15.  The DNI recalculation only replaces the [dni] series, and
    running it again on its own result changes nothing: the new series
    depends on [ghi], [dhi], the timestamps, the pressure and the site,
    none of which it modifies. *)
Theorem recalculate_dni_idempotent (wd wd1 : WeatherData)
  (H : recalculate_dni solar_zenith irradiance_dni wd = Ok wd1) :
  recalculate_dni solar_zenith irradiance_dni wd1 = Ok wd1 /\
  set_weatherData wd1 (set_dni (weatherData wd1) (dni (weatherData wd))) = wd.
Proof.
  destruct (recalculate_dni_inv _ _ wd wd1 H) as [G Hwd]. subst wd1.
  destruct wd as [al k y la lo z f1 f2 sh [ts mo da ho ta ap wdir ws sc pw rh dn gh dh]].
  split; [|reflexivity].
  revert G. unfold recalculate_dni.
  cbv [weatherData set_weatherData set_dni altitude kind years latitude longitude tz
       adjustTimestamp recalculateDNI timeshiftInMinutes timeStamps month day hour
       temp_air atmospheric_pressure wind_direction wind_speed sky_cover
       precipitable_water relative_humidity dni ghi dhi].
  intros G. rewrite G. reflexivity.
Qed.


End Ext.

End WeatherExtra.

(** ** Further properties of the [.dat] reader *)
Module ReaderExtra.
Import Facts DatReader ReaderProps.
Local Open Scope string_scope.

Local Strategy opaque [dat_range].

Lemma existsb_eqb_In (x : string) (l : list string) :
  existsb (String.eqb x) l = true <-> In x l.
Proof.
  rewrite existsb_exists. split.
  - intros [y [Hy E]]. apply String.eqb_eq in E. now subst.
  - intros H. exists x. split; [exact H|apply String.eqb_refl].
Qed.

Lemma scan_header_no_sentinel (path : string) (m : Meta) (last : string) (lines : list string)
  meta names rest :
  Forall (fun l => String.prefix "***" l = false) lines ->
  scan_header path m last lines = Ok (meta, names, rest) -> names = [] /\ rest = [].
Proof.
  intros H. revert m last. induction H as [|l lines Hl _ IH]; intros m last Hs.
  - cbn in Hs. apply ok_inj in Hs. injection Hs as _ <- <-. auto.
  - cbn [scan_header] in Hs. rewrite Hl in Hs.
    destruct (scan_keys path l meta_keys m) as [m'|e]; cbn [bind] in Hs; [|discriminate].
    exact (IH m' l Hs).
Qed.

Lemma read_calendar_inv (transform : Z -> Z -> float * float) path lines wd :
  read_in_dat_file transform path lines = Ok wd ->
  timeStamps (weatherData wd) = dat_range /\
  month (weatherData wd) = map month_of dat_range /\
  day (weatherData wd) = map day_of dat_range /\
  hour (weatherData wd) = map hour_of dat_range.
Proof.
  intros H. unfold read_in_dat_file in H.
  remember dat_range as dr eqn:Edr in H.
  peel H; apply ok_inj in H; subst wd; cbn [weatherData timeStamps month day hour];
    subst dr; auto.
Qed.

Lemma forallb_range (f : Timestamp -> Z) (l : list Timestamp) (lo hi : Z) :
  forallb (fun t => (lo <=? f t) && (f t <=? hi))%Z l = true ->
  Forall (fun v => (lo <= v <= hi)%Z) (map f l).
Proof.
  intros H. apply Forall_map, Forall_forall. intros t Ht.
  rewrite forallb_forall in H. apply H in Ht. apply andb_true_iff in Ht as [A B].
  apply Z.leb_le in A, B. lia.
Qed.

(** X17.  The reader fills the dataset from the named columns of the data
    block: [t], [RF], [WG], [WR], [N] and [x] become the temperature,
    humidity, wind speed, wind direction, sky cover and water content,
    [p] becomes the pressure times 100 (hPa to Pa), and [dhi] is column
    [D] and [ghi] is [D + B] unless the file itself has columns named
    [dhi] or [ghi], which then take their place. *)
Theorem read_in_dat_file_columns (transform : Z -> Z -> float * float)
  (path : string) (lines : list string) (wd : WeatherData) (meta : Meta)
  (names rest : list string) (rows : list (list float))
  (Hs : scan_header path empty_meta "" lines = Ok (meta, names, rest))
  (Ht : read_table names rest = Ok rows)
  (H : read_in_dat_file transform path lines = Ok wd) :
  column names rows "t" = Ok (temp_air (weatherData wd)) /\
  column names rows "RF" = Ok (relative_humidity (weatherData wd)) /\
  column names rows "WG" = Ok (wind_speed (weatherData wd)) /\
  column names rows "WR" = Ok (wind_direction (weatherData wd)) /\
  column names rows "N" = Ok (sky_cover (weatherData wd)) /\
  column names rows "x" = Ok (precipitable_water (weatherData wd)) /\
  (exists pc, column names rows "p" = Ok pc /\
     atmospheric_pressure (weatherData wd) = map (fun v => (v * 100)%float) pc) /\
  (In "dhi" names -> column names rows "dhi" = Ok (dhi (weatherData wd))) /\
  (~ In "dhi" names -> column names rows "D" = Ok (dhi (weatherData wd))) /\
  (In "ghi" names -> column names rows "ghi" = Ok (ghi (weatherData wd))) /\
  (~ In "ghi" names -> exists d b, column names rows "D" = Ok d /\
     column names rows "B" = Ok b /\
     ghi (weatherData wd) = zip_with (fun x y => (x + y)%float) d b).
Proof.
  unfold read_in_dat_file in H. rewrite Hs in H. cbn [bind] in H.
  rewrite Ht in H. cbn [reraise bind] in H.
  remember dat_range as dr eqn:Edr in H.
  peel H; apply ok_inj in H; subst wd;
    cbn [weatherData temp_air relative_humidity wind_speed wind_direction sky_cover
         precipitable_water atmospheric_pressure dhi ghi];
    repeat split; try reflexivity;
    try (eexists; split; reflexivity); intros Hx;
    first [ reflexivity
          | exfalso; apply Hx, existsb_eqb_In; assumption
          | apply existsb_eqb_In in Hx; congruence
          | do 2 eexists; split; [reflexivity|split; reflexivity] ].
Qed.

(** X18.  The site metadata of the dataset comes from the header: latitude
    and longitude are the projection of ([Hochwert], [Rechtswert]), in that
    order; the altitude defaults to 0 and the kind to "unknown" when the
    header lacks them; the year is 2015 and the offset 1 hour. *)
Theorem read_in_dat_file_metadata (transform : Z -> Z -> float * float)
  (path : string) (lines : list string) (wd : WeatherData) (meta : Meta)
  (names rest : list string) (h r : Z)
  (Hs : scan_header path empty_meta "" lines = Ok (meta, names, rest))
  (Hh : m_Hochwert meta = Some h) (Hr : m_Rechtswert meta = Some r)
  (H : read_in_dat_file transform path lines = Ok wd) :
  (latitude wd, longitude wd) = transform h r /\
  altitude wd = float_of_Z (match m_altitude meta with Some a => a | None => 0%Z end) /\
  kind wd = (match m_kind meta with Some k => k | None => "unknown" end) /\
  years wd = 2015%Z /\ tz wd = 1%Z.
Proof.
  unfold read_in_dat_file in H. rewrite Hs in H. cbn [bind] in H.
  rewrite Hh, Hr in H. cbn [require bind] in H.
  destruct (transform h r) as [lat lon] eqn:Etr. cbv beta iota in H.
  remember dat_range as dr eqn:Edr in H.
  peel H; apply ok_inj in H; subst wd; cbn; auto.
Qed.

(** X19.  The month, day and hour columns of a parsed file are computed
    from the generated timestamps, not read from the file's [MM], [DD],
    [HH] columns; they lie within 1..12, 1..31 and 0..23, and the last
    record is 2015-12-31 23:00 local time. *)
Theorem read_in_dat_file_calendar (transform : Z -> Z -> float * float)
  (path : string) (lines : list string) (wd : WeatherData)
  (H : read_in_dat_file transform path lines = Ok wd) :
  month (weatherData wd) = map month_of (timeStamps (weatherData wd)) /\
  day (weatherData wd) = map day_of (timeStamps (weatherData wd)) /\
  hour (weatherData wd) = map hour_of (timeStamps (weatherData wd)) /\
  Forall (fun v => (1 <= v <= 12)%Z) (month (weatherData wd)) /\
  Forall (fun v => (1 <= v <= 31)%Z) (day (weatherData wd)) /\
  Forall (fun v => (0 <= v <= 23)%Z) (hour (weatherData wd)) /\
  (exists tl, nth_error (timeStamps (weatherData wd)) (Z.to_nat 8759) = Some tl /\
     civil_from_days (wall tl / 1440) = (2015%Z, 12%Z, 31%Z) /\ hour_of tl = 23%Z).
Proof.
  destruct (read_calendar_inv transform path lines wd H) as (Ts & Mo & Da & Ho).
  rewrite Mo, Da, Ho, Ts.
  split; [reflexivity|split; [reflexivity|split; [reflexivity|]]].
  split; [apply forallb_range; vm_compute; reflexivity|].
  split; [apply forallb_range; vm_compute; reflexivity|].
  split; [apply forallb_range; vm_compute; reflexivity|].
  rewrite dat_range_eq.
  exists (mkTs (ts_utc (localize 2015 1 1 0 0 3600) + 60 * Z.of_nat (Z.to_nat 8759))
               (ts_tz (localize 2015 1 1 0 0 3600))).
  split; [apply hourly_from_nth; lia|]. split; vm_compute; reflexivity.
Qed.

(** X20.  A header without a [Hochwert] line fails with
    [KeyError('Hochwert')]; one with [Hochwert] but without [Rechtswert]
    fails with [KeyError('Rechtswert')], before the data block is read. *)
Theorem read_in_dat_file_missing_coordinates (transform : Z -> Z -> float * float)
  (path : string) (lines : list string) (meta : Meta) (names rest : list string)
  (Hs : scan_header path empty_meta "" lines = Ok (meta, names, rest)) :
  (m_Hochwert meta = None ->
   read_in_dat_file transform path lines = Err (KeyError "Hochwert")) /\
  (forall h, m_Hochwert meta = Some h -> m_Rechtswert meta = None ->
   read_in_dat_file transform path lines = Err (KeyError "Rechtswert")).
Proof.
  unfold read_in_dat_file. rewrite Hs. cbn [bind]. split.
  - intros E. rewrite E. reflexivity.
  - intros h E1 E2. rewrite E1, E2. reflexivity.
Qed.

(** X21.  A file without a line starting with [***] has no column names
    and no data lines; once its header gives both coordinates, the read
    fails with the reader's data-block error wrapping pandas' "No columns
    to parse from file". *)
Theorem read_in_dat_file_no_sentinel (transform : Z -> Z -> float * float)
  (path : string) (lines : list string) (meta : Meta) (names rest : list string) (h r : Z)
  (Hno : Forall (fun l => String.prefix "***" l = false) lines)
  (Hs : scan_header path empty_meta "" lines = Ok (meta, names, rest))
  (Hh : m_Hochwert meta = Some h) (Hr : m_Rechtswert meta = Some r) :
  names = [] /\ rest = [] /\
  read_in_dat_file transform path lines =
    Err (ValueError ("Could not read the datapoints in the .dat weather data file " ++ path
                     ++ ". The following error occured: No columns to parse from file")).
Proof.
  destruct (scan_header_no_sentinel _ _ _ _ _ _ _ Hno Hs) as [-> ->].
  split; [reflexivity|split; [reflexivity|]].
  unfold read_in_dat_file. rewrite Hs. cbn [bind]. rewrite Hh, Hr. cbn [require bind].
  destruct (transform h r). cbn [read_table reraise bind err_str].
  rewrite !str_append_assoc. reflexivity.
Qed.

End ReaderExtra.

(** ** Further properties of the orchestrator and the aggregation *)
Module PvExtra.
Import Facts PvSim QSum PvSimProps.
Local Open Scope Q_scope.

Lemma append_cancel_l (s a b : string) : (s ++ a)%string = (s ++ b)%string -> a = b.
Proof. induction s as [|c s IH]; simpl; [auto|intros H; injection H; auto]. Qed.

Lemma qsum_nonneg (l : list Q) : (forall v, In v l -> 0 <= v) -> 0 <= qsum l.
Proof.
  induction l as [|x l IH]; intros H; [apply Qle_refl|].
  rewrite qsum_cons. apply Qle_trans with (0 + 0); [discriminate|].
  apply Qplus_le_compat; [apply H; now left|apply IH; intros v Hv; apply H; now right].
Qed.

Lemma qsum_map_div {A : Type} (f : A -> Q) (a : Q) (l : list A) :
  qsum (map (fun x => f x / a) l) == qsum (map f l) / a.
Proof.
  induction l as [|x l IH]; simpl map; [reflexivity|].
  rewrite !qsum_cons, IH. unfold Qdiv. ring.
Qed.

Lemma qsum_map_plus {A : Type} (f g : A -> Q) (l : list A) :
  qsum (map (fun x => f x + g x) l) == qsum (map f l) + qsum (map g l).
Proof.
  induction l as [|x l IH]; simpl map; [reflexivity|].
  rewrite !qsum_cons, IH. ring.
Qed.

Lemma div_by_thousandth (s : Q) : ~ s == 0 -> s / (s / 1000) == 1000.
Proof. intros Hs. field. exact Hs. Qed.


Lemma installation_not_in (k : Z) :
  ~ In k [1; 2; 3; 4]%Z -> module_installation_type k = Err (KeyError (str_Z k)).
Proof.
  intros Hk. unfold module_installation_type.
  destruct (Z.eqb_spec k 1) as [E|_]; [exfalso; apply Hk; rewrite E; simpl; tauto|].
  destruct (Z.eqb_spec k 2) as [E|_]; [exfalso; apply Hk; rewrite E; simpl; tauto|].
  destruct (Z.eqb_spec k 3) as [E|_]; [exfalso; apply Hk; rewrite E; simpl; tauto|].
  destruct (Z.eqb_spec k 4) as [E|_]; [exfalso; apply Hk; rewrite E; simpl; tauto|].
  reflexivity.
Qed.

Lemma Forall2_Forall_r {A B : Type} (R : A -> B -> Prop) (P : A -> Prop) (Q' : B -> Prop)
  l1 l2 :
  Forall2 R l1 l2 -> Forall P l1 -> (forall x y, R x y -> P x -> Q' y) -> Forall Q' l2.
Proof.
  intros H2 H1 Himp. induction H2 as [|x y l1 l2 Hxy H2 IH]; [constructor|].
  inversion H1; subst. constructor; [eapply Himp; eauto|auto].
Qed.

Section Db.
Variable RES_PREFIX : string.

Lemma gdp_cases (t : Z) (paths : string * string) :
  get_database_paths RES_PREFIX t = Ok paths ->
  (t = 1%Z /\ paths = (RES_PREFIX ++ "/220225_Sandia_Modules.csv",
                       RES_PREFIX ++ "/221115_CEC_Inverters.csv")%string) \/
  (t = 2%Z /\ paths = (RES_PREFIX ++ "/221115_CEC_Modules.csv",
                       RES_PREFIX ++ "/221115_CEC_Inverters.csv")%string).
Proof.
  unfold get_database_paths.
  destruct (Z.eqb_spec t 1); [intros H; apply ok_inj in H; left; auto|].
  destruct (Z.eqb_spec t 2); [intros H; apply ok_inj in H; right; auto|discriminate].
Qed.


(** X1.  [get_database_paths] accepts exactly the selectors 1 (Sandia) and
    2 (CEC) and raises [ValueError("Unknown modules database type: " + str(t))]
    for any other selector [t]; every plant it accepts reads the one CEC
    inverter table, and two accepted plants read the same module table
    exactly when their selectors agree. *)
Theorem database_paths_selectors :
  (forall t, (exists paths, get_database_paths RES_PREFIX t = Ok paths) <->
             t = 1%Z \/ t = 2%Z) /\
  (forall t, t <> 1%Z -> t <> 2%Z ->
     get_database_paths RES_PREFIX t =
       Err (ValueError ("Unknown modules database type: " ++ str_Z t))) /\
  (forall p q ip iq, invertersDatabasePath RES_PREFIX p = Ok ip ->
     invertersDatabasePath RES_PREFIX q = Ok iq -> ip = iq) /\
  (forall p q mp mq, modulesDatabasePath RES_PREFIX p = Ok mp ->
     modulesDatabasePath RES_PREFIX q = Ok mq ->
     (mp = mq <-> modulesDatabaseType p = modulesDatabaseType q)).
Proof.
  split; [|split; [|split]].
  - intros t. split.
    + intros [paths H]. destruct (gdp_cases t paths H) as [[-> _]|[-> _]]; auto.
    + intros [->| ->]; eexists; reflexivity.
  - intros t H1 H2. unfold get_database_paths.
    destruct (Z.eqb_spec t 1); [contradiction|].
    destruct (Z.eqb_spec t 2); [contradiction|reflexivity].
  - intros p q ip iq Hp Hq. unfold invertersDatabasePath in Hp, Hq.
    destruct (get_database_paths RES_PREFIX (modulesDatabaseType p)) as [pp|e] eqn:Ep;
      cbn [bind] in Hp; [|discriminate].
    destruct (get_database_paths RES_PREFIX (modulesDatabaseType q)) as [pq|e] eqn:Eq;
      cbn [bind] in Hq; [|discriminate].
    apply ok_inj in Hp, Hq. subst.
    destruct (gdp_cases _ _ Ep) as [[_ ->]|[_ ->]];
      destruct (gdp_cases _ _ Eq) as [[_ ->]|[_ ->]]; reflexivity.
  - intros p q mp mq Hp Hq. unfold modulesDatabasePath in Hp, Hq.
    destruct (get_database_paths RES_PREFIX (modulesDatabaseType p)) as [pp|e] eqn:Ep;
      cbn [bind] in Hp; [|discriminate].
    destruct (get_database_paths RES_PREFIX (modulesDatabaseType q)) as [pq|e] eqn:Eq;
      cbn [bind] in Hq; [|discriminate].
    apply ok_inj in Hp, Hq. subst.
    destruct (gdp_cases _ _ Ep) as [[Tp ->]|[Tp ->]];
      destruct (gdp_cases _ _ Eq) as [[Tq ->]|[Tq ->]]; cbn [fst]; rewrite Tp, Tq;
      split; intros H; try reflexivity; try discriminate H;
      apply append_cancel_l in H; discriminate H.
Qed.

End Db.

Section Collab.
Variable RES_PREFIX : string.
Variable retrieve_module : string -> string -> option ModuleParams.
Variable retrieve_inverter : string -> string -> option InverterParams.
Variable run_model : PhotovoltaicPlant -> ModuleParams -> InverterParams ->
                     WeatherData -> result (list (option Q * option Q)).
Variable sandia : InverterParams -> option Q -> option Q -> option Q.
Variable solar_zenith : Timestamp -> float -> float -> float -> float -> float.
Variable irradiance_dni : float -> float -> float -> float.

Local Abbreviation calc :=
  (calc_pv_power_profile RES_PREFIX retrieve_module retrieve_inverter run_model sandia).
Local Abbreviation get_mi :=
  (get_modules_and_inverters RES_PREFIX retrieve_module retrieve_inverter).
Local Abbreviation sim :=
  (simulate_plants RES_PREFIX retrieve_module retrieve_inverter run_model sandia).

Lemma get_mi_types (p : PhotovoltaicPlant) m i :
  get_mi p = Ok (m, i) -> modulesDatabaseType p = 1%Z \/ modulesDatabaseType p = 2%Z.
Proof.
  unfold get_modules_and_inverters.
  destruct (get_database_paths RES_PREFIX (modulesDatabaseType p)) as [ps|e] eqn:E;
    cbn [bind]; [|discriminate].
  intros _. destruct (gdp_cases _ _ _ E) as [[-> _]|[-> _]]; auto.
Qed.


(** X2.  A plant whose module is not a column of its module table fails
    with [KeyError(moduleName)]; a plant whose module is found but whose
    inverter is not a column of the inverter table fails with
    [KeyError(inverterName)], whatever the weather. *)
Theorem missing_database_entry_raises (p : PhotovoltaicPlant) (mp ip : string)
  (Hm : modulesDatabasePath RES_PREFIX p = Ok mp)
  (Hi : invertersDatabasePath RES_PREFIX p = Ok ip) :
  (retrieve_module mp (moduleName p) = None ->
   forall wd, calc wd p = Err (KeyError (moduleName p))) /\
  (forall m, retrieve_module mp (moduleName p) = Some m ->
   retrieve_inverter ip (inverterName p) = None ->
   forall wd, calc wd p = Err (KeyError (inverterName p))).
Proof.
  unfold modulesDatabasePath, invertersDatabasePath in *.
  destruct (get_database_paths RES_PREFIX (modulesDatabaseType p)) as [[a b]|e] eqn:E;
    cbn [bind] in Hm, Hi; [|discriminate].
  apply ok_inj in Hm, Hi. cbn [fst snd] in Hm, Hi. subst.
  split.
  - intros Hn wd. unfold calc_pv_power_profile, plant_energy, get_modules_and_inverters.
    rewrite E. cbn [bind fst snd]. rewrite Hn. reflexivity.
  - intros m Hmod Hn wd. unfold calc_pv_power_profile, plant_energy, get_modules_and_inverters.
    rewrite E. cbn [bind fst snd]. rewrite Hmod, Hn. reflexivity.
Qed.

(** X3.  A plant whose module and inverter are found but whose
    [moduleInstallation] is not one of 1, 2, 3, 4 fails with
    [KeyError(str(moduleInstallation))] before the model chain runs. *)
Theorem unsupported_installation_raises (p : PhotovoltaicPlant) m i
  (Hmi : get_mi p = Ok (m, i)) (Hk : ~ In (moduleInstallation p) [1; 2; 3; 4]%Z) :
  forall wd, calc wd p = Err (KeyError (str_Z (moduleInstallation p))).
Proof.
  intros wd. unfold calc_pv_power_profile, plant_energy. rewrite Hmi. cbn [bind].
  rewrite (installation_not_in _ Hk). reflexivity.
Qed.


Lemma installation_ok (k : Z) s :
  module_installation_type k = Ok s -> In k [1; 2; 3; 4]%Z.
Proof.
  unfold module_installation_type.
  destruct (Z.eqb_spec k 1); [intros; subst; simpl; tauto|].
  destruct (Z.eqb_spec k 2); [intros; subst; simpl; tauto|].
  destruct (Z.eqb_spec k 3); [intros; subst; simpl; tauto|].
  destruct (Z.eqb_spec k 4); [intros; subst; simpl; tauto|discriminate].
Qed.

Lemma calc_ok_inv (wd : WeatherData) (p : PhotovoltaicPlant) r :
  calc wd p = Ok r ->
  exists m i dc, get_mi p = Ok (m, i) /\ run_model p m i wd = Ok dc /\
    In (moduleInstallation p) [1; 2; 3; 4]%Z /\
    (let pv_power_profile :=
       if useInverterDatabase p
       then map (fun vp => qmul_opt (inject_Z (numberOfInverters p))
                             (sandia i (fst vp) (snd vp))) dc
       else map (fun vp => qmul_opt (inject_Z (numberOfInverters p))
                             (qmul_opt (inverterEta p) (snd vp))) dc in
     let filled := map (fun o => match o with Some v => v | None => 0 end) pv_power_profile in
     let clipped :=
       if negb (useStandByPowerInverter p)
       then map (fun v => if Qlt_le_dec v 0 then 0 else v) filled
       else filled in
     r_energyProfile r =
       map (fun v => v * 8760 / inject_Z (Z.of_nat (List.length clipped))) clipped /\
     r_sumOfEnergyPerYear r = qsum (r_energyProfile r) / 1000).
Proof.
  intros H. unfold calc_pv_power_profile, plant_energy in H.
  destruct (get_mi p) as [[m i]|e] eqn:Emi; cbn [bind] in H; [|discriminate].
  destruct (module_installation_type (moduleInstallation p)) as [s|e] eqn:Ek;
    cbn [bind] in H; [|discriminate].
  pose proof (installation_ok _ _ Ek) as Hk.
  destruct (get_mi_types p m i Emi) as [T|T]; rewrite T in H;
    cbn [dc_model Z.eqb Pos.eqb bind] in H;
    (destruct (run_model p m i wd) as [dc|e] eqn:Edc; cbn [bind] in H; [|discriminate]);
    apply ok_inj in H; subst r; exists m, i, dc;
    (repeat split; first [reflexivity|assumption]).
Qed.

Lemma nonneg_scale (c : Q) (n : nat) : 0 <= c -> 0 <= c * 8760 / inject_Z (Z.of_nat n).
Proof.
  intros Hc. unfold Qdiv. apply Qmult_le_0_compat.
  - apply Qmult_le_0_compat; [exact Hc|discriminate].
  - apply Qinv_le_0_compat. unfold Qle; simpl; lia.
Qed.

(** X5.  With the stand-by consumption of the inverter disabled, every
    hourly energy value of a simulated plant and its annual sum are
    non-negative (negative powers are clipped to zero), and the profile has
    one value per record of the model chain's output. *)
Theorem calc_energy_nonneg (wd : WeatherData) (p : PhotovoltaicPlant) r
  (Hsb : useStandByPowerInverter p = false) (H : calc wd p = Ok r) :
  (forall v, In v (r_energyProfile r) -> 0 <= v) /\ 0 <= r_sumOfEnergyPerYear r /\
  exists m i dc, get_mi p = Ok (m, i) /\ run_model p m i wd = Ok dc /\
    List.length (r_energyProfile r) = List.length dc.
Proof.
  destruct (calc_ok_inv wd p r H) as (m & i & dc & Emi & Edc & Hk & Hep & Hsum).
  rewrite Hsb in Hep. cbn [negb] in Hep.
  assert (Hnn : forall v, In v (r_energyProfile r) -> 0 <= v).
  { intros v Hv. rewrite Hep in Hv. apply in_map_iff in Hv as [c [<- Hc]].
    apply in_map_iff in Hc as [x [<- _]]. apply nonneg_scale.
    destruct (Qlt_le_dec x 0); [apply Qle_refl|assumption]. }
  split; [exact Hnn|split].
  - rewrite Hsum. unfold Qdiv. apply Qmult_le_0_compat; [apply qsum_nonneg; exact Hnn|discriminate].
  - exists m, i, dc. split; [exact Emi|split; [exact Edc|]].
    rewrite Hep. destruct (useInverterDatabase p); rewrite !length_map; reflexivity.
Qed.

(** X6.  For a plant with a single inverter efficiency (no inverter
    database), stand-by consumption off and a model-chain output of 8760
    hourly records, the [8760 / size] factor is 1: the hourly energy is the
    AC power [numberOfInverters * inverterEta * p_mp] clipped at zero (0
    where [p_mp] is NaN), and the annual sum is the sum of these values
    over 1000. *)
Theorem calc_full_year_eta (wd : WeatherData) (p : PhotovoltaicPlant) m i dc r
  (Hinv : useInverterDatabase p = false) (Hsb : useStandByPowerInverter p = false)
  (Hmi : get_mi p = Ok (m, i)) (Hdc : run_model p m i wd = Ok dc)
  (Hlen : List.length dc = Z.to_nat 8760) (H : calc wd p = Ok r) :
  List.length (r_energyProfile r) = Z.to_nat 8760 /\
  (forall t vp e, nth_error dc t = Some vp -> nth_error (r_energyProfile r) t = Some e ->
     e == match snd vp with
          | Some x =>
              if Qlt_le_dec (inject_Z (numberOfInverters p) * (inverterEta p * x)) 0 then 0
              else inject_Z (numberOfInverters p) * (inverterEta p * x)
          | None => 0
          end) /\
  r_sumOfEnergyPerYear r ==
    qsum (map (fun vp => match snd vp with
          | Some x =>
              if Qlt_le_dec (inject_Z (numberOfInverters p) * (inverterEta p * x)) 0 then 0
              else inject_Z (numberOfInverters p) * (inverterEta p * x)
          | None => 0
          end) dc) / 1000.
Proof.
  destruct (calc_ok_inv wd p r H) as (m' & i' & dc' & Emi & Edc & Hk & Hep & Hsum).
  rewrite Hmi in Emi. apply ok_inj in Emi. injection Emi as <- <-.
  rewrite Hdc in Edc. apply ok_inj in Edc. subst dc'.
  rewrite Hinv, Hsb in Hep. cbn [negb] in Hep. rewrite !length_map, Hlen in Hep.
  assert (Hpt : forall vp : option Q * option Q,
    (fun v => if Qlt_le_dec v 0 then 0 else v)
      ((fun o => match o with Some v => v | None => 0 end)
         (qmul_opt (inject_Z (numberOfInverters p)) (qmul_opt (inverterEta p) (snd vp))))
      * 8760 / inject_Z (Z.of_nat (Z.to_nat 8760)) ==
    match snd vp with
    | Some x =>
        if Qlt_le_dec (inject_Z (numberOfInverters p) * (inverterEta p * x)) 0 then 0
        else inject_Z (numberOfInverters p) * (inverterEta p * x)
    | None => 0
    end).
  { intros [v [x|]]; cbn [snd qmul_opt option_map];
      [destruct (Qlt_le_dec (inject_Z (numberOfInverters p) * (inverterEta p * x)) 0)|
       destruct (Qlt_le_dec 0 0)];
    change (inject_Z (Z.of_nat (Z.to_nat 8760))) with (8760 # 1); field. }
  split; [|split].
  - rewrite Hep, !length_map. exact Hlen.
  - intros t vp e Hvp He. rewrite Hep, !nth_error_map, Hvp in He. cbn [option_map] in He.
    apply some_inj in He. subst e. apply Hpt.
  - rewrite Hsum, Hep, !map_map. apply Qdiv_comp; [|reflexivity].
    apply qsum_map_ext. exact Hpt.
Qed.

Lemma sim_ok_Forall2 (wd : WeatherData) ps ps' :
  sim wd ps = Ok ps' ->
  Forall2 (fun p p' => exists r, calc wd p = Ok r /\
             p' = set_results p (r_energyProfile r) (r_surfaceArea r) (r_sumOfEnergyPerYear r))
    ps ps'.
Proof.
  revert ps'. induction ps as [|p ps IH]; intros ps' H; simpl in H.
  - apply ok_inj in H. subst. constructor.
  - destruct (calc wd p) as [r|e] eqn:E; cbn [bind] in H; [|discriminate].
    destruct (sim wd ps) as [ps''|e] eqn:E2; cbn [bind] in H; [|discriminate].
    apply ok_inj in H. subst ps'. constructor; [eauto|now apply IH].
Qed.

Lemma sim_ok_iff (wd : WeatherData) ps :
  (exists ps', sim wd ps = Ok ps') <-> Forall (fun p => exists r, calc wd p = Ok r) ps.
Proof.
  split.
  - intros [ps' H]. apply sim_ok_Forall2 in H.
    induction H as [|p p' ps ps' [r [Hr _]] _ IH]; constructor; eauto.
  - intros H. induction H as [|p ps [r Hr] _ [ps'' E]]; [eexists; reflexivity|].
    simpl. rewrite Hr. cbn [bind]. rewrite E. eexists; reflexivity.
Qed.

Lemma sim_ok_kwp (wd : WeatherData) ps ps' :
  sim wd ps = Ok ps' ->
  Forall (fun p' => exists ep, energyProfile p' = Some ep /\
                     systemKWP p' = Some (qsum ep / 1000)) ps'.
Proof.
  intros H. apply sim_ok_Forall2 in H.
  apply (Forall2_Forall_r _ (fun _ => True) _ _ _ H).
  - apply Forall_forall. auto.
  - intros x y [r [Hr ->]] _. exists (r_energyProfile r).
    unfold set_results. cbn [energyProfile systemKWP].
    destruct (calc_ok_inv wd x r Hr) as (m & i & dc & _ & _ & _ & _ & Hsum).
    rewrite Hsum. auto.
Qed.

(** X8.  After the plant loop has run, the [energyKWPSum] property of every
    plant with a non-zero annual energy is 1000: its [systemKWP] holds the
    annual energy in kWh, so energy per "kWp" is the Wh-to-kWh factor. *)
Theorem energyKWPSum_after_simulation (wd : WeatherData) ps ps'
  (H : sim wd ps = Ok ps') :
  Forall (fun p' => ~ energyProfileSum p' == 0 -> energyKWPSum p' == 1000) ps'.
Proof.
  apply sim_ok_kwp in H. eapply Forall_impl; [|exact H].
  intros p' [ep [E1 E2]]. unfold energyKWPSum, energyProfileSum. rewrite E1, E2.
  apply div_by_thousandth.
Qed.

Lemma require_ok {A : Type} (k : string) (o : option A) v : require k o = Ok v -> o = Some v.
Proof. destruct o; cbn; [intros H; apply ok_inj in H; now subst|discriminate]. Qed.

Lemma np_array_2d_ok (eps : list (list Q)) :
  np_array_2d eps = Ok tt <-> Forall (fun c => List.length c = nrows eps) eps.
Proof.
  unfold np_array_2d. rewrite Forall_forall. split.
  - destruct (forallb _ _) eqn:E; [|discriminate]. intros _ c Hc.
    rewrite forallb_forall in E. apply E in Hc. now apply Nat.eqb_eq in Hc.
  - intros H. destruct (forallb _ _) eqn:E; [reflexivity|].
    exfalso. apply Bool.not_true_iff_false in E. apply E.
    apply forallb_forall. intros c Hc. apply Nat.eqb_eq. now apply H.
Qed.

Lemma match_list_ok {A B : Type} (l : list A) (e k : result B) x :
  match l with [] => e | _ :: _ => k end = Ok x -> (l = [] /\ e = Ok x) \/ (l <> [] /\ k = Ok x).
Proof. destruct l; auto. intros H. right. split; [discriminate|exact H]. Qed.

Lemma area_profile_lengths (ps : list PhotovoltaicPlant) eps areas aps :
  collect profile_of ps = Ok eps -> collect area_of ps = Ok areas ->
  collect energyProfileArea ps = Ok aps ->
  Forall2 (fun ep ap => List.length ap = List.length ep) eps aps.
Proof.
  revert eps areas aps. induction ps as [|p ps IH]; intros eps areas aps He Ha Hp;
    cbn [collect] in He, Ha, Hp.
  - apply ok_inj in He, Hp. subst. constructor.
  - destruct (profile_of p) as [ep|e] eqn:E1; cbn [bind] in He; [|discriminate].
    destruct (collect profile_of ps) as [eps'|e] eqn:E1'; cbn [bind] in He; [|discriminate].
    destruct (area_of p) as [a|e] eqn:E2; cbn [bind] in Ha; [|discriminate].
    destruct (collect area_of ps) as [areas'|e] eqn:E2'; cbn [bind] in Ha; [|discriminate].
    destruct (energyProfileArea p) as [ap|e] eqn:E3; cbn [bind] in Hp; [|discriminate].
    destruct (collect energyProfileArea ps) as [aps'|e] eqn:E3'; cbn [bind] in Hp;
      [|discriminate].
    apply ok_inj in He, Hp. subst. constructor; [|exact (IH _ _ _ eq_refl eq_refl eq_refl)].
    apply require_ok in E1, E2. exact (energyProfileArea_length p ep a ap E1 E2 E3).
Qed.

Lemma lengths_transfer (n : nat) (eps aps : list (list Q)) :
  Forall2 (fun ep ap => List.length ap = List.length ep) eps aps ->
  Forall (fun ep => List.length ep = n) eps -> Forall (fun ap => List.length ap = n) aps.
Proof.
  induction 1 as [|ep ap eps aps Hl _ IH]; intros H; constructor;
    apply Forall_cons_iff in H as [H0 H]; [congruence|exact (IH H)].
Qed.

Lemma rowsum_skipna_map_Some (eps : list (list Q)) (n : nat) :
  rowsum_skipna (map (map Some) eps) n = rowsum eps n.
Proof.
  unfold rowsum_skipna, rowsum. apply map_ext. intros t. f_equal.
  rewrite map_map. apply map_ext. intros c. apply skipna_map_Some.
Qed.

Lemma frames_inv (ps : list PhotovoltaicPlant) er sr :
  generate_energy_profile_data_frame ps = Ok er ->
  generate_summary_data_frame ps = Ok sr ->
  exists eps aps areas kwps,
    collect profile_of ps = Ok eps /\ collect energyProfileArea ps = Ok aps /\
    collect area_of ps = Ok areas /\ collect kwp_of ps = Ok kwps /\ eps <> [] /\
    Forall (fun c => List.length c = nrows eps) eps /\
    er = mkDataframeResults (map (map Some) eps) (map (map Some) aps)
           (rowsum eps (nrows eps)) (map (fun v => v / qsum areas) (rowsum eps (nrows eps))) /\
    sr = mkSummaryResults
           (zip_with3 (fun s k a => (s, k, a)) (map qsum eps)
              (zip_with Qdiv (map qsum eps) kwps) (zip_with Qdiv (map qsum eps) areas))
           (qsum (rowsum eps (nrows eps)), qsum (rowsum eps (nrows eps)) / qsum kwps,
            qsum (rowsum eps (nrows eps)) / qsum areas).
Proof.
  intros He Hs. unfold generate_summary_data_frame in Hs.
  destruct (collect energyProfileArea ps) as [aps|e] eqn:Ep; cbn [bind] in Hs; [|discriminate].
  destruct (collect profile_of ps) as [eps|e] eqn:Ee; cbn [bind] in Hs; [|discriminate].
  destruct (np_array_2d eps) as [[]|e] eqn:Enp; cbn [bind] in Hs; [|discriminate].
  apply match_list_ok in Hs as [[_ Hs]|[Hne Hs]]; [discriminate|].
  destruct (collect area_of ps) as [areas|e] eqn:Ea; cbn [bind] in Hs; [|discriminate].
  destruct (collect kwp_of ps) as [kwps|e] eqn:Ek; cbn [bind] in Hs; [|discriminate].
  apply ok_inj in Hs. subst sr. apply np_array_2d_ok in Enp.
  pose proof (lengths_transfer _ _ _ (area_profile_lengths ps eps areas aps Ee Ea Ep) Enp)
    as La.
  assert (Hps : ps <> []).
  { intros ->. cbn in Ee. apply ok_inj in Ee. now subst eps. }
  unfold generate_energy_profile_data_frame in He.
  rewrite (fill_frame_uniform ps eps aps (nrows eps) Hps Ee Ep Enp La), Ea in He.
  cbn [bind index_len energy_columns area_columns] in He. apply ok_inj in He. subst er.
  rewrite rowsum_skipna_map_Some.
  exists eps, aps, areas, kwps. auto 10.
Qed.

Lemma per_plant_Forall2 (ps : list PhotovoltaicPlant) eps aps areas kwps :
  collect profile_of ps = Ok eps -> collect energyProfileArea ps = Ok aps ->
  collect area_of ps = Ok areas -> collect kwp_of ps = Ok kwps ->
  Forall2 (fun p pr => exists ep ap a k, energyProfile p = Some ep /\
             energyProfileArea p = Ok ap /\ surfaceArea p = Some a /\ systemKWP p = Some k /\
             pr = mkPvResult (map Some ep) (map Some ap) (qsum ep) (qsum ep / k) (qsum ep / a))
    ps (zip_with3 (fun e a s => let '(s0, s1, s2) := s in mkPvResult e a s0 s1 s2)
          (map (map Some) eps) (map (map Some) aps)
          (zip_with3 (fun s k a => (s, k, a)) (map qsum eps)
             (zip_with Qdiv (map qsum eps) kwps) (zip_with Qdiv (map qsum eps) areas))).
Proof.
  revert eps aps areas kwps.
  induction ps as [|p ps IH]; intros eps aps areas kwps He Hp Ha Hk.
  - cbn in He. apply ok_inj in He. subst. constructor.
  - cbn [collect] in He, Hp, Ha, Hk.
    destruct (profile_of p) as [ep|e] eqn:E1; cbn [bind] in He; [|discriminate].
    destruct (collect profile_of ps) as [eps'|e] eqn:E1'; cbn [bind] in He; [|discriminate].
    destruct (energyProfileArea p) as [ap|e] eqn:E4; cbn [bind] in Hp; [|discriminate].
    destruct (collect energyProfileArea ps) as [aps'|e] eqn:E4'; cbn [bind] in Hp;
      [|discriminate].
    destruct (area_of p) as [a|e] eqn:E2; cbn [bind] in Ha; [|discriminate].
    destruct (collect area_of ps) as [areas'|e] eqn:E2'; cbn [bind] in Ha; [|discriminate].
    destruct (kwp_of p) as [k|e] eqn:E3; cbn [bind] in Hk; [|discriminate].
    destruct (collect kwp_of ps) as [kwps'|e] eqn:E3'; cbn [bind] in Hk; [|discriminate].
    apply ok_inj in He, Hp, Ha, Hk. subst.
    specialize (IH _ _ _ _ eq_refl eq_refl eq_refl eq_refl).
    unfold zip_with in IH |- *. cbn [map zip_with3].
    constructor; [|exact IH].
    apply require_ok in E1, E2, E3. exists ep, ap, a, k. auto.
Qed.

Lemma results_per_plant (ps : list PhotovoltaicPlant) er sr :
  generate_energy_profile_data_frame ps = Ok er ->
  generate_summary_data_frame ps = Ok sr ->
  Forall2 (fun p pr => exists ep ap a k, energyProfile p = Some ep /\
             energyProfileArea p = Ok ap /\ surfaceArea p = Some a /\ systemKWP p = Some k /\
             pr = mkPvResult (map Some ep) (map Some ap) (qsum ep) (qsum ep / k) (qsum ep / a))
    ps (PhotovoltaicPlants (build_result_dict er sr)).
Proof.
  intros He Hs.
  destruct (frames_inv ps er sr He Hs)
    as (eps & aps & areas & kwps & Ee & Ep & Ea & Ek & _ & _ & -> & ->).
  unfold build_result_dict. cbn [over_all per_plant energy_cols area_cols PhotovoltaicPlants].
  now apply per_plant_Forall2.
Qed.

Lemma plants_profiles (ps : list PhotovoltaicPlant) prs eps :
  Forall2 (fun p pr => exists ep ap a k, energyProfile p = Some ep /\
             energyProfileArea p = Ok ap /\ surfaceArea p = Some a /\ systemKWP p = Some k /\
             pr = mkPvResult (map Some ep) (map Some ap) (qsum ep) (qsum ep / k) (qsum ep / a))
    ps prs ->
  collect profile_of ps = Ok eps ->
  map EnergyProfile prs = map (map Some) eps /\ map SumOfEnergyPerYear prs = map qsum eps.
Proof.
  intros H. revert eps.
  induction H as [|p pr ps prs (ep & ap & a & k & E1 & _ & _ & _ & ->) _ IH]; intros eps He.
  - cbn in He. apply ok_inj in He. now subst.
  - cbn [collect] in He. unfold profile_of at 1 in He. rewrite E1 in He. cbn [require bind] in He.
    destruct (collect profile_of ps) as [eps'|e] eqn:E'; cbn [bind] in He; [|discriminate].
    apply ok_inj in He. subst eps. destruct (IH eps' eq_refl) as [H1 H2].
    cbn [map EnergyProfile SumOfEnergyPerYear]. now rewrite H1, H2.
Qed.

Lemma qsum_map_zero (l : list nat) : qsum (map (fun _ => 0) l) == 0.
Proof. induction l as [|x l IH]; simpl map; [reflexivity|]. rewrite qsum_cons, IH. ring. Qed.

Lemma rowsum_total (cols : list (list Q)) (n : nat) :
  Forall (fun c => List.length c = n) cols -> qsum (rowsum cols n) == qsum (map qsum cols).
Proof.
  intros H. unfold rowsum. induction H as [|c cols Hc _ IH].
  - cbn [map]. rewrite (qsum_map_ext _ (fun _ => 0)) by (intros; reflexivity).
    rewrite qsum_map_zero. reflexivity.
  - rewrite (qsum_map_ext _ (fun t => nth t c 0 + qsum (map (fun c' => nth t c' 0) cols)))
      by (intros t; cbn [map]; apply qsum_cons).
    rewrite qsum_map_plus, IH. cbn [map]. rewrite qsum_cons, <- Hc, map_nth_seq.
    reflexivity.
Qed.

Lemma kwps_from_sim (ps : list PhotovoltaicPlant) eps kwps :
  Forall (fun p' => exists ep, energyProfile p' = Some ep /\
                     systemKWP p' = Some (qsum ep / 1000)) ps ->
  collect profile_of ps = Ok eps -> collect kwp_of ps = Ok kwps ->
  kwps = map (fun ep => qsum ep / 1000) eps.
Proof.
  intros H. revert eps kwps. induction H as [|p ps (ep & E1 & E2) _ IH]; intros eps kwps He Hk.
  - cbn in He, Hk. apply ok_inj in He, Hk. now subst.
  - cbn [collect] in He, Hk. unfold profile_of at 1 in He. unfold kwp_of at 1 in Hk.
    rewrite E1 in He. rewrite E2 in Hk. cbn [require bind] in He, Hk.
    destruct (collect profile_of ps) as [eps'|e]; cbn [bind] in He; [|discriminate].
    destruct (collect kwp_of ps) as [kwps'|e]; cbn [bind] in Hk; [|discriminate].
    apply ok_inj in He, Hk. subst. cbn [map]. f_equal. now apply IH.
Qed.

(** X9.  When both frames are built, the result has one record per plant,
    in plant order, holding the plant's stored profile, its area profile,
    its annual sum, and that sum divided by the stored [systemKWP] and by
    the stored surface area. *)
Theorem results_one_record_per_plant (ps : list PhotovoltaicPlant) er sr
  (He : generate_energy_profile_data_frame ps = Ok er)
  (Hs : generate_summary_data_frame ps = Ok sr) :
  Forall2 (fun p pr => exists ep ap a k, energyProfile p = Some ep /\
             energyProfileArea p = Ok ap /\ surfaceArea p = Some a /\ systemKWP p = Some k /\
             pr = mkPvResult (map Some ep) (map Some ap) (qsum ep) (qsum ep / k) (qsum ep / a))
    ps (PhotovoltaicPlants (build_result_dict er sr)).
Proof. exact (results_per_plant ps er sr He Hs). Qed.

(** X10.  In the result of [build_result_dict], the fleet record agrees
    with the per-plant records: its annual sum is the sum of the plants'
    annual sums, every plant profile has the length of the fleet profile,
    and the fleet profile at every hour is a number, the sum of the plant
    profiles at that hour. *)
Theorem fleet_record_sums_plants (ps : list PhotovoltaicPlant) er sr
  (He : generate_energy_profile_data_frame ps = Ok er)
  (Hs : generate_summary_data_frame ps = Ok sr) :
  SumOfEnergyPerYear (SummaryOfAllPlants (build_result_dict er sr)) ==
    qsum (map SumOfEnergyPerYear (PhotovoltaicPlants (build_result_dict er sr))) /\
  Forall (fun pr => List.length (EnergyProfile pr) =
                    List.length (EnergyProfile (SummaryOfAllPlants (build_result_dict er sr))))
    (PhotovoltaicPlants (build_result_dict er sr)) /\
  (forall t, (t < List.length (EnergyProfile (SummaryOfAllPlants (build_result_dict er sr))))%nat ->
     exists v,
       nth_error (EnergyProfile (SummaryOfAllPlants (build_result_dict er sr))) t = Some (Some v) /\
       v == qsum (map (fun pr => skipna (nth t (EnergyProfile pr) None))
                   (PhotovoltaicPlants (build_result_dict er sr)))).
Proof.
  pose proof (results_per_plant ps er sr He Hs) as HF.
  destruct (frames_inv ps er sr He Hs)
    as (eps & aps & areas & kwps & Ee & Ep & Ea & Ek & _ & Hlen & Er & Sr).
  destruct (plants_profiles _ _ _ HF Ee) as [Hp Hsum].
  revert HF Hp Hsum.
  generalize (PhotovoltaicPlants (build_result_dict er sr)) as prs. intros prs _ Hp Hsum.
  subst er sr. unfold build_result_dict.
  cbn [over_all SummaryOfAllPlants EnergyProfile SumOfEnergyPerYear all_energy].
  rewrite length_map, length_rowsum.
  split; [|split].
  - rewrite Hsum. apply rowsum_total. exact Hlen.
  - apply (f_equal (map (@List.length (option Q)))) in Hp. rewrite !map_map in Hp.
    rewrite Forall_forall. intros pr Hin.
    assert (Hl : In (List.length (EnergyProfile pr)) (map (fun ep => List.length (map Some ep)) eps)).
    { rewrite <- Hp. now apply (in_map (fun x => List.length (EnergyProfile x))). }
    apply in_map_iff in Hl as [ep [Hl Hin']]. rewrite <- Hl, length_map.
    rewrite Forall_forall in Hlen. now apply Hlen.
  - intros t Ht. exists (qsum (map (fun c => nth t c 0) eps)).
    rewrite nth_error_map, rowsum_nth by exact Ht. split; [reflexivity|].
    rewrite <- (map_map EnergyProfile (fun c => skipna (nth t c None))), Hp, map_map.
    apply qsum_map_ext. intros c. cbv beta. now rewrite skipna_map_Some.
Qed.

(** X11.  In the result of a successful [simulate_pv_plants] run, the
    [WorkSpecificEnergyPerYear] of every plant and of the fleet is 1000
    whenever the corresponding annual energy is non-zero, whatever the
    modules' rated power: the annual energy is divided by the stored
    [systemKWP], which the plant loop set to that energy over 1000. *)
Theorem work_specific_energy_is_1000 (wd : WeatherData) (ps : list PhotovoltaicPlant)
  res ps' log
  (H : simulate_pv_plants RES_PREFIX retrieve_module retrieve_inverter run_model sandia
         solar_zenith irradiance_dni wd ps = Ok (res, ps', log)) :
  Forall (fun pr => ~ SumOfEnergyPerYear pr == 0 -> WorkSpecificEnergyPerYear pr == 1000)
    (PhotovoltaicPlants res) /\
  (~ SumOfEnergyPerYear (SummaryOfAllPlants res) == 0 ->
   WorkSpecificEnergyPerYear (SummaryOfAllPlants res) == 1000).
Proof.
  unfold simulate_pv_plants in H.
  destruct (prepare_weather solar_zenith irradiance_dni wd) as [[wd1 lg]|e];
    cbn [bind] in H; [|discriminate].
  destruct (sim wd1 ps) as [ps2|e] eqn:Es; cbn [bind] in H; [|discriminate].
  destruct (generate_energy_profile_data_frame ps2) as [er|e] eqn:He; cbn [bind] in H;
    [|discriminate].
  destruct (generate_summary_data_frame ps2) as [sr|e] eqn:Hs; cbn [bind] in H;
    [|discriminate].
  apply ok_inj in H. apply pair_equal_spec in H as [H _].
  apply pair_equal_spec in H as [Hres _]. subst res.
  pose proof (sim_ok_kwp wd1 ps ps2 Es) as HK.
  split.
  - apply (Forall2_Forall_r _ _ _ _ _ (results_per_plant ps2 er sr He Hs) HK).
    intros p pr (ep & ap & a & k & E1 & _ & _ & E3 & ->) (ep' & E1' & E3').
    rewrite E1 in E1'. apply some_inj in E1'. subst ep'.
    rewrite E3 in E3'. apply some_inj in E3'. subst k.
    cbn [SumOfEnergyPerYear WorkSpecificEnergyPerYear]. apply div_by_thousandth.
  - destruct (frames_inv ps2 er sr He Hs)
      as (eps & aps & areas & kwps & Ee & Ep & Ea & Ek & _ & Hlen & -> & ->).
    rewrite (kwps_from_sim ps2 eps kwps HK Ee Ek).
    unfold build_result_dict.
    cbn [over_all SummaryOfAllPlants SumOfEnergyPerYear WorkSpecificEnergyPerYear].
    intros Hn. rewrite (qsum_map_div qsum), <- (rowsum_total eps (nrows eps) Hlen).
    apply div_by_thousandth. exact Hn.
Qed.

(** X12.  A request without plants fails once the weather is prepared:
    [np.sum] over the empty array of profiles raises "axis 1 is out of
    bounds for array of dimension 1". *)
Theorem empty_fleet_fails (wd wd' : WeatherData) log
  (Hp : prepare_weather solar_zenith irradiance_dni wd = Ok (wd', log)) :
  simulate_pv_plants RES_PREFIX retrieve_module retrieve_inverter run_model sandia
    solar_zenith irradiance_dni wd []
  = Err (ValueError "axis 1 is out of bounds for array of dimension 1").
Proof. unfold simulate_pv_plants. rewrite Hp. reflexivity. Qed.

End Collab.

Lemma collect_cons_ok {A : Type} (f : PhotovoltaicPlant -> result A) p ps xs :
  collect f (p :: ps) = Ok xs ->
  exists x xs', f p = Ok x /\ collect f ps = Ok xs' /\ xs = x :: xs'.
Proof.
  cbn [collect]. destruct (f p) as [x|e]; cbn [bind]; [|discriminate].
  destruct (collect f ps) as [xs'|e]; cbn [bind]; [|discriminate].
  intros H. apply ok_inj in H. subst. eauto.
Qed.

Lemma ensure_valid_index_fixed f v : index_len f <> 0%nat -> ensure_valid_index f v = f.
Proof. intros H. unfold ensure_valid_index. apply Nat.eqb_neq in H. now rewrite H. Qed.

Lemma ensure_valid_index_idx0 f v :
  index_len f = 0%nat -> index_len (ensure_valid_index f v) = List.length v.
Proof. intros H. unfold ensure_valid_index. rewrite H. destruct v; cbn; [exact H|reflexivity]. Qed.

Lemma energyProfileArea_ok_cases p ep a :
  energyProfile p = Some ep -> surfaceArea p = Some a -> (ep = [] \/ ~ a == 0) ->
  exists ap, energyProfileArea p = Ok ap /\ List.length ap = List.length ep.
Proof.
  intros He Ha [->|Hz].
  - exists []. split; [|reflexivity]. unfold energyProfileArea. rewrite He, Ha.
    now destruct (Qeq_bool a 0).
  - exists (map (fun v => v / a) ep).
    split; [now apply energyProfileArea_ok|apply length_map].
Qed.

(** one turn of the plant loop: the energy column fits the index unless the
    index is set and differs from the profile's length; the area column
    then raises [ZeroDivisionError] if the profile is not empty and the
    area is zero; otherwise the loop goes on with the index set *)
Lemma fill_frame_step f p ps ep a :
  energyProfile p = Some ep -> surfaceArea p = Some a ->
  (index_len f <> 0%nat -> List.length ep <> index_len f ->
     fill_frame f (p :: ps) =
       Err (ValueError ("Length of values (" ++ str_nat (List.length ep)
              ++ ") does not match length of index (" ++ str_nat (index_len f) ++ ")"))) /\
  ((index_len f = 0%nat \/ List.length ep = index_len f) -> ep <> [] -> a == 0 ->
     fill_frame f (p :: ps) = Err (ZeroDivisionError "float division by zero")) /\
  ((index_len f = 0%nat \/ List.length ep = index_len f) -> (ep = [] \/ ~ a == 0) ->
     exists f2, index_len f2 = (if Nat.eqb (index_len f) 0 then List.length ep else index_len f)
       /\ fill_frame f (p :: ps) = fill_frame f2 ps).
Proof.
  intros Hep Ha.
  assert (Hp : profile_of p = Ok ep) by (now apply profile_of_ok).
  set (n' := if Nat.eqb (index_len f) 0 then List.length ep else index_len f).
  assert (Hn' : (index_len f = 0%nat \/ List.length ep = index_len f) -> n' = List.length ep).
  { intros Hfit. unfold n'. destruct (Nat.eqb_spec (index_len f) 0); [reflexivity|].
    destruct Hfit as [Hfit|Hfit]; [contradiction|now symmetry]. }
  assert (E1 : (index_len f = 0%nat \/ List.length ep = index_len f) ->
     set_energy_column f ep =
       Ok (mkFrame n' (energy_columns (ensure_valid_index f ep) ++ [map Some ep])
             (area_columns (ensure_valid_index f ep)))).
  { intros Hfit. unfold set_energy_column, require_length_match. rewrite (Hn' Hfit).
    destruct (Nat.eqb_spec (index_len f) 0) as [Z|Z].
    - rewrite (ensure_valid_index_idx0 f ep Z), Nat.eqb_refl. reflexivity.
    - destruct Hfit as [Hfit|Hfit]; [contradiction|].
      rewrite (ensure_valid_index_fixed f ep Z), Hfit, Nat.eqb_refl. reflexivity. }
  cbn [fill_frame]. rewrite Hp. cbn [bind].
  split; [|split].
  - intros Z Hne. unfold set_energy_column, require_length_match.
    rewrite (ensure_valid_index_fixed f ep Z). apply Nat.eqb_neq in Hne. rewrite Hne.
    reflexivity.
  - intros Hfit Hne Hz. rewrite (E1 Hfit). cbn [bind].
    rewrite (energyProfileArea_zero p ep a Hep Ha Hz Hne). reflexivity.
  - intros Hfit Hok. rewrite (E1 Hfit). cbn [bind].
    destruct (energyProfileArea_ok_cases p ep a Hep Ha Hok) as [ap [Eap Lap]].
    rewrite Eap. cbn [bind].
    unfold set_area_column, require_length_match.
    rewrite ensure_valid_index_noop by (cbn [index_len]; rewrite Lap; exact (Hn' Hfit)).
    cbn [index_len]. rewrite Lap, <- (Hn' Hfit), Nat.eqb_refl. cbn [bind].
    eexists. split; [|reflexivity]. reflexivity.
Qed.

Lemma fits0_nil :
  exists k m rest, ([] : list (list Q)) = repeat [] k ++ rest /\
                   Forall (fun c => List.length c = m) rest.
Proof. exists 0%nat, 0%nat, []. split; [reflexivity|constructor]. Qed.

Lemma fits0_nil_cons (eps : list (list Q)) :
  (exists k m rest, [] :: eps = repeat [] k ++ rest /\ Forall (fun c => List.length c = m) rest)
  <-> (exists k m rest, eps = repeat [] k ++ rest /\ Forall (fun c => List.length c = m) rest).
Proof.
  split.
  - intros [[|k] [m [rest [E F]]]]; cbn in E.
    + subst rest. apply Forall_cons_iff in F as [_ F]. exists 0%nat, m, eps. auto.
    + injection E as E. exists k, m, rest. auto.
  - intros [k [m [rest [E F]]]]. exists (S k), m, rest. cbn. rewrite E. auto.
Qed.

Lemma fits0_ne_cons (ep : list Q) (eps : list (list Q)) :
  ep <> [] ->
  ((exists k m rest, ep :: eps = repeat [] k ++ rest /\ Forall (fun c => List.length c = m) rest)
   <-> Forall (fun c => List.length c = List.length ep) eps).
Proof.
  intros Hne. split.
  - intros [[|k] [m [rest [E F]]]]; cbn in E.
    + subst rest. apply Forall_cons_iff in F as [F0 F]. rewrite F0. exact F.
    + injection E as E1 E2. contradiction.
  - intros F. exists 0%nat, (List.length ep), (ep :: eps).
    split; [reflexivity|]. constructor; auto.
Qed.

(** whether the profiles fit a frame whose index has length [n] *)
Lemma fits_cons (n : nat) (ep : list Q) (eps : list (list Q)) :
  ((n = 0%nat /\ exists k m rest, ep :: eps = repeat [] k ++ rest /\
                                  Forall (fun c => List.length c = m) rest) \/
   (n <> 0%nat /\ Forall (fun c => List.length c = n) (ep :: eps))) <->
  ((n = 0%nat \/ List.length ep = n) /\
   (((if Nat.eqb n 0 then List.length ep else n) = 0%nat /\
     exists k m rest, eps = repeat [] k ++ rest /\ Forall (fun c => List.length c = m) rest) \/
    ((if Nat.eqb n 0 then List.length ep else n) <> 0%nat /\
     Forall (fun c => List.length c = (if Nat.eqb n 0 then List.length ep else n)) eps))).
Proof.
  destruct (Nat.eqb_spec n 0) as [->|Hn]; cbv iota.
  - destruct ep as [|x ep'].
    + rewrite fits0_nil_cons. cbn [List.length]. intuition.
    + rewrite (fits0_ne_cons (x :: ep') eps ltac:(discriminate)).
      split.
      * intros [[_ F]|[N _]]; [|now contradiction N].
        split; [now left|right]. split; [discriminate|exact F].
      * intros [_ [[Z _]|[_ F]]]; [discriminate Z|]. left. split; [reflexivity|exact F].
  - rewrite Forall_cons_iff. split.
    + intros [[Z _]|[_ [H0 F]]]; [contradiction|]. split; [now right|right]. auto.
    + intros [[Z|H0] [[Z' _]|[_ F]]]; try contradiction. right. auto.
Qed.

Lemma area_of_ok p a : area_of p = Ok a -> surfaceArea p = Some a.
Proof. apply require_ok. Qed.

Lemma head_area_dec (ep : list Q) (a : Q) : (ep = [] \/ ~ a == 0) \/ (ep <> [] /\ a == 0).
Proof.
  destruct ep as [|x ep]; [now left; left|].
  destruct (Qeq_dec a 0) as [Z|Z]; [right; split; [discriminate|exact Z]|now left; right].
Qed.

Lemma and_iff_helper (A B C D : Prop) : C -> D -> ((A /\ B) <-> ((C /\ A) /\ (D /\ B))).
Proof. tauto. Qed.

(** the plant loop succeeds exactly when the profiles fit the index and
    no non-empty profile has a zero area *)
Lemma fill_frame_ok_iff ps : forall f eps areas,
  collect profile_of ps = Ok eps -> collect area_of ps = Ok areas ->
  ((exists f', fill_frame f ps = Ok f') <->
   ((index_len f = 0%nat /\ exists k m rest, eps = repeat [] k ++ rest /\
                                             Forall (fun c => List.length c = m) rest) \/
    (index_len f <> 0%nat /\ Forall (fun c => List.length c = index_len f) eps)) /\
   Forall2 (fun ep a => ep <> [] -> ~ a == 0) eps areas).
Proof.
  induction ps as [|p ps IH]; intros f eps areas He Ha.
  - cbn in He, Ha. apply ok_inj in He, Ha. subst. cbn [fill_frame].
    split; [intros _|intros _; eexists; reflexivity].
    split; [|constructor].
    destruct (Nat.eq_dec (index_len f) 0%nat) as [Z|Z]; [left; split; [exact Z|apply fits0_nil]|].
    right. split; [exact Z|constructor].
  - destruct (collect_cons_ok _ _ _ _ He) as (ep & eps' & Ep & Ee & ->).
    destruct (collect_cons_ok _ _ _ _ Ha) as (a & areas' & Ea & Ea' & ->).
    apply profile_of_ok in Ep. apply area_of_ok in Ea.
    destruct (fill_frame_step f p ps ep a Ep Ea) as (S1 & S2 & S3).
    rewrite fits_cons, Forall2_cons_iff.
    destruct (Nat.eq_dec (index_len f) 0%nat) as [Z|Z];
      [|destruct (Nat.eq_dec (List.length ep) (index_len f)) as [L|L]].
    3: { rewrite (S1 Z L). split; [intros [f' E]; discriminate|].
         intros [[[Z'|L'] _] _]; contradiction. }
    all: assert (Hfit : index_len f = 0%nat \/ List.length ep = index_len f) by auto.
    all: destruct (head_area_dec ep a) as [Hok|[Hne Hz]];
      [|rewrite (S2 Hfit Hne Hz); split; [intros [f' E]; discriminate|];
        intros [_ [Hh _]]; destruct (Hh Hne Hz)].
    all: destruct (S3 Hfit Hok) as [f2 [I2 E2]]; rewrite E2, (IH f2 eps' areas' Ee Ea'), I2.
    all: assert (Hh : ep <> [] -> ~ a == 0) by (destruct Hok as [->|Hz]; tauto).
    all: exact (and_iff_helper _ _ _ _ Hfit Hh).
Qed.

(** with the areas fine and the profiles not fitting, the loop fails at
    the first profile that differs from the index *)
Lemma fill_frame_length_err ps : forall f eps areas,
  collect profile_of ps = Ok eps -> collect area_of ps = Ok areas ->
  Forall2 (fun ep a => ep <> [] -> ~ a == 0) eps areas ->
  ~ ((index_len f = 0%nat /\ exists k m rest, eps = repeat [] k ++ rest /\
                                              Forall (fun c => List.length c = m) rest) \/
     (index_len f <> 0%nat /\ Forall (fun c => List.length c = index_len f) eps)) ->
  exists k n, k <> n /\
    fill_frame f ps = Err (ValueError ("Length of values (" ++ str_nat k
                            ++ ") does not match length of index (" ++ str_nat n ++ ")")).
Proof.
  induction ps as [|p ps IH]; intros f eps areas He Ha Hok Hfits.
  - cbn in He. apply ok_inj in He. subst. exfalso. apply Hfits.
    destruct (Nat.eq_dec (index_len f) 0%nat) as [Z|Z]; [left; split; [exact Z|apply fits0_nil]|].
    right. split; [exact Z|constructor].
  - destruct (collect_cons_ok _ _ _ _ He) as (ep & eps' & Ep & Ee & ->).
    destruct (collect_cons_ok _ _ _ _ Ha) as (a & areas' & Ea & Ea' & ->).
    apply profile_of_ok in Ep. apply area_of_ok in Ea.
    apply Forall2_cons_iff in Hok as [Hh Hok].
    destruct (fill_frame_step f p ps ep a Ep Ea) as (S1 & _ & S3).
    rewrite fits_cons in Hfits.
    destruct (Nat.eq_dec (index_len f) 0%nat) as [Z|Z];
      [|destruct (Nat.eq_dec (List.length ep) (index_len f)) as [L|L]].
    3: { exists (List.length ep), (index_len f). split; [exact L|exact (S1 Z L)]. }
    all: assert (Hfit : index_len f = 0%nat \/ List.length ep = index_len f) by auto.
    all: assert (Ha0 : ep = [] \/ ~ a == 0)
      by (destruct ep as [|x ep]; [now left|right; apply Hh; discriminate]).
    all: destruct (S3 Hfit Ha0) as [f2 [I2 E2]]; rewrite E2.
    all: apply (IH f2 eps' areas' Ee Ea' Hok); rewrite I2; tauto.
Qed.

(** with the profiles fitting, a non-empty profile with a zero area makes
    the loop fail with [ZeroDivisionError] *)
Lemma fill_frame_zero_err ps : forall f eps areas,
  collect profile_of ps = Ok eps -> collect area_of ps = Ok areas ->
  ((index_len f = 0%nat /\ exists k m rest, eps = repeat [] k ++ rest /\
                                            Forall (fun c => List.length c = m) rest) \/
   (index_len f <> 0%nat /\ Forall (fun c => List.length c = index_len f) eps)) ->
  ~ Forall2 (fun ep a => ep <> [] -> ~ a == 0) eps areas ->
  fill_frame f ps = Err (ZeroDivisionError "float division by zero").
Proof.
  induction ps as [|p ps IH]; intros f eps areas He Ha Hfits Hbad.
  - cbn in He, Ha. apply ok_inj in He, Ha. subst. exfalso. apply Hbad. constructor.
  - destruct (collect_cons_ok _ _ _ _ He) as (ep & eps' & Ep & Ee & ->).
    destruct (collect_cons_ok _ _ _ _ Ha) as (a & areas' & Ea & Ea' & ->).
    apply profile_of_ok in Ep. apply area_of_ok in Ea.
    destruct (fill_frame_step f p ps ep a Ep Ea) as (_ & S2 & S3).
    rewrite fits_cons in Hfits. destruct Hfits as [Hfit Hfits].
    destruct (head_area_dec ep a) as [Hok|[Hne Hz]]; [|exact (S2 Hfit Hne Hz)].
    destruct (S3 Hfit Hok) as [f2 [I2 E2]]. rewrite E2.
    apply (IH f2 eps' areas' Ee Ea'); [now rewrite I2|].
    intros Hok'. apply Hbad. constructor; [|exact Hok'].
    destruct Hok as [->|Hz]; tauto.
Qed.

Lemma frame_of_fill (ps : list PhotovoltaicPlant) areas :
  collect area_of ps = Ok areas ->
  ((exists er, generate_energy_profile_data_frame ps = Ok er) <->
   (exists f, fill_frame empty_frame ps = Ok f)) /\
  (forall e, fill_frame empty_frame ps = Err e -> generate_energy_profile_data_frame ps = Err e).
Proof.
  intros Ha. unfold generate_energy_profile_data_frame.
  destruct (fill_frame empty_frame ps) as [f|e]; cbn [bind]; rewrite ?Ha; cbn [bind].
  - split; [split; intros _; eexists; reflexivity|intros e E; discriminate].
  - split; [split; intros [x E]; discriminate|intros e' E; injection E as <-; reflexivity].
Qed.

(** X13.  Once every plant has a stored profile and area, the energy frame
    is built exactly when, after any leading empty profiles (which pandas
    reindexes to NaN when a later column sets the index), all profiles
    have one length, and no plant with a non-empty profile has a zero
    surface area.  With the areas fine and the lengths not fitting, the
    column assignment raises "Length of values (k) does not match length
    of index (n)" for some [k <> n]; with the lengths fitting and a
    non-empty profile over a zero area, [energyProfileArea] raises
    [ZeroDivisionError]. *)
Theorem energy_frame_requires_equal_lengths (ps : list PhotovoltaicPlant) eps areas
  (He : collect profile_of ps = Ok eps) (Ha : collect area_of ps = Ok areas) :
  ((exists er, generate_energy_profile_data_frame ps = Ok er) <->
   (exists k m rest, eps = repeat [] k ++ rest /\ Forall (fun ep => List.length ep = m) rest) /\
   Forall2 (fun ep a => ep <> [] -> ~ a == 0) eps areas) /\
  (Forall2 (fun ep a => ep <> [] -> ~ a == 0) eps areas ->
   ~ (exists k m rest, eps = repeat [] k ++ rest /\ Forall (fun ep => List.length ep = m) rest) ->
   exists k n, k <> n /\
     generate_energy_profile_data_frame ps =
       Err (ValueError ("Length of values (" ++ str_nat k
                        ++ ") does not match length of index (" ++ str_nat n ++ ")"))) /\
  ((exists k m rest, eps = repeat [] k ++ rest /\ Forall (fun ep => List.length ep = m) rest) ->
   ~ Forall2 (fun ep a => ep <> [] -> ~ a == 0) eps areas ->
   generate_energy_profile_data_frame ps = Err (ZeroDivisionError "float division by zero")).
Proof.
  destruct (frame_of_fill ps areas Ha) as [Fok Ferr].
  pose proof (fill_frame_ok_iff ps empty_frame eps areas He Ha) as Hiff.
  cbn [index_len] in Hiff.
  split; [|split].
  - rewrite Fok, Hiff. intuition.
  - intros Hok Hfits.
    destruct (fill_frame_length_err ps empty_frame eps areas He Ha Hok) as (k & n & Hkn & E);
      [cbn [index_len]; intuition|].
    exists k, n. split; [exact Hkn|]. now apply Ferr.
  - intros Hfits Hbad. apply Ferr.
    apply (fill_frame_zero_err ps empty_frame eps areas He Ha); [|exact Hbad].
    cbn [index_len]. now left.
Qed.

(** X14.  For a plant whose stored surface area is non-zero, the area
    profile is computed without error and the two area accessors agree:
    the sum of [energyProfileArea] equals [energyProfileAreaSum]. *)
Theorem energyProfileAreaSum_is_sum (p : PhotovoltaicPlant)
  (Ha : forall a, surfaceArea p = Some a -> ~ a == 0) :
  exists aps, energyProfileArea p = Ok aps /\ qsum aps == energyProfileAreaSum p.
Proof.
  unfold energyProfileAreaSum, energyProfileSum.
  destruct (energyProfile p) as [ep|] eqn:Ep.
  - destruct (surfaceArea p) as [a|] eqn:Ea.
    + exists (map (fun v => v / a) ep).
      split; [apply energyProfileArea_ok; auto|].
      pose proof (qsum_map_div (fun v => v) a ep) as E. cbv beta in E.
      rewrite map_id in E. exact E.
    + exists []. split; [|reflexivity]. unfold energyProfileArea. now rewrite Ep, Ea.
  - exists []. split; [|destruct (surfaceArea p); reflexivity].
    unfold energyProfileArea. now rewrite Ep.
Qed.

End PvExtra.

(** ** The theorems at concrete inputs *)
Module Witnesses.
Import Facts DatReader PvSim QSum Examples WeatherProps ReaderProps PvSimProps.
Local Open Scope string_scope.


Lemma prepare_weather_order_witness :
  generate_df ex_wd = Ok tt /\
  prepare_weather ex_zenith ex_dni ex_wd =
    (let* wd1 := adjust_time_stamp ex_wd in
     let* wd2 := recalculate_dni ex_zenith ex_dni wd1 in
     Ok (wd2, [])) /\
  generate_df ex_wd_noadj = Ok tt /\
  (exists wd2, recalculate_dni ex_zenith ex_dni ex_wd_noadj = Ok wd2 /\
     prepare_weather ex_zenith ex_dni ex_wd_noadj = Ok (wd2, [Warning dni_warning])).
Proof.
  split; [vm_compute; reflexivity|]. split.
  - apply (proj1 (prepare_weather_order ex_zenith ex_dni ex_wd
                    ltac:(vm_compute; reflexivity))); reflexivity.
  - split; [vm_compute; reflexivity|].
    apply (proj2 (prepare_weather_order ex_zenith ex_dni ex_wd_noadj
                    ltac:(vm_compute; reflexivity))); reflexivity.
Defined.

Lemma recalculate_dni_clean_witness :
  (forall g d z, (g =? d)%float = true ->
     ex_dni g d z = 0%float \/ ex_dni g d z = neg_zero \/ is_nan (ex_dni g d z) = true) /\
  exists wd',
    recalculate_dni ex_zenith ex_dni ex_wd = Ok wd' /\
    (forall x, In x (dni (weatherData wd')) -> is_nan x = false /\ x <> neg_zero) /\
    (forall i g d,
        nth_error (ghi (weatherData wd')) i = Some g ->
        nth_error (dhi (weatherData wd')) i = Some d ->
        (g =? d)%float = true ->
        nth_error (dni (weatherData wd')) i = Some 0%float).
Proof.
  assert (Hext : forall g d z, (g =? d)%float = true ->
            ex_dni g d z = 0%float \/ ex_dni g d z = neg_zero \/
            is_nan (ex_dni g d z) = true)
    by (intros g d z Hgd; left; unfold ex_dni; now rewrite Hgd).
  split; [exact Hext|].
  destruct (recalculate_dni ex_zenith ex_dni ex_wd) as [wd'|e] eqn:E.
  - exists wd'. split; [reflexivity|].
    destruct (recalculate_dni_clean ex_zenith ex_dni ex_wd wd' Hext E) as [A [B _]].
    exact (conj A B).
  - assert (Hk : succeeded (recalculate_dni ex_zenith ex_dni ex_wd) = true)
      by (vm_compute; reflexivity).
    rewrite E in Hk. discriminate Hk.
Defined.

Lemma read_in_dat_file_row_count_witness :
  scan_header "try.dat" empty_meta "" ex_small_file = Ok (ex_small_meta, ["t"], ["5"]) /\
  m_Hochwert ex_small_meta = Some 2%Z /\ m_Rechtswert ex_small_meta = Some 1%Z /\
  read_table ["t"] ["5"] = Ok [[5%float]] /\
  (exists msg, read_in_dat_file ex_transform "try.dat" ex_small_file = Err (ValueError msg) /\
     infix "try.dat" msg /\ infix (str_nat 1) msg).
Proof.
  split; [vm_compute; reflexivity|]. split; [reflexivity|]. split; [reflexivity|].
  split; [vm_compute; reflexivity|].
  apply (proj1 (read_in_dat_file_row_count ex_transform "try.dat" ex_small_file
                  ex_small_meta ["t"] ["5"] [[5%float]] 2 1
                  ltac:(vm_compute; reflexivity) eq_refl eq_refl
                  ltac:(vm_compute; reflexivity))).
  cbn. lia.
Defined.

Lemma read_in_dat_file_timestamps_witness :
  exists wd, read_in_dat_file ex_transform "try.dat" ex_full_file = Ok wd /\
  Forall (fun l => Z.of_nat l = 8760%Z) (column_lengths (weatherData wd)) /\
  (forall i j a b, (i < j)%nat ->
     nth_error (timeStamps (weatherData wd)) i = Some a ->
     nth_error (timeStamps (weatherData wd)) j = Some b ->
     (ts_utc a < ts_utc b)%Z) /\
  (forall i a b,
     nth_error (timeStamps (weatherData wd)) i = Some a ->
     nth_error (timeStamps (weatherData wd)) (S i) = Some b ->
     ts_utc b = (ts_utc a + 60)%Z) /\
  (exists t0, nth_error (timeStamps (weatherData wd)) 0 = Some t0 /\
     civil_from_days (wall t0 / 1440) = (2015%Z, 1%Z, 1%Z) /\
     (wall t0 mod 1440 = 0)%Z) /\
  (forall t, In t (timeStamps (weatherData wd)) -> ts_tz t = (tz wd * 3600)%Z) /\
  tz wd = 1%Z.
Proof.
  destruct (read_in_dat_file ex_transform "try.dat" ex_full_file) as [wd|e] eqn:E.
  - exists wd. split; [reflexivity|].
    exact (read_in_dat_file_timestamps ex_transform "try.dat" ex_full_file wd E).
  - assert (Hk : succeeded (read_in_dat_file ex_transform "try.dat" ex_full_file) = true)
      by (vm_compute; reflexivity).
    rewrite E in Hk. discriminate Hk.
Defined.

Lemma read_in_dat_file_dni_is_B_witness :
  exists meta names rest rows wd,
    scan_header "try.dat" empty_meta "" ex_full_file = Ok (meta, names, rest) /\
    read_table names rest = Ok rows /\
    read_in_dat_file ex_transform "try.dat" ex_full_file = Ok wd /\
    column names rows "B" = Ok (dni (weatherData wd)) /\
    adjustTimestamp wd = true /\ recalculateDNI wd = true /\ timeshiftInMinutes wd = 30%Z.
Proof.
  assert (Hk : (match scan_header "try.dat" empty_meta "" ex_full_file with
                | Ok (_, names, rest) => succeeded (read_table names rest)
                | Err _ => false
                end && succeeded (read_in_dat_file ex_transform "try.dat" ex_full_file))%bool
               = true)
    by (vm_compute; reflexivity).
  destruct (scan_header "try.dat" empty_meta "" ex_full_file) as [[[meta names] rest]|e] eqn:Hs;
    [|discriminate Hk].
  destruct (read_table names rest) as [rows|e] eqn:Ht; [|discriminate Hk].
  destruct (read_in_dat_file ex_transform "try.dat" ex_full_file) as [wd|e] eqn:E;
    [|discriminate Hk].
  exists meta, names, rest, rows, wd.
  split; [reflexivity|]. split; [exact Ht|]. split; [reflexivity|].
  exact (read_in_dat_file_dni_is_B ex_transform "try.dat" ex_full_file wd meta names rest
           rows Hs Ht E).
Defined.

Lemma fleet_area_profile_area_weighted_witness :
  exists er,
    generate_energy_profile_data_frame
      [ex_result_plant [] 1 1; ex_result_plant [1; 2] 1 1; ex_result_plant [3; 4] 3 1] = Ok er /\
    exists eps aps areas,
      collect profile_of
        [ex_result_plant [] 1 1; ex_result_plant [1; 2] 1 1; ex_result_plant [3; 4] 3 1]
        = Ok eps /\
      collect energyProfileArea
        [ex_result_plant [] 1 1; ex_result_plant [1; 2] 1 1; ex_result_plant [3; 4] 3 1]
        = Ok aps /\
      collect area_of
        [ex_result_plant [] 1 1; ex_result_plant [1; 2] 1 1; ex_result_plant [3; 4] 3 1]
        = Ok areas /\
      (forall t, (t < List.length (all_area er))%nat ->
         nth_error (all_area er) t = Some (qsum (map (fun ep => nth t ep 0) eps) / qsum areas)).
Proof.
  destruct (generate_energy_profile_data_frame
              [ex_result_plant [] 1 1; ex_result_plant [1; 2] 1 1; ex_result_plant [3; 4] 3 1])
    as [er|e] eqn:E.
  - exists er. split; [reflexivity|].
    destruct (fleet_area_profile_area_weighted _ er E)
      as (eps & aps & areas & H1 & H2 & H3 & _ & _ & _ & H7 & _).
    exists eps, aps, areas. auto.
  - vm_compute in E. discriminate E.
Defined.

Lemma fleet_summary_identical_plants_witness :
  (0 < 3)%nat /\
  energyProfile (ex_result_plant [1; 2] 4 (1 # 2)) = Some [1; 2] /\
  surfaceArea (ex_result_plant [1; 2] 4 (1 # 2)) = Some 4 /\
  systemKWP (ex_result_plant [1; 2] 4 (1 # 2)) = Some (1 # 2) /\
  ~ 4 == 0 /\ ~ (1 # 2) == 0 /\
  exists er sr,
    generate_energy_profile_data_frame (repeat (ex_result_plant [1; 2] 4 (1 # 2)) 3) = Ok er /\
    generate_summary_data_frame (repeat (ex_result_plant [1; 2] 4 (1 # 2)) 3) = Ok sr /\
    SumOfEnergyPerYear (SummaryOfAllPlants (build_result_dict er sr))
      == inject_Z (Z.of_nat 3) * qsum [1; 2] /\
    WorkSpecificEnergyPerYear (SummaryOfAllPlants (build_result_dict er sr))
      == qsum [1; 2] / (1 # 2) /\
    AreaSpecificEnergyPerYear (SummaryOfAllPlants (build_result_dict er sr))
      == qsum [1; 2] / 4.
Proof.
  assert (H4 : ~ 4 == 0) by (intros Hq; vm_compute in Hq; discriminate Hq).
  assert (H5 : ~ (1 # 2) == 0) by (intros Hq; vm_compute in Hq; discriminate Hq).
  split; [lia|]. split; [reflexivity|]. split; [reflexivity|]. split; [reflexivity|].
  split; [exact H4|]. split; [exact H5|].
  exact (fleet_summary_identical_plants (ex_result_plant [1; 2] 4 (1 # 2)) [1; 2] (1 # 2) 4 3
           ltac:(lia) eq_refl eq_refl eq_refl H4 H5).
Defined.

Lemma unknown_database_type_propagates_witness :
  (modulesDatabaseType ex_bad_plant <> 1%Z /\ modulesDatabaseType ex_bad_plant <> 2%Z) /\
  prepare_weather ex_zenith ex_dni ex_wd_plain = Ok (ex_wd_plain, []) /\
  simulate_pv_plants "res" ex_retrieve_module ex_retrieve_inverter ex_run_model ex_sandia
    ex_zenith ex_dni ex_wd_plain ([ex_plant] ++ ex_bad_plant :: [ex_plant])%list
  = Err (ValueError ("Unknown modules database type: " ++ str_Z (modulesDatabaseType ex_bad_plant))).
Proof.
  assert (H1 : modulesDatabaseType ex_bad_plant <> 1%Z) by discriminate.
  assert (H2 : modulesDatabaseType ex_bad_plant <> 2%Z) by discriminate.
  split; [split; assumption|]. split; [reflexivity|].
  apply (proj2 (proj2 (unknown_database_type_propagates "res" ex_retrieve_module
                         ex_retrieve_inverter ex_run_model ex_sandia ex_zenith ex_dni
                         ex_bad_plant H1 H2))
           ex_wd_plain ex_wd_plain [] [ex_plant] [ex_plant] eq_refl).
  intros q Hq. destruct Hq as [<-|[]].
  eexists. vm_compute. reflexivity.
Defined.

End Witnesses.

(** ** The further properties at concrete inputs *)
Module ExtraWitnesses.
Import Facts DatReader PvSim QSum Examples WeatherExtra ReaderExtra PvExtra.
Local Open Scope string_scope.

Lemma ex_full_file_scan :
  scan_header "try.dat" empty_meta "" ex_full_file =
    Ok (mkMeta (Some 3936500%Z) (Some 2449500%Z) (Some 450%Z) (Some "mittleres Jahr"),
        ["RW"; "HW"; "MM"; "DD"; "HH"; "t"; "p"; "WR"; "WG"; "N"; "x"; "RF"; "B"; "D";
         "A"; "E"; "IL"],
        repeat ex_row (Z.to_nat 8760)).
Proof. vm_compute. reflexivity. Qed.

Lemma missing_database_entry_raises_witness :
  modulesDatabasePath "res" ex_plant = Ok "res/220225_Sandia_Modules.csv" /\
  invertersDatabasePath "res" ex_plant = Ok "res/221115_CEC_Inverters.csv" /\
  (forall wd, calc_pv_power_profile "res" ex_no_module ex_retrieve_inverter ex_run_model
                ex_sandia wd ex_plant = Err (KeyError "Example_Module")) /\
  (forall wd, calc_pv_power_profile "res" ex_retrieve_module ex_no_inverter ex_run_model
                ex_sandia wd ex_plant = Err (KeyError "Example_Inverter")).
Proof.
  split; [reflexivity|]. split; [reflexivity|]. split.
  - exact (proj1 (missing_database_entry_raises "res" ex_no_module ex_retrieve_inverter
                    ex_run_model ex_sandia ex_plant _ _ eq_refl eq_refl) eq_refl).
  - exact (proj2 (missing_database_entry_raises "res" ex_retrieve_module ex_no_inverter
                    ex_run_model ex_sandia ex_plant _ _ eq_refl eq_refl) ex_module
             eq_refl eq_refl).
Defined.

Lemma unsupported_installation_raises_witness :
  get_modules_and_inverters "res" ex_retrieve_module ex_retrieve_inverter
    ex_plant_installation7 = Ok (ex_module, ex_inverter) /\
  ~ In (moduleInstallation ex_plant_installation7) [1; 2; 3; 4]%Z /\
  calc_pv_power_profile "res" ex_retrieve_module ex_retrieve_inverter ex_run_model ex_sandia
    ex_wd ex_plant_installation7 = Err (KeyError "7").
Proof.
  assert (Hk : ~ In (moduleInstallation ex_plant_installation7) [1; 2; 3; 4]%Z)
    by (cbn; intros [H|[H|[H|[H|[]]]]]; discriminate H).
  split; [reflexivity|]. split; [exact Hk|].
  exact (unsupported_installation_raises "res" ex_retrieve_module ex_retrieve_inverter
           ex_run_model ex_sandia ex_plant_installation7 ex_module ex_inverter eq_refl Hk ex_wd).
Defined.


Lemma calc_energy_nonneg_witness :
  useStandByPowerInverter ex_plant = false /\
  exists r, calc_pv_power_profile "res" ex_retrieve_module ex_retrieve_inverter ex_run_model
              ex_sandia ex_wd ex_plant = Ok r /\
    (forall v, In v (r_energyProfile r) -> 0 <= v)%Q /\ (0 <= r_sumOfEnergyPerYear r)%Q.
Proof.
  split; [reflexivity|].
  destruct (calc_pv_power_profile "res" ex_retrieve_module ex_retrieve_inverter ex_run_model
              ex_sandia ex_wd ex_plant) as [r|e] eqn:E.
  - exists r. split; [reflexivity|].
    destruct (calc_energy_nonneg "res" ex_retrieve_module ex_retrieve_inverter ex_run_model
                ex_sandia ex_wd ex_plant r eq_refl E) as [H1 [H2 _]].
    split; [exact H1|exact H2].
  - vm_compute in E. discriminate E.
Defined.

Lemma calc_full_year_eta_witness :
  useInverterDatabase ex_plant = false /\ useStandByPowerInverter ex_plant = false /\
  get_modules_and_inverters "res" ex_retrieve_module ex_retrieve_inverter ex_plant
    = Ok (ex_module, ex_inverter) /\
  ex_run_model_year ex_plant ex_module ex_inverter ex_wd
    = Ok (repeat (Some 30, Some 100) (Z.to_nat 8760)) /\
  List.length (repeat (@pair (option Q) (option Q) (Some 30) (Some 100)) (Z.to_nat 8760))
    = Z.to_nat 8760 /\
  exists r, calc_pv_power_profile "res" ex_retrieve_module ex_retrieve_inverter
              ex_run_model_year ex_sandia ex_wd ex_plant = Ok r /\
    (r_sumOfEnergyPerYear r == 876)%Q.
Proof.
  split; [reflexivity|]. split; [reflexivity|]. split; [reflexivity|].
  split; [reflexivity|]. split; [apply repeat_length|].
  assert (Hk : succeeded (calc_pv_power_profile "res" ex_retrieve_module ex_retrieve_inverter
                 ex_run_model_year ex_sandia ex_wd ex_plant) = true) by reflexivity.
  destruct (calc_pv_power_profile "res" ex_retrieve_module ex_retrieve_inverter
              ex_run_model_year ex_sandia ex_wd ex_plant) as [r|e] eqn:E;
    [|discriminate Hk].
  exists r. split; [reflexivity|].
  destruct (calc_full_year_eta "res" ex_retrieve_module ex_retrieve_inverter
              ex_run_model_year ex_sandia ex_wd ex_plant ex_module ex_inverter
              (repeat (Some 30, Some 100) (Z.to_nat 8760)) r eq_refl eq_refl eq_refl
              eq_refl (repeat_length _ _) E) as [_ [_ H3]].
  rewrite H3, map_repeat, qsum_repeat. vm_compute. reflexivity.
Defined.

Lemma energyKWPSum_after_simulation_witness :
  exists ps', simulate_plants "res" ex_retrieve_module ex_retrieve_inverter ex_run_model
                ex_sandia ex_wd [ex_plant] = Ok ps' /\
    Forall (fun p' => ~ (energyProfileSum p' == 0)%Q -> (energyKWPSum p' == 1000)%Q) ps'.
Proof.
  destruct (simulate_plants "res" ex_retrieve_module ex_retrieve_inverter ex_run_model
              ex_sandia ex_wd [ex_plant]) as [ps'|e] eqn:E.
  - exists ps'. split; [reflexivity|].
    exact (energyKWPSum_after_simulation "res" ex_retrieve_module ex_retrieve_inverter
             ex_run_model ex_sandia ex_wd [ex_plant] ps' E).
  - vm_compute in E. discriminate E.
Defined.

Lemma results_one_record_per_plant_witness :
  exists er sr,
    generate_energy_profile_data_frame [ex_result_plant [1; 2] 4 1; ex_result_plant [3; 4] 2 5]
      = Ok er /\
    generate_summary_data_frame [ex_result_plant [1; 2] 4 1; ex_result_plant [3; 4] 2 5]
      = Ok sr /\
    List.length (PhotovoltaicPlants (build_result_dict er sr)) = 2%nat.
Proof.
  destruct (generate_energy_profile_data_frame
              [ex_result_plant [1; 2] 4 1; ex_result_plant [3; 4] 2 5]) as [er|e] eqn:E1;
    [|vm_compute in E1; discriminate E1].
  destruct (generate_summary_data_frame
              [ex_result_plant [1; 2] 4 1; ex_result_plant [3; 4] 2 5]) as [sr|e] eqn:E2;
    [|vm_compute in E2; discriminate E2].
  exists er, sr. split; [reflexivity|]. split; [reflexivity|].
  symmetry. exact (Forall2_length (results_one_record_per_plant _ er sr E1 E2)).
Defined.

Lemma fleet_record_sums_plants_witness :
  exists er sr,
    generate_energy_profile_data_frame [ex_result_plant [1; 2] 4 1; ex_result_plant [3; 4] 2 5]
      = Ok er /\
    generate_summary_data_frame [ex_result_plant [1; 2] 4 1; ex_result_plant [3; 4] 2 5]
      = Ok sr /\
    (SumOfEnergyPerYear (SummaryOfAllPlants (build_result_dict er sr)) ==
       qsum (map SumOfEnergyPerYear (PhotovoltaicPlants (build_result_dict er sr))))%Q.
Proof.
  destruct (generate_energy_profile_data_frame
              [ex_result_plant [1; 2] 4 1; ex_result_plant [3; 4] 2 5]) as [er|e] eqn:E1;
    [|vm_compute in E1; discriminate E1].
  destruct (generate_summary_data_frame
              [ex_result_plant [1; 2] 4 1; ex_result_plant [3; 4] 2 5]) as [sr|e] eqn:E2;
    [|vm_compute in E2; discriminate E2].
  exists er, sr. split; [reflexivity|]. split; [reflexivity|].
  exact (proj1 (fleet_record_sums_plants _ er sr E1 E2)).
Defined.

Lemma work_specific_energy_is_1000_witness :
  exists res ps' log,
    simulate_pv_plants "res" ex_retrieve_module ex_retrieve_inverter ex_run_model ex_sandia
      ex_zenith ex_dni ex_wd_plain [ex_plant] = Ok (res, ps', log) /\
    (WorkSpecificEnergyPerYear (SummaryOfAllPlants res) == 1000)%Q.
Proof.
  assert (Hk : match simulate_pv_plants "res" ex_retrieve_module ex_retrieve_inverter
                       ex_run_model ex_sandia ex_zenith ex_dni ex_wd_plain [ex_plant] with
               | Ok (res, _, _) => negb (Qeq_bool (SumOfEnergyPerYear (SummaryOfAllPlants res)) 0)
               | Err _ => false
               end = true) by (vm_compute; reflexivity).
  destruct (simulate_pv_plants "res" ex_retrieve_module ex_retrieve_inverter ex_run_model
              ex_sandia ex_zenith ex_dni ex_wd_plain [ex_plant]) as [[[res ps'] log]|e] eqn:E;
    [|discriminate Hk].
  exists res, ps', log. split; [reflexivity|].
  apply (proj2 (work_specific_energy_is_1000 "res" ex_retrieve_module ex_retrieve_inverter
                  ex_run_model ex_sandia ex_zenith ex_dni ex_wd_plain [ex_plant] res ps' log E)).
  intros Hq. apply Qeq_bool_iff in Hq. rewrite Hq in Hk. discriminate Hk.
Defined.

Lemma empty_fleet_fails_witness :
  prepare_weather ex_zenith ex_dni ex_wd_plain = Ok (ex_wd_plain, []) /\
  simulate_pv_plants "res" ex_retrieve_module ex_retrieve_inverter ex_run_model ex_sandia
    ex_zenith ex_dni ex_wd_plain []
  = Err (ValueError "axis 1 is out of bounds for array of dimension 1").
Proof.
  split; [reflexivity|].
  exact (empty_fleet_fails "res" ex_retrieve_module ex_retrieve_inverter ex_run_model ex_sandia
           ex_zenith ex_dni ex_wd_plain ex_wd_plain [] eq_refl).
Defined.

Lemma energy_frame_requires_equal_lengths_witness :
  collect profile_of [ex_result_plant [1; 2] 1 1; ex_result_plant [3] 1 1] = Ok [[1; 2]; [3]]%Q /\
  collect area_of [ex_result_plant [1; 2] 1 1; ex_result_plant [3] 1 1] = Ok [1; 1]%Q /\
  exists k n, k <> n /\
    generate_energy_profile_data_frame [ex_result_plant [1; 2] 1 1; ex_result_plant [3] 1 1]
    = Err (ValueError ("Length of values (" ++ str_nat k
                       ++ ") does not match length of index (" ++ str_nat n ++ ")")).
Proof.
  split; [reflexivity|]. split; [reflexivity|].
  apply (proj1 (proj2 (energy_frame_requires_equal_lengths
    [ex_result_plant [1; 2] 1 1; ex_result_plant [3] 1 1] [[1; 2]; [3]]%Q [1; 1]%Q
    eq_refl eq_refl))).
  - constructor; [|constructor; [|constructor]];
      intros _ Hq; vm_compute in Hq; discriminate Hq.
  - intros (k & m & rest & E & F). destruct k as [|k]; cbn in E; [|discriminate E].
    subst rest. apply Forall_cons_iff in F as [F1 F]. apply Forall_cons_iff in F as [F2 _].
    cbn in F1, F2. lia.
Defined.

Lemma energyProfileAreaSum_is_sum_witness :
  (forall a, surfaceArea (ex_result_plant [1; 2] 4 1) = Some a -> ~ (a == 0)%Q) /\
  exists aps, energyProfileArea (ex_result_plant [1; 2] 4 1) = Ok aps /\
    (qsum aps == energyProfileAreaSum (ex_result_plant [1; 2] 4 1))%Q.
Proof.
  assert (Ha : forall a, surfaceArea (ex_result_plant [1; 2] 4 1) = Some a -> ~ (a == 0)%Q).
  { intros a E Hq. cbn in E. apply some_inj in E. subst a. vm_compute in Hq. discriminate Hq. }
  split; [exact Ha|].
  exact (energyProfileAreaSum_is_sum _ Ha).
Defined.

Lemma recalculate_dni_idempotent_witness :
  exists wd1, recalculate_dni ex_zenith ex_dni ex_wd = Ok wd1 /\
    recalculate_dni ex_zenith ex_dni wd1 = Ok wd1.
Proof.
  destruct (recalculate_dni ex_zenith ex_dni ex_wd) as [wd1|e] eqn:E.
  - exists wd1. split; [reflexivity|].
    exact (proj1 (recalculate_dni_idempotent ex_zenith ex_dni ex_wd wd1 E)).
  - vm_compute in E. discriminate E.
Defined.


Lemma read_in_dat_file_columns_witness :
  exists rows wd,
    read_table ["RW"; "HW"; "MM"; "DD"; "HH"; "t"; "p"; "WR"; "WG"; "N"; "x"; "RF"; "B"; "D";
                "A"; "E"; "IL"] (repeat ex_row (Z.to_nat 8760)) = Ok rows /\
    read_in_dat_file ex_transform "try.dat" ex_full_file = Ok wd /\
    column ["RW"; "HW"; "MM"; "DD"; "HH"; "t"; "p"; "WR"; "WG"; "N"; "x"; "RF"; "B"; "D";
            "A"; "E"; "IL"] rows "t" = Ok (temp_air (weatherData wd)).
Proof.
  assert (Hk : (succeeded (read_table ["RW"; "HW"; "MM"; "DD"; "HH"; "t"; "p"; "WR"; "WG";
                  "N"; "x"; "RF"; "B"; "D"; "A"; "E"; "IL"] (repeat ex_row (Z.to_nat 8760)))
                && succeeded (read_in_dat_file ex_transform "try.dat" ex_full_file))%bool
               = true) by (vm_compute; reflexivity).
  destruct (read_table _ (repeat ex_row (Z.to_nat 8760))) as [rows|e] eqn:Ht;
    [|discriminate Hk].
  destruct (read_in_dat_file ex_transform "try.dat" ex_full_file) as [wd|e] eqn:E;
    [|discriminate Hk].
  exists rows, wd. split; [reflexivity|]. split; [reflexivity|].
  exact (proj1 (read_in_dat_file_columns ex_transform "try.dat" ex_full_file wd _ _ _ rows
                  ex_full_file_scan Ht E)).
Defined.

Lemma read_in_dat_file_metadata_witness :
  exists wd, read_in_dat_file ex_transform "try.dat" ex_full_file = Ok wd /\
    (latitude wd, longitude wd) = ex_transform 2449500 3936500 /\ years wd = 2015%Z.
Proof.
  destruct (read_in_dat_file ex_transform "try.dat" ex_full_file) as [wd|e] eqn:E.
  - exists wd. split; [reflexivity|].
    destruct (read_in_dat_file_metadata ex_transform "try.dat" ex_full_file wd _ _ _
                2449500 3936500 ex_full_file_scan eq_refl eq_refl E) as (H1 & _ & _ & H4 & _).
    split; [exact H1|exact H4].
  - assert (Hk : succeeded (read_in_dat_file ex_transform "try.dat" ex_full_file) = true)
      by (vm_compute; reflexivity).
    rewrite E in Hk. discriminate Hk.
Defined.

Lemma read_in_dat_file_calendar_witness :
  exists wd, read_in_dat_file ex_transform "try.dat" ex_full_file = Ok wd /\
    Forall (fun v => (0 <= v <= 23)%Z) (hour (weatherData wd)).
Proof.
  destruct (read_in_dat_file ex_transform "try.dat" ex_full_file) as [wd|e] eqn:E.
  - exists wd. split; [reflexivity|].
    destruct (read_in_dat_file_calendar ex_transform "try.dat" ex_full_file wd E)
      as (_ & _ & _ & _ & _ & H6 & _).
    exact H6.
  - assert (Hk : succeeded (read_in_dat_file ex_transform "try.dat" ex_full_file) = true)
      by (vm_compute; reflexivity).
    rewrite E in Hk. discriminate Hk.
Defined.

Lemma read_in_dat_file_missing_coordinates_witness :
  scan_header "try.dat" empty_meta "" ex_file_no_hochwert
    = Ok (mkMeta (Some 1%Z) None None None, ["t"], ["5"]) /\
  read_in_dat_file ex_transform "try.dat" ex_file_no_hochwert = Err (KeyError "Hochwert").
Proof.
  assert (Hs : scan_header "try.dat" empty_meta "" ex_file_no_hochwert
                 = Ok (mkMeta (Some 1%Z) None None None, ["t"], ["5"]))
    by (vm_compute; reflexivity).
  split; [exact Hs|].
  exact (proj1 (read_in_dat_file_missing_coordinates ex_transform "try.dat" _ _ _ _ Hs)
           eq_refl).
Defined.

Lemma read_in_dat_file_no_sentinel_witness :
  Forall (fun l => String.prefix "***" l = false) ex_file_no_sentinel /\
  scan_header "try.dat" empty_meta "" ex_file_no_sentinel
    = Ok (mkMeta (Some 1%Z) (Some 2%Z) None None, [], []) /\
  read_in_dat_file ex_transform "try.dat" ex_file_no_sentinel =
    Err (ValueError ("Could not read the datapoints in the .dat weather data file try.dat. "
                     ++ "The following error occured: No columns to parse from file")).
Proof.
  assert (Hno : Forall (fun l => String.prefix "***" l = false) ex_file_no_sentinel)
    by (repeat constructor).
  assert (Hs : scan_header "try.dat" empty_meta "" ex_file_no_sentinel
                 = Ok (mkMeta (Some 1%Z) (Some 2%Z) None None, [], []))
    by (vm_compute; reflexivity).
  split; [exact Hno|]. split; [exact Hs|].
  exact (proj2 (proj2 (read_in_dat_file_no_sentinel ex_transform "try.dat" _ _ _ _ 2 1
                         Hno Hs eq_refl eq_refl))).
Defined.

End ExtraWitnesses.
